(** * Strato-Query: the request-delivery core of [strato_query/api_query.py]

    A shallow embedding of [SDAPIQuery], [SDJobRunner] and
    [_submit_post_request].  The network, the clock, the console and the token
    provider are the only effects of the module: a computation receives the
    events that happened before it started and reports the events it emits
    itself, so that "no POST was issued" is a statement about a list.  *)

From Stdlib Require Import List String Ascii ZArith QArith Bool Arith Lia.
Import ListNotations.
Local Open Scope string_scope.
Local Open Scope list_scope.
Local Open Scope Z_scope.

Set Implicit Arguments.
Local Set Warnings "-register-all".

(** ** JSON values and Python dictionaries *)

(** What [r.json()] produces and what [json=...] serialises.  A Python [dict]
    keeps its keys in insertion order, so it is an association list; the
    functions below never create a duplicate key. *)
Inductive json : Type :=
| JNull
| JBool (b : bool)
| JNum (n : Z)
| JStr (s : string)
| JList (l : list json)
| JDict (d : list (string * json)).

Definition dict (V : Type) := list (string * V).

Definition keys {V} (d : dict V) : list string := map fst d.

(** [d.get(k)] / the lookup behind [d[k]]. *)
Fixpoint dict_get {V} (d : dict V) (k : string) : option V :=
  match d with
  | [] => None
  | (k', v) :: rest => if String.eqb k' k then Some v else dict_get rest k
  end.

(** [d[k] = v]: an existing key keeps its position, a new key goes last. *)
Fixpoint dict_set {V} (d : dict V) (k : string) (v : V) : dict V :=
  match d with
  | [] => [(k, v)]
  | (k', v') :: rest =>
      if String.eqb k' k then (k', v) :: rest else (k', v') :: dict_set rest k v
  end.

(** Python truthiness of a decoded JSON value ([if not json_data['success']]). *)
Definition truthy (j : json) : bool :=
  match j with
  | JNull => false
  | JBool b => b
  | JNum n => negb (n =? 0)
  | JStr s => negb (String.eqb s "")
  | JList l => match l with [] => false | _ => true end
  | JDict d => match d with [] => false | _ => true end
  end.

(** Truthiness of an [Optional[str]] argument ([if not geolevel]). *)
Definition truthy_opt (o : option string) : bool :=
  match o with
  | None => false
  | Some s => negb (String.eqb s "")
  end.

(** ** Exceptions *)

(** Positional arguments of an [APIQueryFailedException]. *)
Inductive pyval : Type :=
| PStr (s : string)
| PInt (n : Z)
| PBytes (b : string)
| PJson (j : json).

(** The exceptions of the module.  [APIQueryFailedException] comes from
    [strato_query.exceptions]; it is an exception class of its own, unrelated
    to the two [requests] exceptions the retry loop catches.  The text of an
    [assert] message written as an f-string is kept as the template. *)
Inductive exn : Type :=
| AssertionError (msg : option string)
| ValueError (msg : string)
| KeyError (k : string)
| IndexError
| TypeError
| AttributeError
| JSONDecodeError
| NotImplementedError (what : string)
| ConnectionError
| Timeout
| APIQueryFailedException (args : list pyval).

Inductive result (A : Type) : Type :=
| Ok (a : A)
| Raise (e : exn).
Arguments Ok {A} a.
Arguments Raise {A} e.

(** [UsageError] of the specification: contradictory or invalid arguments. *)
Definition is_usage_error (e : exn) : bool :=
  match e with
  | AssertionError _ | ValueError _ => true
  | _ => false
  end.

(** [except (requests.exceptions.ConnectionError, requests.Timeout)]. *)
Definition is_transient (e : exn) : bool :=
  match e with
  | ConnectionError | Timeout => true
  | _ => false
  end.

(** ** Requests, responses and observable events *)

Record request : Type := Request {
  req_url : string;
  req_json : json;
  req_headers : option (dict string);
  req_timeout : option Q
}.

(** [r.status_code], [r.content] and what [r.json()] gives ([None] when the
    body is not JSON and [r.json()] raises). *)
Record response : Type := Response {
  status_code : Z;
  content : string;
  body_json : option json
}.

Inductive post_outcome : Type :=
| Responded (r : response)
| PostRaises (e : exn).

(** What a run does to the outside: a POST, a [time.sleep], a [print], a call
    of [get_api_token].  Durations are rationals: the floats the module sleeps
    for, [0.5 * (1 + retry_num)] and [10], are exact. *)
Inductive event : Type :=
| EPost (rq : request)
| ESleep (seconds : Q)
| EPrint (line : string)
| EToken.

(** The POSTs of a trace, in order. *)
Fixpoint posts (t : list event) : list request :=
  match t with
  | [] => []
  | EPost rq :: rest => rq :: posts rest
  | _ :: rest => posts rest
  end.

(** The sleeps of a trace, in order. *)
Fixpoint sleeps (t : list event) : list Q :=
  match t with
  | [] => []
  | ESleep d :: rest => d :: sleeps rest
  | _ :: rest => sleeps rest
  end.

(** ** The environment of the module

    Constants of [strato_query.constants] ([cc]), the collaborators the module
    imports ([APIQueryParams.to_api_struct], [get_api_token], [pandas]) and the
    remote service.  The service and the token provider answer as a function
    of everything that happened so far.  The calls into [pandas] may raise:
    [pandas.DataFrame(data)] on a value that is no table, the assignment
    [df_.columns = [c.upper() for c in df_.columns]] on a column label that is
    not a string, the two readers on content they cannot parse. *)
Record Env : Type := {
  MAX_RETRIES : nat;
  API_URL : string;
  BUFFERS_TUPLE : list string;
  APIQueryParams : Type;
  to_api_struct : APIQueryParams -> json;
  T_DF : Type;
  pandas_DataFrame : json -> result T_DF;
  columns_upper : T_DF -> result T_DF;
  pandas_read_csv : string -> result T_DF;
  pandas_read_json : string -> result T_DF;
  network : list event -> request -> post_outcome;
  token_provider : list event -> string
}.

(** ** Computations *)

(** The value (or exception), the final state of [self], and the events
    emitted by one run. *)
Record run (S A : Type) : Type := Run {
  value : result A;
  final : S;
  trace : list event
}.
Arguments Run {S A} value final trace.

(** A computation over a state [S] ([self] for the job runner, nothing for the
    static methods): from the state and the history to a run. *)
Definition M (S A : Type) : Type := S -> list event -> run S A.

Definition ret {S A} (a : A) : M S A :=
  fun s _ => Run (Ok a) s [].

Definition raise {S A} (e : exn) : M S A :=
  fun s _ => Run (Raise e) s [].

(** A call of a library function that returns or raises and does nothing
    else. *)
Definition of_result {S A} (r : result A) : M S A :=
  fun s _ => Run r s [].

Definition bind {S A B} (m : M S A) (f : A -> M S B) : M S B :=
  fun s h =>
    let r1 := m s h in
    match value r1 with
    | Ok a =>
        let r2 := f a (final r1) (h ++ trace r1) in
        Run (value r2) (final r2) (trace r1 ++ trace r2)
    | Raise e => Run (Raise e) (final r1) (trace r1)
    end.

(** A run that comes after the events [t]. *)
Definition prepend {S A} (t : list event) (r : run S A) : run S A :=
  Run (value r) (final r) (t ++ trace r).

Notation "x <- m ;; k" := (bind m (fun x => k))
  (at level 61, m at next level, right associativity).
Notation "m ;;; k" := (bind m (fun _ => k))
  (at level 61, right associativity).

(** [try: body except <caught>: handler]. *)
Definition try_except {S A} (body : M S A) (caught : exn -> bool)
    (handler : exn -> M S A) : M S A :=
  fun s h =>
    let r1 := body s h in
    match value r1 with
    | Ok a => r1
    | Raise e =>
        if caught e then
          let r2 := handler e (final r1) (h ++ trace r1) in
          Run (value r2) (final r2) (trace r1 ++ trace r2)
        else r1
    end.

(** [assert cond, msg]. *)
Definition py_assert {S} (cond : bool) (msg : option string) : M S unit :=
  if cond then ret tt else raise (AssertionError msg).

Definition get_state {S} : M S S :=
  fun s _ => Run (Ok s) s [].

Definition put_state {S} (s' : S) : M S unit :=
  fun _ _ => Run (Ok tt) s' [].

(** A [for] loop whose body may [return]: [Some v] leaves the function with
    [v], [None] goes on with the next element; [None] at the end means the
    loop ran out. *)
Fixpoint for_in {S X R} (xs : list X) (body : X -> M S (option R)) : M S (option R) :=
  match xs with
  | [] => ret None
  | x :: rest =>
      r <- body x ;;
      match r with
      | Some v => ret (Some v)
      | None => for_in rest body
      end
  end.

(** A [for] loop that updates a local variable. *)
Fixpoint for_acc {S X Acc} (xs : list X) (acc : Acc) (body : X -> Acc -> M S Acc) : M S Acc :=
  match xs with
  | [] => ret acc
  | x :: rest => acc' <- body x acc ;; for_acc rest acc' body
  end.

(** [j[k]] with a string key. *)
Definition getitem {S} (j : json) (k : string) : M S json :=
  match j with
  | JDict d =>
      match dict_get d k with
      | Some v => ret v
      | None => raise (KeyError k)
      end
  | _ => raise TypeError
  end.

(** [j[0]]. *)
Definition getitem0 {S} (j : json) : M S json :=
  match j with
  | JList (x :: _) => ret x
  | JList [] => raise IndexError
  | JStr (String c _) => ret (JStr (String c EmptyString))
  | JStr EmptyString => raise IndexError
  | JDict _ => raise (KeyError "0")
  | _ => raise TypeError
  end.

(** [j.items()]. *)
Definition items {S} (j : json) : M S (dict json) :=
  match j with
  | JDict d => ret d
  | _ => raise AttributeError
  end.

(** [range(0, stop, step)] for [step > 0]: [ceil(stop / step)] values. *)
Definition py_range (stop step : Z) : list Z :=
  map (fun k => Z.of_nat k * step) (seq 0 (Z.to_nat ((stop + step - 1) / step))).

(** [l[i:j]] for [0 <= i]. *)
Definition py_slice {X} (l : list X) (i j : Z) : list X :=
  firstn (Z.to_nat (j - i)) (skipn (Z.to_nat i) l).

Definition len {X} (l : list X) : Z := Z.of_nat (List.length l).

(** ** The module's code *)

Definition token_mask : string := "**********".

Definition msg_status_520 : string :=
  ("Query has timed out. The most likely cause is a query calling for " ++
   "too much data at once. Please check the filters and avoid calling for " ++
   "unnecessary data.")%string.

Definition msg_retries_exhausted : string :=
  ("Query has timed out. The most likely cause is a query calling for " ++
   "too much data at once. Please check the filters and avoid calling for " ++
   "unnecessary data. Also possible are that the timeout value may have been set " ++
   "too low, or a network error could be preventing proper communication with " ++
   "the API server.")%string.

(** [{**json_dict, 'token': '**********'}]. *)
Definition redact (json_dict : dict json) : json :=
  JDict (dict_set json_dict "token" (JStr token_mask)).

(** A string in double quotes, as the messages of [create_job] have them. *)
Definition quoted (s : string) : string :=
  (String (ascii_of_nat 34) s ++ String (ascii_of_nat 34) EmptyString)%string.

Definition msg_requires_either : string :=
  ("Job requires either " ++ quoted "geolevel" ++ " or " ++ quoted "portfolio_id")%string.

Definition msg_geolevel_one_of : string :=
  (quoted "geolevel" ++ " must be one of " ++ quoted "US" ++ ", " ++ quoted "METRO" ++
   ", " ++ quoted "GEOID2" ++ ", " ++ quoted "GEOID5" ++ ", " ++ quoted "ZIP" ++
   ", " ++ quoted "GEOID11")%string.

Definition msg_cannot_have_both : string :=
  ("Cannot have both " ++ quoted "geolevel" ++ " and " ++ quoted "portfolio_id")%string.

Definition geolevels : list string :=
  ["US"; "METRO"; "GEOID2"; "GEOID5"; "ZIP"; "GEOID11"].

Definition response_formats : list string := ["csv"; "json"].

(** [x in <collection of strings>]. *)
Definition str_in (x : string) (l : list string) : bool :=
  existsb (String.eqb x) l.

(** The job runner object: [self._logging], [self._job_id],
    [self._response_format]. *)
Record SDJobRunner : Type := mkRunner {
  _logging : bool;
  _job_id : json;
  _response_format : string
}.

(** [SDJobRunner.__init__]. *)
Definition SDJobRunner_init (logging : bool) : SDJobRunner :=
  mkRunner logging JNull "csv".

Section Code.

Variable E : Env.

Section Effects.

Context {S : Type}.

(** [requests.post(url, json=..., headers=..., timeout=...)]: one POST, whose
    outcome the service decides. *)
Definition requests_post (rq : request) : M S response :=
  fun s h =>
    match network E h rq with
    | Responded r => Run (Ok r) s [EPost rq]
    | PostRaises e => Run (Raise e) s [EPost rq]
    end.

(** [time.sleep(seconds)]: a negative length is refused with a
    [ValueError], without sleeping. *)
Definition time_sleep (seconds : Q) : M S unit :=
  fun s _ =>
    if Qle_bool 0 seconds then Run (Ok tt) s [ESleep seconds]
    else Run (Raise (ValueError "sleep length must be non-negative")) s [].

(** [print(line)]. *)
Definition print (line : string) : M S unit :=
  fun s _ => Run (Ok tt) s [EPrint line].

(** [get_api_token()]. *)
Definition get_api_token : M S string :=
  fun s h => Run (Ok (token_provider E h)) s [EToken].

(** [r.json()]. *)
Definition response_json (r : response) : M S json :=
  match body_json r with
  | Some j => ret j
  | None => raise JSONDecodeError
  end.

(** The body of the [try] in [_submit_post_request]: one attempt. *)
Definition attempt (json_dict : dict json) (timeout : option Q)
    (headers : option (dict string)) : M S json :=
  r <- requests_post (Request (API_URL E) (JDict json_dict) headers timeout) ;;
  (if negb (status_code r =? 200) then
     if status_code r =? 520 then
       raise (APIQueryFailedException [PStr msg_status_520; PJson (redact json_dict)])
     else
       raise (APIQueryFailedException
                [PInt (status_code r); PBytes (content r); PJson (redact json_dict)])
   else ret tt) ;;;
  json_data <- response_json r ;;
  success <- getitem json_data "success" ;;
  (if negb (truthy success) then
     raise (APIQueryFailedException [PJson json_data])
   else ret tt) ;;;
  ret json_data.

(** The [except] clause of [_submit_post_request] at retry [retry_num]. *)
Definition on_transient (json_dict : dict json) (retry_num : nat) : M S (option json) :=
  if (MAX_RETRIES E <=? retry_num)%nat then
    raise (APIQueryFailedException [PStr msg_retries_exhausted; PJson (redact json_dict)])
  else
    time_sleep ((1 # 2) * inject_Z (1 + Z.of_nat retry_num)) ;;;
    ret None.

(** [_submit_post_request]: submits the POST and retries on connection errors
    and timeouts, waiting longer between each retry.  Falling out of the loop
    returns [None]. *)
Definition _submit_post_request (json_dict : dict json) (timeout : option Q)
    (headers : option (dict string)) : M S json :=
  r <- for_in (seq 0 (MAX_RETRIES E + 1))
         (fun retry_num =>
            try_except
              (json_data <- attempt json_dict timeout headers ;; ret (Some json_data))
              is_transient
              (fun _ => on_transient json_dict retry_num)) ;;
  match r with
  | Some json_data => ret json_data
  | None => ret JNull
  end.

(** [dict(token=get_api_token(), query=query_params.to_api_struct())]. *)
Definition single_envelope (token : string) (query_params : APIQueryParams E) : dict json :=
  [("token", JStr token); ("query", to_api_struct E query_params)].

(** [SDAPIQuery.query_api_json]. *)
Definition query_api_json (query_params : APIQueryParams E) (timeout : option Q)
    (headers : option (dict string)) : M S json :=
  token <- get_api_token ;;
  json_data <- _submit_post_request (single_envelope token query_params) timeout headers ;;
  data <- getitem json_data "data" ;;
  getitem0 data.

(** [df_ = pandas.DataFrame(data)] followed by
    [df_.columns = [c.upper() for c in df_.columns]]: the table, or the
    exception of the first of the two statements that raises. *)
Definition dataframe_upper (data : json) : result (T_DF E) :=
  match pandas_DataFrame E data with
  | Ok df_ => columns_upper E df_
  | Raise e => Raise e
  end.

(** [SDAPIQuery.query_api_df]. *)
Definition query_api_df (query_params : APIQueryParams E) (timeout : option Q)
    (headers : option (dict string)) : M S (T_DF E) :=
  token <- get_api_token ;;
  json_data <- _submit_post_request (single_envelope token query_params) timeout headers ;;
  data <- getitem json_data "data" ;;
  of_result (dataframe_upper data).

(** [{k: queries[k].to_api_struct() for k in keys_chunk}]. *)
Definition chunk_queries (queries : dict (APIQueryParams E)) (keys_chunk : list string)
    : M S (dict json) :=
  for_acc keys_chunk []
    (fun k acc =>
       match dict_get queries k with
       | Some q => ret (dict_set acc k (to_api_struct E q))
       | None => raise (KeyError k)
       end).

(** The body of the chunk loop of [query_api_multiple]. *)
Definition submit_chunk (queries : dict (APIQueryParams E)) (timeout : option Q)
    (chunksize : Z) (time_between_chunks : option Q) (headers : option (dict string))
    (keys_list : list string) (idx_chunk : Z) (df_dict : dict (T_DF E))
    : M S (dict (T_DF E)) :=
  let keys_chunk := py_slice keys_list idx_chunk (idx_chunk + chunksize) in
  token <- get_api_token ;;
  chunk <- chunk_queries queries keys_chunk ;;
  json_data <- _submit_post_request
                 [("token", JStr token); ("queries", JDict chunk)] timeout headers ;;
  data <- getitem json_data "data" ;;
  kvs <- items data ;;
  df_dict' <- for_acc kvs df_dict
                (fun kv acc =>
                   df_ <- of_result (dataframe_upper (snd kv)) ;;
                   ret (dict_set acc (fst kv) df_)) ;;
  match time_between_chunks with
  | Some pause =>
      if idx_chunk + chunksize <? len keys_list
      then time_sleep pause ;;; ret df_dict'
      else ret df_dict'
  | None => ret df_dict'
  end.

(** [SDAPIQuery.query_api_multiple]. *)
Definition query_api_multiple (queries : dict (APIQueryParams E)) (timeout : option Q)
    (chunksize : Z) (time_between_chunks : option Q) (headers : option (dict string))
    : M S (dict (T_DF E)) :=
  py_assert (0 <? chunksize)
    (Some "Chunksize must be a positive integer, is {chunksize}") ;;;
  let keys_list := keys queries in
  for_acc (py_range (len keys_list) chunksize) []
    (submit_chunk queries timeout chunksize time_between_chunks headers keys_list).

(** What [SDAPIQuery.submit_query] returns: a table or a dict of tables. *)
Inductive query_result : Type :=
| OneTable (df : T_DF E)
| Tables (dfs : dict (T_DF E)).

(** [SDAPIQuery.submit_query]; the three [isinstance] assertions hold by
    typing. *)
Definition submit_query (query_params : option (APIQueryParams E))
    (queries_params : option (dict (APIQueryParams E))) (timeout : option Q)
    (headers : option (dict string)) : M S (option query_result) :=
  py_assert (negb (match query_params, queries_params with
                   | None, None => true | _, _ => false end)) None ;;;
  py_assert (negb (match query_params, queries_params with
                   | Some _, Some _ => true | _, _ => false end)) None ;;;
  match query_params with
  | Some q =>
      df <- query_api_df q timeout headers ;;
      ret (Some (OneTable df))
  | None =>
      match queries_params with
      | Some qs =>
          dfs <- query_api_multiple qs timeout 500 None headers ;;
          ret (Some (Tables dfs))
      | None => ret None
      end
  end.

End Effects.

(** *** SDJobRunner: computations over [self] *)

Definition opt_str (o : option string) : json :=
  match o with
  | Some s => JStr s
  | None => JNull
  end.

(** [dict(Authorization=f'Bearer {get_api_token()}')]. *)
Definition bearer (token : string) : option (dict string) :=
  Some [("Authorization", ("Bearer " ++ token)%string)].

(** [if self._logging: print(line)]. *)
Definition log_line (line : string) : M SDJobRunner unit :=
  self <- get_state ;;
  if _logging self then print line else ret tt.

(** [SDJobRunner._assert_job_created]. *)
Definition _assert_job_created : M SDJobRunner unit :=
  self <- get_state ;;
  py_assert (match _job_id self with JStr _ => true | _ => false end)
    (Some "Must run create_job successfully first -- no job id found").

(** The checks of [create_job] that come before its POST; the [isinstance]
    assertions hold by typing. *)
Definition create_job_checks (geolevel : option string) (response_format : string)
    (portfolio_id : option string) (buffers : option (list string))
    : M SDJobRunner unit :=
  py_assert (str_in response_format response_formats) None ;;;
  py_assert (match buffers with
             | None => true
             | Some bs => forallb (fun buffer => str_in buffer (BUFFERS_TUPLE E)) bs
             end)
    (Some "Invalid buffers: {buffers} (must be from {cc.BUFFERS_TUPLE})") ;;;
  (if negb (truthy_opt geolevel) && negb (truthy_opt portfolio_id) then
     raise (ValueError msg_requires_either)
   else ret tt) ;;;
  match geolevel with
  | Some g =>
      if truthy_opt geolevel then
        py_assert (str_in g geolevels)
          (Some msg_geolevel_one_of) ;;;
        py_assert (match portfolio_id with None => true | Some _ => false end)
          (Some msg_cannot_have_both)
      else ret tt
  | None => ret tt
  end.

(** [SDJobRunner.create_job]. *)
Definition create_job (model_id : string) (geolevel : option string)
    (response_format : string) (portfolio_id : option string)
    (geoid_list : option (list Z)) (buffers : option (list string))
    : M SDJobRunner unit :=
  create_job_checks geolevel response_format portfolio_id buffers ;;;
  let geoid_list := match geoid_list with Some l => l | None => [] end in
  let buffers := match buffers with Some l => l | None => [] end in
  log_line "Sending create job request to API service" ;;;
  token <- get_api_token ;;
  r <- requests_post
         (Request "https://api.stratodem.com/jobs/create"
            (JDict [("model_id", JStr model_id);
                    ("portfolio_id", opt_str portfolio_id);
                    ("geolevel", opt_str geolevel);
                    ("response_format", JStr response_format);
                    ("geoid_list", JList (map JNum geoid_list));
                    ("buffers", JList (map JStr buffers))])
            (bearer token) None) ;;
  res <- response_json r ;;
  success <- getitem res "success" ;;
  if truthy success then
    message <- getitem res "message" ;;
    job_id <- getitem message "job_id" ;;
    self <- get_state ;;
    put_state (mkRunner (_logging self) job_id response_format) ;;;
    log_line "Successfully created job request"
  else
    message <- getitem res "message" ;;
    raise (APIQueryFailedException [PJson message]).

(** [SDJobRunner._check_job_status], also the [status] property. *)
Definition _check_job_status : M SDJobRunner json :=
  _assert_job_created ;;;
  token <- get_api_token ;;
  self <- get_state ;;
  r <- requests_post
         (Request "https://api.stratodem.com/jobs/status"
            (JDict [("job_id", _job_id self)]) (bearer token) None) ;;
  (if negb (status_code r =? 200) then
     raise (APIQueryFailedException [PStr "Failed to determine job status"])
   else ret tt) ;;;
  r <- response_json r ;;
  success <- getitem r "success" ;;
  if negb (truthy success) then
    raise (APIQueryFailedException [PJson r])
  else getitem r "message".

(** [SDJobRunner.download_job_to_dataframe]. *)
Definition download_job_to_dataframe : M SDJobRunner (T_DF E) :=
  _assert_job_created ;;;
  token <- get_api_token ;;
  self <- get_state ;;
  r <- requests_post
         (Request "https://api.stratodem.com/jobs/download"
            (JDict [("job_id", _job_id self)]) (bearer token) None) ;;
  (if negb (status_code r =? 200) then
     raise (APIQueryFailedException [PStr "Failed to download file"])
   else ret tt) ;;;
  self <- get_state ;;
  if String.eqb (_response_format self) "csv" then
    of_result (pandas_read_csv E (content r))
  else if String.eqb (_response_format self) "json" then
    of_result (pandas_read_json E (content r))
  else raise (NotImplementedError (_response_format self)).

(** [job_status == literal]. *)
Definition status_is (job_status : json) (literal : string) : bool :=
  match job_status with
  | JStr s => String.eqb s literal
  | _ => false
  end.

(** The body of the polling loop of [load_df_from_job_pipeline]. *)
Definition poll_once (idx : nat) : M SDJobRunner (option (T_DF E)) :=
  log_line "Checking if job is complete..." ;;;
  job_status <- _check_job_status ;;
  if status_is job_status "Completed" then
    df <- download_job_to_dataframe ;;
    ret (Some df)
  else if status_is job_status "Processing" then
    time_sleep (inject_Z 10) ;;;
    ret None
  else raise (APIQueryFailedException [PStr "Job failed"; PJson job_status]).

(** [SDJobRunner.load_df_from_job_pipeline]. *)
Definition load_df_from_job_pipeline (model_id : string) (geolevel : option string)
    (response_format : string) (portfolio_id : option string)
    (buffers : option (list string)) (geoid_list : option (list Z))
    : M SDJobRunner (T_DF E) :=
  create_job model_id geolevel response_format portfolio_id geoid_list buffers ;;;
  r <- for_in (seq 0 100) poll_once ;;
  match r with
  | Some df => ret df
  | None => raise (APIQueryFailedException [PStr "Job never completed successfully"])
  end.

End Code.

Arguments query_result : clear implicits.
Arguments OneTable {E} df.
Arguments Tables {E} dfs.

(** ** Transport doubles

    Concrete services and a concrete environment, to run the code on. *)

(** A successful response with the given decoded body. *)
Definition ok_response (body : json) : response :=
  Response 200 "" (Some body).

Definition success_body (field : string) (payload : json) : json :=
  JDict [("success", JBool true); (field, payload)].

(** The [queries] field of a batch envelope, when the request has one. *)
Definition request_queries (rq : request) : option (dict json) :=
  match req_json rq with
  | JDict d =>
      match dict_get d "queries" with
      | Some (JDict qs) => Some qs
      | _ => None
      end
  | _ => None
  end.

Definition sample_rows : json := JList [JDict [("year", JNum 2019); ("units", JNum 7)]].

(** A service that answers every query: a batch with one row list per request
    key, a single query with the rows in [data]. *)
Definition echo_service (_ : list event) (rq : request) : post_outcome :=
  match request_queries rq with
  | Some qs =>
      Responded (ok_response (success_body "data" (JDict (map (fun kv => (fst kv, sample_rows)) qs))))
  | None => Responded (ok_response (success_body "data" sample_rows))
  end.

(** A service whose first [failures] POSTs time out and whose later ones
    succeed. *)
Definition flaky_service (failures : nat) (h : list event) (_ : request) : post_outcome :=
  if (List.length (posts h) <? failures)%nat then PostRaises Timeout
  else Responded (ok_response (success_body "data" sample_rows)).

(** A service that answers every POST with the given status and body. *)
Definition status_service (code : Z) (body : string) (_ : list event) (_ : request)
    : post_outcome :=
  Responded (Response code body None).

(** A service whose [data] is a one-element list that contains the row
    list. *)
Definition nested_service (_ : list event) (_ : request) : post_outcome :=
  Responded (ok_response (success_body "data" (JList [sample_rows]))).

(** A service for batches only: one row list per request key, for every
    request. *)
Definition batch_service (_ : list event) (rq : request) : post_outcome :=
  Responded
    (ok_response
       (success_body "data"
          (JDict (map (fun kv => (fst kv, sample_rows))
                    match request_queries rq with Some qs => qs | None => [] end)))).

(** A service whose answers have no rows. *)
Definition empty_service (_ : list event) (_ : request) : post_outcome :=
  Responded (ok_response (success_body "data" (JList []))).

(** A job service that refuses to create jobs. *)
Definition closed_job_service (_ : list event) (_ : request) : post_outcome :=
  Responded (Response 403 ""
               (Some (JDict [("success", JBool false);
                             ("message", JStr "quota exceeded")]))).

(** A job service whose job ids are numbers. *)
Definition numbering_job_service (_ : list event) (_ : request) : post_outcome :=
  Responded (ok_response (success_body "message" (JDict [("job_id", JNum 17)]))).

(** A service that refuses every query: status 200, [success] false. *)
Definition refusing_service (_ : list event) (_ : request) : post_outcome :=
  Responded (ok_response (JDict [("success", JBool false);
                                 ("message", JStr "unknown table")])).

(** A transport that cannot even send: [requests] raises [InvalidURL], a
    [ValueError]. *)
Definition broken_service (_ : list event) (_ : request) : post_outcome :=
  PostRaises (ValueError "Invalid URL").

(** A service that drops every connection. *)
Definition dead_service (_ : list event) (_ : request) : post_outcome :=
  PostRaises ConnectionError.

Definition url_create : string := "https://api.stratodem.com/jobs/create".
Definition url_status : string := "https://api.stratodem.com/jobs/status".
Definition url_download : string := "https://api.stratodem.com/jobs/download".

(** The number of status polls in a history. *)
Definition polls (h : list event) : nat :=
  List.length (filter (fun rq => String.eqb (req_url rq) url_status) (posts h)).

(** A job service: creation succeeds with job id [job-1], the [i]-th status
    poll answers [script[i]] ([Processing] once the script is over), the
    download returns a CSV body. *)
Definition job_service (script : list string) (h : list event) (rq : request)
    : post_outcome :=
  if String.eqb (req_url rq) url_create then
    Responded (ok_response (success_body "message" (JDict [("job_id", JStr "job-1")])))
  else if String.eqb (req_url rq) url_status then
    Responded (ok_response (success_body "message" (JStr (nth (polls h) script "Processing"))))
  else Responded (Response 200 "GEOID,UNITS" None).

(** [str.upper] on ASCII letters. *)
Definition upper_ascii (c : ascii) : ascii :=
  let n := nat_of_ascii c in
  if ((97 <=? n) && (n <=? 122))%nat then ascii_of_nat (n - 32) else c.

Fixpoint upper (s : string) : string :=
  match s with
  | EmptyString => EmptyString
  | String c rest => String (upper_ascii c) (upper rest)
  end.

Definition is_record (j : json) : bool :=
  match j with
  | JDict _ => true
  | _ => false
  end.

Definition is_column (n : nat) (j : json) : bool :=
  match j with
  | JList l => (List.length l =? n)%nat
  | _ => false
  end.

(** A stand-in for [pandas.DataFrame(data)], where a table is the JSON value
    it holds: [None] and lists give a table, a mapping gives one when its
    values are columns of one length, a number, a string or a boolean is
    refused. *)
Definition sample_DataFrame (data : json) : result json :=
  match data with
  | JNull | JList _ => Ok data
  | JDict cols =>
      match cols with
      | [] => Ok data
      | (_, JList l) :: _ =>
          if forallb (fun kv => is_column (List.length l) (snd kv)) cols then Ok data
          else Raise (ValueError "All arrays must be of the same length")
      | _ => Raise (ValueError "If using all scalar values, you must pass an index")
      end
  | _ => Raise (ValueError "DataFrame constructor not properly called!")
  end.

(** A stand-in for [df_.columns = [c.upper() for c in df_.columns]]: the
    labels of a list of records and of a column mapping are strings and are
    upper-cased; rows that are not records have integer labels, which have no
    [upper]. *)
Definition sample_columns_upper (df_ : json) : result json :=
  match df_ with
  | JList rows =>
      if forallb is_record rows then
        Ok (JList (map (fun row =>
                          match row with
                          | JDict d => JDict (map (fun kv => (upper (fst kv), snd kv)) d)
                          | _ => row
                          end) rows))
      else Raise AttributeError
  | JDict cols => Ok (JDict (map (fun kv => (upper (fst kv), snd kv)) cols))
  | _ => Ok df_
  end.

(** A stand-in for [pandas.read_csv]: the table holds the text; an empty
    body has no columns to parse ([EmptyDataError], a [ValueError]). *)
Definition sample_read_csv (bytes : string) : result json :=
  if String.eqb bytes "" then Raise (ValueError "No columns to parse from file")
  else Ok (JStr bytes).

(** A stand-in for [pandas.read_json] handed a [bytes] object, as the module
    does: current versions of pandas refuse it with a [TypeError]. *)
Definition sample_read_json (bytes : string) : result json :=
  Raise TypeError.

(** An environment around a service: three retries, queries that are their
    own wire structure, and the stand-ins for [pandas]. *)
Definition sample_env (service : list event -> request -> post_outcome) : Env :=
  {| MAX_RETRIES := 3;
     API_URL := "https://api.stratodem.com/api";
     BUFFERS_TUPLE := ["five-min-drive"; "ten-min-drive"; "one-mile-radius"];
     APIQueryParams := json;
     to_api_struct := fun q => q;
     T_DF := json;
     pandas_DataFrame := sample_DataFrame;
     columns_upper := sample_columns_upper;
     pandas_read_csv := sample_read_csv;
     pandas_read_json := sample_read_json;
     network := service;
     token_provider := fun _ => "s3cr3t-t0k3n" |}.

Definition sample_envelope : dict json :=
  [("token", JStr "s3cr3t-t0k3n"); ("query", JStr "q")].

Definition three_queries : dict json :=
  [("a", JStr "qa"); ("b", JStr "qb"); ("c", JStr "qc")].

(** ** Vocabulary of the statements *)

(** The request [_submit_post_request] posts, at every attempt. *)
Definition query_request (E : Env) (json_dict : dict json) (timeout : option Q)
    (headers : option (dict string)) : request :=
  Request (API_URL E) (JDict json_dict) headers timeout.

(** The backoff before retry [retry_num + 1]: [0.5 * (1 + retry_num)]. *)
Definition backoff (retry_num : nat) : Q :=
  (1 # 2) * inject_Z (1 + Z.of_nat retry_num).

(** What [k] attempts that fail transiently leave in the trace, from retry
    number [a] on: a POST and a backoff each. *)
Definition failed_attempts (rq : request) (a k : nat) : list event :=
  flat_map (fun retry_num => [EPost rq; ESleep (backoff retry_num)]) (seq a k).

(** From history [h] on, the service fails the first [k] attempts at [rq]
    with a connection error or a timeout (retry numbers [a], [a+1], ...). *)
Definition fails_transiently (E : Env) (rq : request) (h : list event) (a k : nat) : Prop :=
  forall i, (i < k)%nat ->
    exists e, network E (h ++ failed_attempts rq a i) rq = PostRaises e /\
              is_transient e = true.

(** The outcome of an attempt whose POST was answered by [r]. *)
Definition classify (json_dict : dict json) (r : response) : result json :=
  if negb (status_code r =? 200) then
    if status_code r =? 520 then
      Raise (APIQueryFailedException [PStr msg_status_520; PJson (redact json_dict)])
    else
      Raise (APIQueryFailedException
               [PInt (status_code r); PBytes (content r); PJson (redact json_dict)])
  else
    match body_json r with
    | None => Raise JSONDecodeError
    | Some (JDict d) =>
        match dict_get d "success" with
        | Some flag =>
            if truthy flag then Ok (JDict d)
            else Raise (APIQueryFailedException [PJson (JDict d)])
        | None => Raise (KeyError "success")
        end
    | Some _ => Raise TypeError
    end.

(** The values [keys_chunk] takes in the loop of [query_api_multiple]: one
    slice of the key list per element of the range. *)
Definition chunk_plan (keys_list : list string) (chunksize : Z) : list (list string) :=
  map (fun idx_chunk => py_slice keys_list idx_chunk (idx_chunk + chunksize))
      (py_range (len keys_list) chunksize).

(** The wire protocol of a batch: a successful answer to a batch envelope has
    in [data] a mapping with one entry per request key. *)
Definition honours_batch_protocol (E : Env) : Prop :=
  forall h rq r token chunk body flag,
    network E h rq = Responded r ->
    req_json rq = JDict [("token", token); ("queries", JDict chunk)] ->
    status_code r = 200 ->
    body_json r = Some (JDict body) ->
    dict_get body "success" = Some flag ->
    truthy flag = true ->
    exists data,
      dict_get body "data" = Some (JDict data) /\
      forall k, In k (keys data) <-> In k (keys chunk).

(** The queries a posted batch envelope carries. *)
Definition posted_chunk (rq : request) : option (list string) :=
  match request_queries rq with
  | Some qs => Some (keys qs)
  | None => None
  end.

(** What the checks of [create_job] accept: truthiness decides whether
    [geolevel] and [portfolio_id] count as given. *)
Definition create_job_valid (E : Env) (geolevel : option string) (response_format : string)
    (portfolio_id : option string) (buffers : option (list string)) : bool :=
  str_in response_format response_formats
  && match buffers with
     | None => true
     | Some bs => forallb (fun buffer => str_in buffer (BUFFERS_TUPLE E)) bs
     end
  && (truthy_opt geolevel || truthy_opt portfolio_id)
  && match geolevel with
     | Some g =>
         if truthy_opt geolevel then
           str_in g geolevels && match portfolio_id with None => true | Some _ => false end
         else true
     | None => true
     end.

(** What [if self._logging: print(line)] emits. *)
Definition log_events (self : SDJobRunner) (line : string) : list event :=
  if _logging self then [EPrint line] else [].

(** The POST of [create_job], for a token fetched at history [h]. *)
Definition create_request (E : Env) (h : list event) (model_id : string)
    (geolevel : option string) (response_format : string) (portfolio_id : option string)
    (geoid_list : option (list Z)) (buffers : option (list string)) : request :=
  Request url_create
    (JDict [("model_id", JStr model_id);
            ("portfolio_id", opt_str portfolio_id);
            ("geolevel", opt_str geolevel);
            ("response_format", JStr response_format);
            ("geoid_list", JList (map JNum match geoid_list with Some l => l | None => [] end));
            ("buffers", JList (map JStr match buffers with Some l => l | None => [] end))])
    (bearer (token_provider E h)) None.

(** The POST of the status check and of the download, for a token fetched at
    history [h]. *)
Definition job_request (E : Env) (url : string) (self : SDJobRunner) (h : list event)
    : request :=
  Request url (JDict [("job_id", _job_id self)]) (bearer (token_provider E h)) None.

(** The service answers a status POST with status 200, a truthy [success] and
    the message [status]. *)
Definition reads_status (E : Env) (h : list event) (rq : request) (status : json) : Prop :=
  exists bytes body flag,
    network E h rq = Responded (Response 200 bytes (Some (JDict body))) /\
    dict_get body "success" = Some flag /\ truthy flag = true /\
    dict_get body "message" = Some status.

(** A poll-status sequence: counting from a history with [n0] status polls,
    the [i]-th status poll reads [script[i]]. *)
Definition status_script (E : Env) (n0 : nat) (script : list json) : Prop :=
  forall h rq i status,
    req_url rq = url_status ->
    polls h = (n0 + i)%nat ->
    nth_error script i = Some status ->
    reads_status E h rq status.

(** The outcome of the attempt that ends a run of [_submit_post_request]:
    an answer is classified, a transient failure has used up the budget, any
    other exception of the transport goes through. *)
Definition final_outcome (json_dict : dict json) (o : post_outcome) : result json :=
  match o with
  | Responded r => classify json_dict r
  | PostRaises e =>
      if is_transient e then
        Raise (APIQueryFailedException
                 [PStr msg_retries_exhausted; PJson (redact json_dict)])
      else Raise e
  end.

(** The calls of [get_api_token] in a trace. *)
Fixpoint token_fetches (t : list event) : nat :=
  match t with
  | [] => 0%nat
  | EToken :: rest => Datatypes.S (token_fetches rest)
  | _ :: rest => token_fetches rest
  end.

(** A service that answers every POST at once, with status 200, a truthy
    [success] and in [data] a mapping whose values [pandas] turns into tables
    with string labels. *)
Definition answers_every_batch (E : Env) : Prop :=
  forall h rq,
    exists bytes body flag data,
      network E h rq = Responded (Response 200 bytes (Some (JDict body))) /\
      dict_get body "success" = Some flag /\ truthy flag = true /\
      dict_get body "data" = Some (JDict data) /\
      Forall (fun kv => exists df_, dataframe_upper E (snd kv) = Ok df_) data.

(** A pause [time.sleep] accepts. *)
Definition pause_accepted (time_between_chunks : option Q) : Prop :=
  match time_between_chunks with
  | Some pause => (0 <= pause)%Q
  | None => True
  end.

(** A service that answers every POST with a status other than 200. *)
Definition rejects_everything (E : Env) : Prop :=
  forall h rq, exists r, network E h rq = Responded r /\ status_code r <> 200.

(** The invariant of a runner: its response format is one [create_job]
    accepts. *)
Definition format_ok (self : SDJobRunner) : bool :=
  str_in (_response_format self) response_formats.

(** The failed assertion of [_assert_job_created]. *)
Definition no_job_id_error : exn :=
  AssertionError (Some "Must run create_job successfully first -- no job id found").

(** ** Running computations *)

Section Runs.

Context {S : Type}.

Lemma run_eta A (r : run S A) : Run (value r) (final r) (trace r) = r.
Proof. destruct r; reflexivity. Qed.

Lemma bind_ok A B (m : M S A) (f : A -> M S B) s h a :
  value (m s h) = Ok a ->
  bind m f s h =
  Run (value (f a (final (m s h)) (h ++ trace (m s h))))
      (final (f a (final (m s h)) (h ++ trace (m s h))))
      (trace (m s h) ++ trace (f a (final (m s h)) (h ++ trace (m s h)))).
Proof. intros Hv. unfold bind. rewrite Hv. reflexivity. Qed.

(** One step of a run: the first computation returns, or raises. *)
Lemma bind_ok_eq A B (m : M S A) (f : A -> M S B) s h a s1 t1 :
  m s h = Run (Ok a) s1 t1 ->
  bind m f s h = prepend t1 (f a s1 (h ++ t1)).
Proof. intros Hm. unfold bind. rewrite Hm. reflexivity. Qed.

Lemma bind_raise_eq A B (m : M S A) (f : A -> M S B) s h e s1 t1 :
  m s h = Run (Raise e) s1 t1 ->
  bind m f s h = Run (Raise e) s1 t1.
Proof. intros Hm. unfold bind. rewrite Hm. reflexivity. Qed.

Lemma prepend_Run A (t : list event) (v : result A) (s : S) t' :
  prepend t (Run v s t') = Run v s (t ++ t').
Proof. reflexivity. Qed.

Lemma of_result_run A (r : result A) (s : S) h : of_result r s h = Run r s [].
Proof. reflexivity. Qed.

(** A sleep of a length that is not negative. *)
Lemma time_sleep_run (seconds : Q) (s : S) h :
  (0 <= seconds)%Q ->
  time_sleep seconds s h = Run (Ok tt) s [ESleep seconds].
Proof.
  intros Hs. unfold time_sleep.
  destruct (Qle_bool 0 seconds) eqn:Hb; [reflexivity|].
  apply Qle_bool_iff in Hs. congruence.
Qed.

Lemma backoff_nonneg retry_num : (0 <= backoff retry_num)%Q.
Proof.
  unfold backoff. apply Qmult_le_0_compat.
  - discriminate.
  - unfold Qle, inject_Z. cbn [Qnum Qden]. lia.
Qed.

Lemma posts_app t1 t2 : posts (t1 ++ t2) = posts t1 ++ posts t2.
Proof.
  induction t1 as [|e t1 IH]; simpl; [reflexivity|].
  destruct e; simpl; rewrite IH; reflexivity.
Qed.

Lemma sleeps_app t1 t2 : sleeps (t1 ++ t2) = sleeps t1 ++ sleeps t2.
Proof.
  induction t1 as [|e t1 IH]; simpl; [reflexivity|].
  destruct e; simpl; rewrite IH; reflexivity.
Qed.

(** A loop over [xs ++ rest] is the loop over [xs], then, unless it returned
    or raised, the loop over [rest]. *)
Lemma for_in_app X R (xs rest : list X) (body : X -> M S (option R)) s h :
  for_in (xs ++ rest) body s h =
  match value (for_in xs body s h) with
  | Ok None =>
      let r1 := for_in xs body s h in
      let r2 := for_in rest body (final r1) (h ++ trace r1) in
      Run (value r2) (final r2) (trace r1 ++ trace r2)
  | _ => for_in xs body s h
  end.
Proof.
  revert s h. induction xs as [|x xs IH]; intros s h.
  - simpl. rewrite app_nil_r. symmetry. apply run_eta.
  - simpl. unfold bind.
    destruct (body x s h) as [v s1 t1]; simpl.
    destruct v as [[r|]|e]; simpl; try reflexivity.
    rewrite IH.
    destruct (value (for_in xs body s1 (h ++ t1))) as [[r|]|e] eqn:Hv;
      simpl; rewrite ?Hv; try reflexivity.
    rewrite <- !app_assoc. reflexivity.
Qed.

End Runs.

(** Runs a sequence of binds whose first computations compute. *)
Ltac run_binds :=
  repeat first [ erewrite bind_ok_eq by reflexivity
               | erewrite bind_raise_eq by reflexivity ];
  rewrite ?prepend_Run.

(** ** The retry loop *)

Section Retry.

Variable E : Env.
Context {S : Type}.
Variables (json_dict : dict json) (timeout : option Q) (headers : option (dict string)).

Let rq := query_request E json_dict timeout headers.

Local Abbreviation fails_transiently := (fails_transiently E rq).

(** One iteration of the loop of [_submit_post_request]. *)
Let step (retry_num : nat) : M S (option json) :=
  try_except
    (json_data <- attempt E json_dict timeout headers ;; ret (Some json_data))
    is_transient
    (fun _ => on_transient E json_dict retry_num).

Lemma classify_not_transient r e :
  classify json_dict r = Raise e -> is_transient e = false.
Proof.
  unfold classify.
  destruct (negb (status_code r =? 200)).
  - destruct (status_code r =? 520); intros H; inversion H; reflexivity.
  - destruct (body_json r) as [[| | | | |d]|]; try (intros H; inversion H; reflexivity).
    destruct (dict_get d "success") as [flag|]; [|intros H; inversion H; reflexivity].
    destruct (truthy flag); intros H; inversion H; reflexivity.
Qed.

(** An attempt issues exactly one POST and classifies its answer. *)
Lemma attempt_run (s : S) h :
  attempt E json_dict timeout headers s h =
  Run (match network E h rq with
       | Responded r => classify json_dict r
       | PostRaises e => Raise e
       end) s [EPost rq].
Proof.
  unfold attempt. fold (query_request E json_dict timeout headers). fold rq.
  destruct (network E h rq) as [r|e] eqn:Hnet.
  - assert (Hpost : requests_post E rq s h = Run (Ok r) s [EPost rq])
      by (unfold requests_post; rewrite Hnet; reflexivity).
    erewrite bind_ok_eq by exact Hpost. unfold classify.
    destruct (negb (status_code r =? 200)).
    + destruct (status_code r =? 520); erewrite bind_raise_eq by reflexivity;
        reflexivity.
    + erewrite bind_ok_eq by reflexivity. rewrite app_nil_r. unfold response_json.
      destruct (body_json r) as [[| | | | |d]|];
        try (erewrite bind_ok_eq by reflexivity; erewrite bind_raise_eq by reflexivity;
             reflexivity);
        try (erewrite bind_raise_eq by reflexivity; reflexivity).
      erewrite bind_ok_eq by reflexivity. unfold getitem.
      destruct (dict_get d "success") as [flag|];
        [|erewrite bind_raise_eq by reflexivity; reflexivity].
      erewrite bind_ok_eq by reflexivity.
      destruct (truthy flag); cbn [negb].
      * erewrite bind_ok_eq by reflexivity. reflexivity.
      * erewrite bind_raise_eq by reflexivity. reflexivity.
  - assert (Hpost : requests_post E rq s h = Run (Raise e) s [EPost rq])
      by (unfold requests_post; rewrite Hnet; reflexivity).
    erewrite bind_raise_eq by exact Hpost. reflexivity.
Qed.

(** One iteration of the retry loop. *)
Lemma step_run retry_num (s : S) h :
  step retry_num s h =
  match network E h rq with
  | Responded r =>
      Run (match classify json_dict r with
           | Ok j => Ok (Some j)
           | Raise e => Raise e
           end) s [EPost rq]
  | PostRaises e =>
      if is_transient e then
        if (MAX_RETRIES E <=? retry_num)%nat then
          Run (Raise (APIQueryFailedException
                        [PStr msg_retries_exhausted; PJson (redact json_dict)]))
              s [EPost rq]
        else Run (Ok None) s [EPost rq; ESleep (backoff retry_num)]
      else Run (Raise e) s [EPost rq]
  end.
Proof.
  unfold step, try_except, bind. rewrite attempt_run. simpl.
  destruct (network E h rq) as [r|e]; simpl.
  - destruct (classify json_dict r) as [j|e] eqn:Hc; simpl; [reflexivity|].
    rewrite (classify_not_transient _ Hc). reflexivity.
  - destruct (is_transient e); [|reflexivity].
    unfold on_transient.
    destruct (MAX_RETRIES E <=? retry_num)%nat; [reflexivity|].
    fold (backoff retry_num). unfold bind.
    rewrite (time_sleep_run _ _ (backoff_nonneg retry_num)). reflexivity.
Qed.

Lemma failed_attempts_S a k :
  failed_attempts rq a (Datatypes.S k) =
  [EPost rq; ESleep (backoff a)] ++ failed_attempts rq (Datatypes.S a) k.
Proof. reflexivity. Qed.

Lemma fails_transiently_tail h a k :
  fails_transiently h a (Datatypes.S k) ->
  fails_transiently (h ++ [EPost rq; ESleep (backoff a)]) (Datatypes.S a) k.
Proof.
  intros H i Hi. destruct (H (Datatypes.S i)) as [e [He Ht]]; [lia|].
  exists e. split; [|exact Ht].
  rewrite <- app_assoc. rewrite failed_attempts_S in He. exact He.
Qed.

(** [k] transient failures within the budget: the loop goes on, having posted
    and slept [k] times. *)
Lemma failures_loop k : forall a (s : S) h,
  (a + k <= MAX_RETRIES E)%nat ->
  fails_transiently h a k ->
  for_in (seq a k) step s h = Run (Ok None) s (failed_attempts rq a k).
Proof.
  induction k as [|k IH]; intros a s h Hle Hf; [reflexivity|].
  simpl seq. simpl for_in. unfold bind. rewrite step_run.
  destruct (Hf 0%nat) as [e [He Ht]]; [lia|].
  simpl in He. rewrite app_nil_r in He. rewrite He, Ht.
  destruct (Nat.leb_spec (MAX_RETRIES E) a) as [Hc|Hc]; [lia|].
  simpl. rewrite (IH (Datatypes.S a)); [reflexivity|lia|].
  apply fails_transiently_tail. exact Hf.
Qed.

Lemma retry_range k :
  (k <= MAX_RETRIES E)%nat ->
  seq 0 (MAX_RETRIES E + 1) = seq 0 k ++ k :: seq (Datatypes.S k) (MAX_RETRIES E - k).
Proof.
  intros Hk.
  replace (MAX_RETRIES E + 1)%nat with (k + Datatypes.S (MAX_RETRIES E - k))%nat by lia.
  rewrite seq_app. reflexivity.
Qed.

(** After [k] transient failures, the run is decided by attempt [k] unless
    that attempt asks for a further retry. *)
Lemma submit_after_failures k (s : S) h :
  (k <= MAX_RETRIES E)%nat ->
  fails_transiently h 0 k ->
  value (step k s (h ++ failed_attempts rq 0 k)) <> Ok None ->
  _submit_post_request E json_dict timeout headers s h =
  Run (match value (step k s (h ++ failed_attempts rq 0 k)) with
       | Ok (Some j) => Ok j
       | Ok None => Ok JNull
       | Raise e => Raise e
       end) s (failed_attempts rq 0 k ++ [EPost rq]).
Proof.
  intros Hk Hf Hdecided.
  unfold _submit_post_request. fold step. unfold bind.
  rewrite (retry_range Hk), for_in_app, (failures_loop (a := 0)); [|lia|exact Hf].
  cbn [value final trace]. simpl for_in. unfold bind.
  revert Hdecided. rewrite step_run.
  destruct (network E (h ++ failed_attempts rq 0 k) rq) as [r|e].
  - cbn [value final trace]. destruct (classify json_dict r) as [j|e]; intros _.
    + cbn. rewrite !app_nil_r. reflexivity.
    + cbn. reflexivity.
  - destruct (is_transient e).
    + destruct (MAX_RETRIES E <=? k)%nat; cbn; intros Hd; [reflexivity|].
      exfalso. apply Hd. reflexivity.
    + cbn. intros _. reflexivity.
Qed.

(** Whatever the service does, every iteration posts once. *)
Lemma loop_posts_bound (l : list nat) : forall (s : S) h,
  (List.length (posts (trace (for_in l step s h))) <= List.length l)%nat.
Proof.
  induction l as [|i l IH]; intros s h; [simpl; lia|].
  simpl for_in. unfold bind. rewrite step_run.
  destruct (network E h rq) as [r|e].
  - cbn [value final trace]. destruct (classify json_dict r) as [j|e]; cbn; lia.
  - destruct (is_transient e); [|cbn; lia].
    destruct (MAX_RETRIES E <=? i)%nat; [cbn; lia|].
    cbn [value final trace]. rewrite posts_app. rewrite length_app.
    specialize (IH s (h ++ [EPost rq; ESleep (backoff i)])). cbn in *. lia.
Qed.

Lemma submit_posts_bound (s : S) h :
  (List.length (posts (trace (_submit_post_request E json_dict timeout headers s h)))
   <= MAX_RETRIES E + 1)%nat.
Proof.
  unfold _submit_post_request. fold step. unfold bind.
  pose proof (loop_posts_bound (seq 0 (MAX_RETRIES E + 1)) s h) as Hb.
  rewrite length_seq in Hb.
  destruct (value (for_in (seq 0 (MAX_RETRIES E + 1)) step s h)) as [[j|]|e];
    cbn [trace value]; rewrite ?app_nil_r; exact Hb.
Qed.

(** After [k] transient failures the service answers: the answer is
    classified and nothing more is sent. *)
Lemma submit_responded k (s : S) h r :
  (k <= MAX_RETRIES E)%nat ->
  fails_transiently h 0 k ->
  network E (h ++ failed_attempts rq 0 k) rq = Responded r ->
  _submit_post_request E json_dict timeout headers s h =
  Run (classify json_dict r) s (failed_attempts rq 0 k ++ [EPost rq]).
Proof.
  intros Hk Hf Hr.
  rewrite (submit_after_failures s Hk Hf); rewrite step_run, Hr; cbn [value].
  - destruct (classify json_dict r); reflexivity.
  - destruct (classify json_dict r); discriminate.
Qed.

(** One transient failure more than the budget. *)
Lemma submit_exhausted (s : S) h :
  fails_transiently h 0 (MAX_RETRIES E + 1) ->
  _submit_post_request E json_dict timeout headers s h =
  Run (Raise (APIQueryFailedException
                [PStr msg_retries_exhausted; PJson (redact json_dict)]))
      s (failed_attempts rq 0 (MAX_RETRIES E) ++ [EPost rq]).
Proof.
  intros Hf.
  assert (Hpre : fails_transiently h 0 (MAX_RETRIES E)).
  { intros i Hi. apply Hf. lia. }
  destruct (Hf (MAX_RETRIES E)) as [e [He Ht]]; [lia|].
  rewrite (submit_after_failures s (Nat.le_refl _) Hpre);
    rewrite step_run, He, Ht, Nat.leb_refl; cbn [value].
  - reflexivity.
  - discriminate.
Qed.

(** Whatever the service does: a run that returns a payload classified some
    answer as a success, and every POST of the run is [rq]. *)
Lemma loop_ok_inv (l : list nat) : forall (s : S) h j,
  value (for_in l step s h) = Ok (Some j) ->
  exists h' r, network E h' rq = Responded r /\ classify json_dict r = Ok j.
Proof.
  induction l as [|i l IH]; intros s h j; [discriminate|].
  simpl for_in. unfold bind. rewrite step_run.
  destruct (network E h rq) as [r|e] eqn:Hn.
  - cbn [value final trace]. destruct (classify json_dict r) as [j'|e] eqn:Hc.
    + cbn. intros Hv. inversion Hv; subst. exists h, r. split; assumption.
    + cbn. discriminate.
  - destruct (is_transient e); [|cbn; discriminate].
    destruct (MAX_RETRIES E <=? i)%nat; [cbn; discriminate|].
    cbn [value final trace]. apply IH.
Qed.

Lemma loop_posts_same (l : list nat) : forall (s : S) h rq',
  In rq' (posts (trace (for_in l step s h))) -> rq' = rq.
Proof.
  induction l as [|i l IH]; intros s h rq'; [intros []|].
  simpl for_in. unfold bind. rewrite step_run.
  destruct (network E h rq) as [r|e].
  - cbn [value final trace].
    destruct (classify json_dict r) as [j|e]; cbn; intros [H|[]]; auto.
  - destruct (is_transient e); [|cbn; intros [H|[]]; auto].
    destruct (MAX_RETRIES E <=? i)%nat; [cbn; intros [H|[]]; auto|].
    cbn [value final trace]. rewrite posts_app. intros Hin.
    apply in_app_or in Hin. destruct Hin as [Hin|Hin].
    + cbn in Hin. destruct Hin as [H|[]]; auto.
    + exact (IH _ _ _ Hin).
Qed.

Lemma submit_ok_inv (s : S) h j :
  value (_submit_post_request E json_dict timeout headers s h) = Ok j ->
  j = JNull \/
  exists h' r, network E h' rq = Responded r /\ classify json_dict r = Ok j.
Proof.
  unfold _submit_post_request. fold step. unfold bind.
  destruct (value (for_in (seq 0 (MAX_RETRIES E + 1)) step s h)) as [[j'|]|e] eqn:Hv;
    cbn; intros H; inversion H; subst.
  - right. exact (loop_ok_inv _ _ _ Hv).
  - left. reflexivity.
Qed.

Lemma submit_posts_same (s : S) h rq' :
  In rq' (posts (trace (_submit_post_request E json_dict timeout headers s h))) ->
  rq' = rq.
Proof.
  unfold _submit_post_request. fold step. unfold bind.
  pose proof (@loop_posts_same (seq 0 (MAX_RETRIES E + 1)) s h rq') as Hl.
  destruct (value (for_in (seq 0 (MAX_RETRIES E + 1)) step s h)) as [[j'|]|e];
    cbn [trace value]; rewrite ?app_nil_r; exact Hl.
Qed.

End Retry.

(** ** Every run of the retry loop *)

Section RetryCases.

Variable E : Env.
Context {S : Type}.
Variables (json_dict : dict json) (timeout : option Q) (headers : option (dict string)).

Let rq := query_request E json_dict timeout headers.

Let step (retry_num : nat) : M S (option json) :=
  try_except
    (json_data <- attempt E json_dict timeout headers ;; ret (Some json_data))
    is_transient
    (fun _ => on_transient E json_dict retry_num).

Lemma fails_transiently_cons h a k e :
  network E h rq = PostRaises e ->
  is_transient e = true ->
  fails_transiently E rq (h ++ [EPost rq; ESleep (backoff a)]) (Datatypes.S a) k ->
  fails_transiently E rq h a (Datatypes.S k).
Proof.
  intros He Ht Hf [|i] Hi.
  - exists e. cbn. rewrite app_nil_r. split; assumption.
  - destruct (Hf i) as [e' [He' Ht']]; [lia|].
    exists e'. split; [|exact Ht'].
    rewrite <- app_assoc in He'. exact He'.
Qed.

(** Whatever the service does, the loop over the retry numbers that are left
    is some transient failures, each followed by its backoff, and then one
    attempt that decides. *)
Lemma loop_cases n : forall a (s : S) h,
  (a + n = MAX_RETRIES E + 1)%nat ->
  (1 <= n)%nat ->
  exists k,
    (a + k <= MAX_RETRIES E)%nat /\
    fails_transiently E rq h a k /\
    for_in (seq a n) step s h =
      Run (match final_outcome json_dict
                   (network E (h ++ failed_attempts rq a k) rq) with
           | Ok j => Ok (Some j)
           | Raise e => Raise e
           end) s (failed_attempts rq a k ++ [EPost rq]) /\
    (forall e, network E (h ++ failed_attempts rq a k) rq = PostRaises e ->
               is_transient e = true -> (a + k = MAX_RETRIES E)%nat).
Proof.
  induction n as [|n IH]; intros a s h Han Hn; [lia|].
  simpl seq. simpl for_in. unfold step at 1.
  pose proof (@step_run E S json_dict timeout headers a s h) as Hstep.
  fold rq in Hstep.
  destruct (network E h rq) as [r|e] eqn:Hnet.
  - exists 0%nat. split; [lia|]. split; [intros i Hi; lia|].
    cbn [failed_attempts flat_map seq app]. rewrite app_nil_r, Hnet.
    split; [|discriminate].
    cbn [final_outcome].
    destruct (classify json_dict r) as [j|e] eqn:Hc.
    + erewrite bind_ok_eq by exact Hstep. reflexivity.
    + erewrite bind_raise_eq by exact Hstep. reflexivity.
  - destruct (is_transient e) eqn:Ht.
    + destruct (Nat.leb_spec (MAX_RETRIES E) a) as [Hle|Hlt].
      * exists 0%nat. split; [lia|]. split; [intros i Hi; lia|].
        cbn [failed_attempts flat_map seq app]. rewrite app_nil_r, Hnet.
        split; [|intros; lia].
        cbn [final_outcome]. rewrite Ht.
        erewrite bind_raise_eq by exact Hstep. reflexivity.
      * destruct (IH (Datatypes.S a) s (h ++ [EPost rq; ESleep (backoff a)]))
          as [k [Hk [Hf [Hrun Hlast]]]]; [lia|lia|].
        exists (Datatypes.S k). split; [lia|].
        split; [exact (@fails_transiently_cons h a k e Hnet Ht Hf)|].
        change (failed_attempts rq a (Datatypes.S k))
          with ([EPost rq; ESleep (backoff a)] ++ failed_attempts rq (Datatypes.S a) k).
        rewrite app_assoc. split.
        -- erewrite bind_ok_eq by exact Hstep. cbv beta iota. rewrite Hrun.
           rewrite prepend_Run, <- app_assoc. reflexivity.
        -- intros e' He' Ht'. specialize (Hlast e' He' Ht'). lia.
    + exists 0%nat. split; [lia|]. split; [intros i Hi; lia|].
      cbn [failed_attempts flat_map seq app]. rewrite app_nil_r, Hnet.
      split; [|congruence].
      cbn [final_outcome]. rewrite Ht.
      erewrite bind_raise_eq by exact Hstep. reflexivity.
Qed.

(** Every run of [_submit_post_request]: [k] transient failures within the
    budget, then the attempt that decides. *)
Lemma submit_run_cases (s : S) h :
  exists k,
    (k <= MAX_RETRIES E)%nat /\
    fails_transiently E rq h 0 k /\
    _submit_post_request E json_dict timeout headers s h =
      Run (final_outcome json_dict (network E (h ++ failed_attempts rq 0 k) rq))
          s (failed_attempts rq 0 k ++ [EPost rq]) /\
    (forall e, network E (h ++ failed_attempts rq 0 k) rq = PostRaises e ->
               is_transient e = true -> k = MAX_RETRIES E).
Proof.
  destruct (@loop_cases (MAX_RETRIES E + 1) 0 s h) as [k [Hk [Hf [Hrun Hlast]]]];
    [lia|lia|].
  exists k. split; [exact Hk|]. split; [exact Hf|]. split; [|exact Hlast].
  unfold _submit_post_request. fold step.
  destruct (final_outcome json_dict (network E (h ++ failed_attempts rq 0 k) rq))
    as [j|e].
  - erewrite bind_ok_eq by exact Hrun. unfold ret. rewrite prepend_Run, app_nil_r.
    reflexivity.
  - erewrite bind_raise_eq by exact Hrun. reflexivity.
Qed.

End RetryCases.

Lemma sleeps_failed_attempts rq k : forall a,
  sleeps (failed_attempts rq a k) = map backoff (seq a k).
Proof.
  unfold failed_attempts. induction k as [|k IH]; intros a; [reflexivity|].
  cbn. rewrite IH. reflexivity.
Qed.

Lemma posts_failed_attempts rq k : forall a,
  posts (failed_attempts rq a k) = repeat rq k.
Proof.
  unfold failed_attempts. induction k as [|k IH]; intros a; [reflexivity|].
  cbn. rewrite IH. reflexivity.
Qed.

(** ** Redaction *)

Lemma dict_get_set_same V (d : dict V) k v :
  dict_get (dict_set d k v) k = Some v.
Proof.
  induction d as [|[k' v'] d IH]; simpl.
  - rewrite String.eqb_refl. reflexivity.
  - destruct (String.eqb k' k) eqn:Hk; simpl; rewrite Hk; [reflexivity|exact IH].
Qed.

Lemma dict_get_set_other V (d : dict V) k v k' :
  k' <> k -> dict_get (dict_set d k v) k' = dict_get d k'.
Proof.
  intros Hne. induction d as [|[k0 v0] d IH]; simpl.
  - destruct (String.eqb_spec k k'); [congruence|reflexivity].
  - destruct (String.eqb_spec k0 k) as [->|Hk]; simpl.
    + destruct (String.eqb_spec k k'); [congruence|reflexivity].
    + destruct (String.eqb_spec k0 k'); [reflexivity|exact IH].
Qed.

Lemma dict_set_set V (d : dict V) k v v' :
  dict_set (dict_set d k v) k v' = dict_set d k v'.
Proof.
  induction d as [|[k0 v0] d IH]; simpl.
  - rewrite String.eqb_refl. reflexivity.
  - destruct (String.eqb k0 k) eqn:Hk; simpl; rewrite Hk; [reflexivity|].
    rewrite IH. reflexivity.
Qed.

(** ** Retry budget, terminal statuses and redaction *)

(** C2: retry budget of [_submit_post_request].  If the POST fails
    transiently exactly [MAX_RETRIES] times and is then answered with status
    200 and a truthy [success] flag, the decoded body is returned, after
    [MAX_RETRIES] backoffs and [MAX_RETRIES + 1] POSTs.  If it fails
    transiently [MAX_RETRIES + 1] times, the call raises the terminal
    "Query has timed out ..." failure right after the last POST.  Whatever the
    service does, no run issues more than [MAX_RETRIES + 1] POSTs. *)
Theorem retry_budget (E : Env) (S : Type) (json_dict : dict json) (timeout : option Q)
    (headers : option (dict string)) (s : S) (h : list event) :
  let rq := query_request E json_dict timeout headers in
  let r := _submit_post_request E json_dict timeout headers s h in
  (forall bytes body flag,
      fails_transiently E rq h 0 (MAX_RETRIES E) ->
      network E (h ++ failed_attempts rq 0 (MAX_RETRIES E)) rq =
        Responded (Response 200 bytes (Some (JDict body))) ->
      dict_get body "success" = Some flag ->
      truthy flag = true ->
      r = Run (Ok (JDict body)) s (failed_attempts rq 0 (MAX_RETRIES E) ++ [EPost rq]))
  /\ (fails_transiently E rq h 0 (MAX_RETRIES E + 1) ->
      r = Run (Raise (APIQueryFailedException
                        [PStr msg_retries_exhausted; PJson (redact json_dict)]))
              s (failed_attempts rq 0 (MAX_RETRIES E) ++ [EPost rq]))
  /\ (List.length (posts (trace r)) <= MAX_RETRIES E + 1)%nat.
Proof.
  intros rq r. split; [|split].
  - intros bytes body flag Hf Hr Hs Ht. subst r rq.
    rewrite (submit_responded s (Nat.le_refl _) Hf Hr).
    unfold classify. cbn [status_code body_json]. simpl negb. cbv iota.
    rewrite Hs, Ht. reflexivity.
  - intros Hf. subst r rq. apply submit_exhausted. exact Hf.
  - subst r. apply submit_posts_bound.
Qed.

Lemma flaky_fails_transiently n k json_dict timeout headers :
  (k <= n)%nat ->
  fails_transiently (sample_env (flaky_service n))
    (query_request (sample_env (flaky_service n)) json_dict timeout headers) [] 0 k.
Proof.
  intros Hk i Hi. exists Timeout. split; [|reflexivity].
  cbn [network sample_env]. unfold flaky_service.
  assert (Hlen : forall rq a j, List.length (posts (failed_attempts rq a j)) = j).
  { intros rq a j. revert a. unfold failed_attempts.
    induction j as [|j IH]; intros a; [reflexivity|].
    simpl. rewrite IH. reflexivity. }
  cbn [app]. rewrite Hlen.
  destruct (Nat.ltb_spec i n); [reflexivity|lia].
Qed.

(** Three timeouts, then success: the payload comes back after four POSTs;
    four timeouts: the terminal failure. *)
Lemma retry_budget_witness :
  value (_submit_post_request (sample_env (flaky_service 3)) sample_envelope None None tt [])
  = Ok (success_body "data" sample_rows)
  /\ value (_submit_post_request (sample_env (flaky_service 4)) sample_envelope None None tt [])
     = Raise (APIQueryFailedException
                [PStr msg_retries_exhausted; PJson (redact sample_envelope)]).
Proof.
  split.
  - destruct (retry_budget (sample_env (flaky_service 3)) sample_envelope None None tt [])
      as [Hok _].
    rewrite (Hok "" [("success", JBool true); ("data", sample_rows)] (JBool true)).
    + reflexivity.
    + apply flaky_fails_transiently. apply Nat.le_refl.
    + reflexivity.
    + reflexivity.
    + reflexivity.
  - destruct (retry_budget (sample_env (flaky_service 4)) sample_envelope None None tt [])
      as [_ [Hfail _]].
    rewrite Hfail.
    + reflexivity.
    + apply flaky_fails_transiently. apply Nat.le_refl.
Defined.

(** C7: a response with status 520, at the first attempt or after any number
    of retried transient failures, makes [_submit_post_request] raise the
    fixed "Query has timed out ... too much data at once ..." failure, whatever
    the body of the response is; the failure is terminal: the POST answered
    with 520 is the last event of the run, nothing is retried. *)
Theorem status_520_terminal (E : Env) (S : Type) (json_dict : dict json)
    (timeout : option Q) (headers : option (dict string)) (s : S) (h : list event)
    (k : nat) (bytes : string) (body : option json) :
  let rq := query_request E json_dict timeout headers in
  (k <= MAX_RETRIES E)%nat ->
  fails_transiently E rq h 0 k ->
  network E (h ++ failed_attempts rq 0 k) rq = Responded (Response 520 bytes body) ->
  _submit_post_request E json_dict timeout headers s h =
  Run (Raise (APIQueryFailedException [PStr msg_status_520; PJson (redact json_dict)]))
      s (failed_attempts rq 0 k ++ [EPost rq]).
Proof.
  intros rq Hk Hf Hr. subst rq.
  rewrite (submit_responded s Hk Hf Hr). reflexivity.
Qed.

Lemma status_520_terminal_witness :
  _submit_post_request (sample_env (status_service 520 "<html>gateway</html>"))
    sample_envelope None None tt []
  = Run (Raise (APIQueryFailedException
                  [PStr msg_status_520; PJson (redact sample_envelope)]))
        tt
        [EPost (query_request (sample_env (status_service 520 "<html>gateway</html>"))
                  sample_envelope None None)].
Proof.
  apply (@status_520_terminal (sample_env (status_service 520 "<html>gateway</html>"))
           unit sample_envelope None None tt [] 0%nat "<html>gateway</html>" None).
  - cbn. lia.
  - intros i Hi. lia.
  - reflexivity.
Defined.

(** C4: token redaction in [_submit_post_request].  Whenever the submission
    fails because of a response with a status other than 200 (520 included) or
    because the retry budget is exhausted, the context attached to the raised
    [APIQueryFailedException] is the request with its [token] field
    overwritten by the mask: the [token] field of the context is
    ["**********"], the other fields are those of the request, and the context
    is the same whatever token the request carried.  For the envelopes the
    module builds, the context is the mask next to the query (or queries). *)
Theorem token_redaction (E : Env) (S : Type) (json_dict : dict json)
    (timeout : option Q) (headers : option (dict string)) (s : S) (h : list event)
    (k : nat) :
  let rq := query_request E json_dict timeout headers in
  let r := _submit_post_request E json_dict timeout headers s h in
  (k <= MAX_RETRIES E)%nat ->
  fails_transiently E rq h 0 k ->
  (forall resp,
      network E (h ++ failed_attempts rq 0 k) rq = Responded resp ->
      status_code resp <> 200 ->
      value r = Raise (APIQueryFailedException
                         ((if status_code resp =? 520 then [PStr msg_status_520]
                           else [PInt (status_code resp); PBytes (content resp)])
                          ++ [PJson (redact json_dict)])))
  /\ (k = MAX_RETRIES E ->
      forall e,
        network E (h ++ failed_attempts rq 0 k) rq = PostRaises e ->
        is_transient e = true ->
        value r = Raise (APIQueryFailedException
                           [PStr msg_retries_exhausted; PJson (redact json_dict)]))
  /\ (exists ctx,
        redact json_dict = JDict ctx /\
        dict_get ctx "token" = Some (JStr token_mask) /\
        forall key, key <> "token" -> dict_get ctx key = dict_get json_dict key)
  /\ (forall token, redact (dict_set json_dict "token" token) = redact json_dict)
  /\ (forall token q,
        redact (single_envelope E token q) =
        JDict [("token", JStr token_mask); ("query", to_api_struct E q)])
  /\ (forall token chunk,
        redact [("token", JStr token); ("queries", JDict chunk)] =
        JDict [("token", JStr token_mask); ("queries", JDict chunk)]).
Proof.
  intros rq r Hk Hf. subst r rq. repeat split.
  - intros resp Hr Hs.
    rewrite (submit_responded s Hk Hf Hr). cbn [value]. unfold classify.
    destruct (Z.eqb_spec (status_code resp) 200) as [H200|_]; [contradiction|].
    cbn [negb]. destruct (status_code resp =? 520); reflexivity.
  - intros -> e He Ht.
    rewrite submit_exhausted; [reflexivity|].
    intros i Hi. destruct (Nat.eq_dec i (MAX_RETRIES E)) as [->|Hne].
    + exists e. split; assumption.
    + apply Hf. lia.
  - exists (dict_set json_dict "token" (JStr token_mask)). repeat split.
    + apply dict_get_set_same.
    + intros key Hkey. apply dict_get_set_other. exact Hkey.
  - intros token. unfold redact. rewrite dict_set_set. reflexivity.
Qed.

Lemma token_redaction_witness :
  value (_submit_post_request (sample_env (status_service 404 "not found"))
           sample_envelope None None tt [])
  = Raise (APIQueryFailedException
             [PInt 404; PBytes "not found";
              PJson (JDict [("token", JStr "**********"); ("query", JStr "q")])]).
Proof.
  destruct (@token_redaction (sample_env (status_service 404 "not found")) unit
              sample_envelope None None tt [] 0%nat) as [Hstatus _].
  - cbn. lia.
  - intros i Hi. lia.
  - rewrite (Hstatus (Response 404 "not found" None)).
    + reflexivity.
    + reflexivity.
    + cbn. lia.
Defined.

(** ** Chunking *)

Section Chunking.

Variable X : Type.

Lemma firstn_add (a b : nat) : forall l : list X,
  firstn (a + b) l = firstn a l ++ firstn b (skipn a l).
Proof.
  induction a as [|a IH]; intros l; [reflexivity|].
  destruct l as [|x l]; simpl; [rewrite firstn_nil; reflexivity|].
  rewrite IH. reflexivity.
Qed.

(** The first [n] slices of width [c], put end to end. *)
Lemma concat_slices (c n : nat) (l : list X) :
  List.concat (map (fun k => firstn c (skipn (k * c) l)) (seq 0 n)) = firstn (n * c) l.
Proof.
  induction n as [|n IH]; [reflexivity|].
  rewrite seq_S, map_app, concat_app, IH. simpl.
  rewrite app_nil_r, <- firstn_add. f_equal. lia.
Qed.

Lemma py_slice_nat (l : list X) (k : nat) (chunksize : Z) :
  0 < chunksize ->
  py_slice l (Z.of_nat k * chunksize) (Z.of_nat k * chunksize + chunksize) =
  firstn (Z.to_nat chunksize) (skipn (k * Z.to_nat chunksize) l).
Proof.
  intros Hc. unfold py_slice. f_equal; [f_equal; lia|f_equal; nia].
Qed.

(** [ceil(n / chunksize)] chunks reach the end of the list, and one chunk
    fewer does not. *)
Lemma range_count (n chunksize : Z) :
  0 <= n -> 0 < chunksize ->
  let q := (n + chunksize - 1) / chunksize in
  0 <= q /\ n <= q * chunksize /\ (q - 1) * chunksize < n.
Proof.
  intros Hn Hc q.
  pose proof (Z.div_mod (n + chunksize - 1) chunksize ltac:(lia)) as Hdm.
  pose proof (Z.mod_pos_bound (n + chunksize - 1) chunksize Hc) as Hmod.
  fold q in Hdm.
  assert (0 <= q) by (apply Z.div_pos; lia).
  repeat split; nia.
Qed.

End Chunking.

Lemma chunk_plan_nat (keys_list : list string) (chunksize : Z) :
  0 < chunksize ->
  chunk_plan keys_list chunksize =
  map (fun k => firstn (Z.to_nat chunksize) (skipn (k * Z.to_nat chunksize) keys_list))
      (seq 0 (Z.to_nat ((len keys_list + chunksize - 1) / chunksize))).
Proof.
  intros Hc. unfold chunk_plan, py_range. rewrite map_map.
  apply map_ext. intros k. apply py_slice_nat. exact Hc.
Qed.

(** The chunks, end to end, are the key list. *)
Lemma chunk_plan_concat (keys_list : list string) (chunksize : Z) :
  0 < chunksize -> List.concat (chunk_plan keys_list chunksize) = keys_list.
Proof.
  intros Hc. rewrite (chunk_plan_nat _ Hc), concat_slices.
  apply firstn_all2.
  destruct (range_count (n := len keys_list) (chunksize := chunksize)) as [Hq [Hhi _]];
    [unfold len; lia|exact Hc|].
  unfold len in *. nia.
Qed.

(** Every chunk has between one and [chunksize] keys. *)
Lemma chunk_plan_sizes (keys_list : list string) (chunksize : Z) :
  0 < chunksize ->
  Forall (fun chunk => 1 <= len chunk <= chunksize) (chunk_plan keys_list chunksize).
Proof.
  intros Hc. rewrite (chunk_plan_nat _ Hc). apply Forall_forall.
  intros chunk Hin. apply in_map_iff in Hin. destruct Hin as [k [<- Hk]].
  apply in_seq in Hk.
  destruct (range_count (n := len keys_list) (chunksize := chunksize)) as [Hq [_ Hlo]];
    [unfold len; lia|exact Hc|].
  unfold len in *. rewrite length_firstn, length_skipn. nia.
Qed.

(** ** Keys of dictionaries *)

Lemma keys_dict_set_in V (d : dict V) k v k' :
  In k' (keys (dict_set d k v)) <-> k' = k \/ In k' (keys d).
Proof.
  induction d as [|[k0 v0] d IH]; simpl.
  - intuition congruence.
  - destruct (String.eqb_spec k0 k) as [->|Hne]; simpl.
    + intuition congruence.
    + rewrite IH. intuition congruence.
Qed.

Lemma keys_dict_set_new V (d : dict V) k v :
  ~ In k (keys d) -> keys (dict_set d k v) = keys d ++ [k].
Proof.
  induction d as [|[k0 v0] d IH]; simpl; intros Hnin; [reflexivity|].
  destruct (String.eqb_spec k0 k) as [->|Hne]; simpl.
  - exfalso. apply Hnin. left. reflexivity.
  - rewrite IH; [reflexivity|]. intros Hin. apply Hnin. right. exact Hin.
Qed.

Lemma dict_get_in V (d : dict V) k :
  In k (keys d) -> exists v, dict_get d k = Some v.
Proof.
  induction d as [|[k0 v0] d IH]; simpl; [intros []|].
  intros [->|Hin].
  - rewrite String.eqb_refl. eauto.
  - destruct (String.eqb k0 k); eauto.
Qed.

Lemma py_slice_incl X (l : list X) i j x : In x (py_slice l i j) -> In x l.
Proof.
  unfold py_slice. intros Hin.
  rewrite <- (firstn_skipn (Z.to_nat i) l). apply in_or_app. right.
  rewrite <- (firstn_skipn (Z.to_nat (j - i)) (skipn (Z.to_nat i) l)).
  apply in_or_app. left. exact Hin.
Qed.

Lemma py_slice_NoDup X (l : list X) i j : NoDup l -> NoDup (py_slice l i j).
Proof.
  unfold py_slice. intros Hnd.
  rewrite <- (firstn_skipn (Z.to_nat i) l) in Hnd.
  apply NoDup_app_remove_l in Hnd.
  rewrite <- (firstn_skipn (Z.to_nat (j - i)) (skipn (Z.to_nat i) l)) in Hnd.
  apply NoDup_app_remove_r in Hnd. exact Hnd.
Qed.

Lemma token_fetches_app t1 t2 :
  token_fetches (t1 ++ t2) = (token_fetches t1 + token_fetches t2)%nat.
Proof.
  induction t1 as [|e t1 IH]; [reflexivity|].
  destruct e; cbn; rewrite IH; reflexivity.
Qed.

(** The test [idx_chunk + chunksize < len(keys_list)] holds for every chunk
    but the last. *)
Lemma more_chunks_test (X : Type) (l : list X) (chunksize : Z) (a : nat) :
  0 < chunksize ->
  (Z.of_nat a * chunksize + chunksize <? len l) =
  (Datatypes.S a <? Z.to_nat ((len l + chunksize - 1) / chunksize))%nat.
Proof.
  intros Hc.
  destruct (range_count (n := len l) (chunksize := chunksize)) as [Hq [Hhi Hlo]];
    [unfold len; lia|exact Hc|].
  destruct (Z.ltb_spec (Z.of_nat a * chunksize + chunksize) (len l)) as [H1|H1];
    destruct (Nat.ltb_spec (Datatypes.S a)
                (Z.to_nat ((len l + chunksize - 1) / chunksize))) as [H2|H2];
    try reflexivity; exfalso; nia.
Qed.

(** ** Batch submission *)

Section Batch.

Variable E : Env.
Context {S : Type}.
Variables (queries : dict (APIQueryParams E)) (timeout : option Q) (chunksize : Z)
  (time_between_chunks : option Q) (headers : option (dict string)).

Hypothesis queries_is_dict : NoDup (keys queries).

(** The dict comprehension of a chunk reads no missing key and keeps the keys
    of the chunk in order. *)
Lemma chunk_queries_acc (keys_chunk : list string) : forall (acc : dict json) (s : S) h,
  (forall k, In k keys_chunk -> In k (keys queries)) ->
  NoDup (keys acc ++ keys_chunk) ->
  exists d,
    for_acc keys_chunk acc
      (fun k acc =>
         match dict_get queries k with
         | Some q => ret (dict_set acc k (to_api_struct E q))
         | None => raise (KeyError k)
         end) s h = Run (Ok d) s [] /\
    keys d = keys acc ++ keys_chunk.
Proof.
  induction keys_chunk as [|k rest IH]; intros acc s h Hsub Hnd.
  - exists acc. simpl. rewrite app_nil_r. split; reflexivity.
  - destruct (@dict_get_in _ queries k) as [q Hq]; [apply Hsub; left; reflexivity|].
    assert (Hnew : ~ In k (keys acc)).
    { intros Hin. apply NoDup_remove_2 in Hnd. apply Hnd. apply in_or_app. left. exact Hin. }
    destruct (IH (dict_set acc k (to_api_struct E q)) s (h ++ [])) as [d [Hrun Hkeys]].
    + intros k' Hk'. apply Hsub. right. exact Hk'.
    + rewrite (@keys_dict_set_new _ acc k (to_api_struct E q) Hnew), <- app_assoc. exact Hnd.
    + exists d. split.
      * simpl for_acc. unfold bind. rewrite Hq. cbn [ret value final trace].
        rewrite Hrun. reflexivity.
      * rewrite Hkeys, (@keys_dict_set_new _ acc k (to_api_struct E q) Hnew), <- app_assoc.
        reflexivity.
Qed.

Lemma chunk_queries_run (idx_chunk : Z) (s : S) h :
  exists d,
    chunk_queries E queries
      (py_slice (keys queries) idx_chunk (idx_chunk + chunksize)) s h = Run (Ok d) s [] /\
    keys d = py_slice (keys queries) idx_chunk (idx_chunk + chunksize).
Proof.
  unfold chunk_queries. apply chunk_queries_acc.
  - intros k. apply py_slice_incl.
  - apply py_slice_NoDup. exact queries_is_dict.
Qed.

(** The loop [for k, v in json_data['data'].items()] emits no event.  When
    it completes, the keys of [data] have been added to those of [df_dict];
    the first value that [pandas] cannot turn into a table with upper-cased
    labels ends it with the exception of [pandas]. *)
Lemma build_tables_run (kvs : dict json) : forall (df_dict : dict (T_DF E)) (s : S),
  exists v,
    (forall h,
       for_acc kvs df_dict
         (fun kv acc =>
            df_ <- of_result (dataframe_upper E (snd kv)) ;;
            ret (dict_set acc (fst kv) df_)) s h = Run v s []) /\
    (forall df_dict', v = Ok df_dict' ->
       forall k, In k (keys df_dict') <-> In k (keys df_dict) \/ In k (keys kvs)) /\
    (Forall (fun kv => exists df_, dataframe_upper E (snd kv) = Ok df_) kvs ->
     exists df_dict', v = Ok df_dict').
Proof.
  induction kvs as [|[k0 v0] kvs IH]; intros df_dict s.
  - exists (Ok df_dict). split; [reflexivity|]. split.
    + intros d Hd k. inversion Hd; subst. cbn. intuition.
    + eauto.
  - destruct (dataframe_upper E v0) as [df0|e] eqn:Hdf.
    + assert (Hbody : forall h,
                (df_ <- of_result (dataframe_upper E v0) ;;
                 ret (dict_set df_dict k0 df_)) s h =
                Run (Ok (dict_set df_dict k0 df0)) s []).
      { intros h.
        erewrite bind_ok_eq by (unfold of_result; rewrite Hdf; reflexivity).
        reflexivity. }
      destruct (IH (dict_set df_dict k0 df0) s) as [v [Hrun [Hkeys Hok]]].
      exists v. split; [|split].
      * intros h. simpl for_acc.
        erewrite bind_ok_eq by exact (Hbody h). rewrite Hrun. reflexivity.
      * intros d Hd k. rewrite (Hkeys d Hd k), keys_dict_set_in. cbn.
        intuition congruence.
      * intros Hall. apply Hok. inversion Hall; assumption.
    + assert (Hbody : forall h,
                (df_ <- of_result (dataframe_upper E v0) ;;
                 ret (dict_set df_dict k0 df_)) s h = Run (Raise e) s []).
      { intros h.
        erewrite bind_raise_eq by (unfold of_result; rewrite Hdf; reflexivity).
        reflexivity. }
      exists (Raise e). split; [|split].
      * intros h. simpl for_acc. erewrite bind_raise_eq by exact (Hbody h). reflexivity.
      * discriminate.
      * intros Hall. inversion Hall as [|kv l [df_ Hd] Hrest]; subst.
        cbn in Hd. congruence.
Qed.

(** The POSTs of [k] failed attempts and the one that decides. *)
Lemma posted_chunk_attempts (rq : request) (k : nat) (chunk : list string) :
  posted_chunk rq = Some chunk ->
  map posted_chunk (posts (failed_attempts rq 0 k ++ [EPost rq])) =
  repeat (Some chunk) (Datatypes.S k).
Proof.
  intros Hc. rewrite posts_app, posts_failed_attempts, map_app, map_repeat.
  cbn [posts map]. rewrite Hc, <- repeat_cons. reflexivity.
Qed.

Lemma token_fetches_attempts (rq : request) (k : nat) : forall a,
  token_fetches (failed_attempts rq a k) = 0%nat.
Proof.
  unfold failed_attempts. induction k as [|k IH]; intros a; [reflexivity|].
  cbn. apply IH.
Qed.

(** One iteration of the chunk loop, whatever the service does: a token,
    then the attempts of [_submit_post_request] at the envelope of the chunk,
    then no further POST; when it completes, the keys of the answer's [data]
    have been merged into [df_dict]. *)
Lemma submit_chunk_run (idx_chunk : Z) (df_dict : dict (T_DF E)) (s : S) h :
  exists d k v t,
    keys d = py_slice (keys queries) idx_chunk (idx_chunk + chunksize) /\
    (k <= MAX_RETRIES E)%nat /\
    submit_chunk E queries timeout chunksize time_between_chunks headers (keys queries)
      idx_chunk df_dict s h = Run v s t /\
    map posted_chunk (posts t) =
      repeat (Some (py_slice (keys queries) idx_chunk (idx_chunk + chunksize)))
        (Datatypes.S k) /\
    token_fetches t = 1%nat /\
    forall df_dict', v = Ok df_dict' ->
      exists h' rq body data,
        req_json rq = JDict [("token", JStr (token_provider E h)); ("queries", JDict d)] /\
        final_outcome [("token", JStr (token_provider E h)); ("queries", JDict d)]
          (network E h' rq) = Ok (JDict body) /\
        dict_get body "data" = Some (JDict data) /\
        forall key, In key (keys df_dict') <-> In key (keys df_dict) \/ In key (keys data).
Proof.
  destruct (chunk_queries_run idx_chunk s (h ++ [EToken])) as [d [Hrun Hkeys]].
  set (json_dict := [("token", JStr (token_provider E h)); ("queries", JDict d)]).
  set (rq := query_request E json_dict timeout headers).
  destruct (@submit_run_cases E S json_dict timeout headers s (h ++ [EToken]))
    as [k [Hk [_ [Hsub _]]]].
  fold rq in Hsub.
  assert (Hchunk : posted_chunk rq =
                   Some (py_slice (keys queries) idx_chunk (idx_chunk + chunksize))).
  { unfold posted_chunk, request_queries, rq, query_request, json_dict. cbn.
    rewrite Hkeys. reflexivity. }
  pose proof (@posted_chunk_attempts rq k _ Hchunk) as Hposts.
  pose proof (token_fetches_attempts rq k 0) as Htok.
  set (tsub := failed_attempts rq 0 k ++ [EPost rq]) in *.
  assert (Htoks : token_fetches tsub = 0%nat).
  { unfold tsub. rewrite token_fetches_app, Htok. reflexivity. }
  exists d, k.
  assert (Hstart : forall B (rest : json -> M S B) v t,
    (forall j, final_outcome json_dict
                 (network E ((h ++ [EToken]) ++ failed_attempts rq 0 k) rq) = Ok j ->
               rest j s ((h ++ [EToken]) ++ tsub) = Run v s t) ->
    (forall e, final_outcome json_dict
                 (network E ((h ++ [EToken]) ++ failed_attempts rq 0 k) rq) = Raise e ->
               v = Raise e /\ t = []) ->
    (token <- get_api_token E ;;
     chunk <- chunk_queries E queries
                (py_slice (keys queries) idx_chunk (idx_chunk + chunksize)) ;;
     json_data <- _submit_post_request E
                    [("token", JStr token); ("queries", JDict chunk)] timeout headers ;;
     rest json_data) s h = Run v s ([EToken] ++ tsub ++ t)).
  { intros B rest v t Hok Hraise.
    erewrite bind_ok_eq by reflexivity.
    erewrite bind_ok_eq by exact Hrun. rewrite app_nil_r. fold json_dict.
    destruct (final_outcome json_dict
                (network E ((h ++ [EToken]) ++ failed_attempts rq 0 k) rq)) as [j|e].
    - erewrite bind_ok_eq by exact Hsub. rewrite (Hok j eq_refl).
      rewrite !prepend_Run. reflexivity.
    - erewrite bind_raise_eq by exact Hsub. destruct (Hraise e eq_refl) as [-> ->].
      rewrite !prepend_Run, app_nil_r. reflexivity. }
  set (out := final_outcome json_dict
                (network E ((h ++ [EToken]) ++ failed_attempts rq 0 k) rq)) in *.
  assert (Hfacts : forall t,
            posts t = [] -> token_fetches t = 0%nat ->
            map posted_chunk (posts ([EToken] ++ tsub ++ t)) =
              repeat (Some (py_slice (keys queries) idx_chunk (idx_chunk + chunksize)))
                (Datatypes.S k) /\
            token_fetches ([EToken] ++ tsub ++ t) = 1%nat).
  { intros t Hp Ht. split.
    - rewrite !posts_app, Hp, app_nil_r. cbn [posts app]. exact Hposts.
    - rewrite !token_fetches_app, Ht, Htoks. reflexivity. }
  assert (Hfail : forall e,
            (forall j, out = Ok j ->
               (data <- getitem j "data" ;;
                kvs <- items data ;;
                df_dict' <- for_acc kvs df_dict
                              (fun kv acc =>
                                 df_ <- of_result (dataframe_upper E (snd kv)) ;;
                                 ret (dict_set acc (fst kv) df_)) ;;
                match time_between_chunks with
                | Some pause =>
                    if idx_chunk + chunksize <? len (keys queries)
                    then time_sleep pause ;;; ret df_dict'
                    else ret df_dict'
                | None => ret df_dict'
                end) s ((h ++ [EToken]) ++ tsub) = Run (Raise e) s []) ->
            (forall e', out = Raise e' -> e = e') ->
            exists v t,
              keys d = py_slice (keys queries) idx_chunk (idx_chunk + chunksize) /\
              (k <= MAX_RETRIES E)%nat /\
              submit_chunk E queries timeout chunksize time_between_chunks headers
                (keys queries) idx_chunk df_dict s h = Run v s t /\
              map posted_chunk (posts t) =
                repeat (Some (py_slice (keys queries) idx_chunk (idx_chunk + chunksize)))
                  (Datatypes.S k) /\
              token_fetches t = 1%nat /\
              forall df_dict', v = Ok df_dict' ->
                exists h' rq body data,
                  req_json rq = JDict json_dict /\
                  final_outcome json_dict (network E h' rq) = Ok (JDict body) /\
                  dict_get body "data" = Some (JDict data) /\
                  forall key, In key (keys df_dict') <->
                              In key (keys df_dict) \/ In key (keys data)).
  { intros e Hok Hraise.
    exists (Raise e), ([EToken] ++ tsub ++ []).
    split; [exact Hkeys|]. split; [exact Hk|]. split.
    - unfold submit_chunk. apply Hstart; [exact Hok|].
      intros e' He'. rewrite (Hraise e' He'). split; reflexivity.
    - destruct (Hfacts [] eq_refl eq_refl) as [Hp Ht].
      split; [exact Hp|]. split; [exact Ht|discriminate]. }
  destruct out as [j|e] eqn:Hout;
    [|apply (Hfail e); [discriminate|intros e' He'; congruence]].
  destruct j as [| | | | |body];
    try (apply (Hfail TypeError); [|discriminate];
         intros j Hj; inversion Hj; subst j; unfold getitem; run_binds; reflexivity).
  destruct (dict_get body "data") as [data|] eqn:Hdata;
    [|apply (Hfail (KeyError "data")); [|discriminate];
      intros j Hj; inversion Hj; subst j; unfold getitem; rewrite Hdata;
      run_binds; reflexivity].
  destruct data as [| | | | |kvs];
    try (apply (Hfail AttributeError); [|discriminate];
         intros j Hj; inversion Hj; subst j; unfold getitem; rewrite Hdata;
         run_binds; reflexivity).
  destruct (build_tables_run kvs df_dict s) as [v2 [Htab [Hmerge _]]].
  destruct v2 as [df_dict2|e];
    [|apply (Hfail e); [|discriminate];
      intros j Hj; inversion Hj; subst j; unfold getitem; rewrite Hdata;
      erewrite bind_ok_eq by reflexivity; erewrite bind_ok_eq by reflexivity;
      erewrite bind_raise_eq by apply Htab; reflexivity].
  assert (Hdone : forall v t,
            (forall h0,
               (match time_between_chunks with
                | Some pause =>
                    if idx_chunk + chunksize <? len (keys queries)
                    then time_sleep pause ;;; ret df_dict2
                    else ret df_dict2
                | None => ret df_dict2
                end) s h0 = Run v s t) ->
            posts t = [] -> token_fetches t = 0%nat ->
            (forall df_dict', v = Ok df_dict' -> df_dict' = df_dict2) ->
            exists v t,
              keys d = py_slice (keys queries) idx_chunk (idx_chunk + chunksize) /\
              (k <= MAX_RETRIES E)%nat /\
              submit_chunk E queries timeout chunksize time_between_chunks headers
                (keys queries) idx_chunk df_dict s h = Run v s t /\
              map posted_chunk (posts t) =
                repeat (Some (py_slice (keys queries) idx_chunk (idx_chunk + chunksize)))
                  (Datatypes.S k) /\
              token_fetches t = 1%nat /\
              forall df_dict', v = Ok df_dict' ->
                exists h' rq body data,
                  req_json rq = JDict json_dict /\
                  final_outcome json_dict (network E h' rq) = Ok (JDict body) /\
                  dict_get body "data" = Some (JDict data) /\
                  forall key, In key (keys df_dict') <->
                              In key (keys df_dict) \/ In key (keys data)).
  { intros v t Hlast Hp Ht Hv.
    exists v, ([EToken] ++ tsub ++ t).
    split; [exact Hkeys|]. split; [exact Hk|]. split; [|].
    - unfold submit_chunk. apply Hstart; [|discriminate].
      intros j Hj. inversion Hj; subst j. unfold getitem. rewrite Hdata.
      erewrite bind_ok_eq by reflexivity. erewrite bind_ok_eq by reflexivity.
      erewrite bind_ok_eq by apply Htab.
      rewrite Hlast, !prepend_Run. reflexivity.
    - destruct (Hfacts t Hp Ht) as [Hp' Ht'].
      split; [exact Hp'|]. split; [exact Ht'|].
      intros df_dict' Hd. rewrite (Hv df_dict' Hd).
      exists ((h ++ [EToken]) ++ failed_attempts rq 0 k), rq, body, kvs.
      split; [reflexivity|]. split; [exact Hout|]. split; [exact Hdata|].
      exact (Hmerge df_dict2 eq_refl). }
  destruct time_between_chunks as [pause|];
    [destruct (idx_chunk + chunksize <? len (keys queries))|].
  - unfold time_sleep in Hdone. destruct (Qle_bool 0 pause).
    + apply (Hdone (Ok df_dict2) [ESleep pause]);
        [intros h0; erewrite bind_ok_eq by reflexivity; reflexivity
        |reflexivity|reflexivity|].
      intros df_dict' Hd. inversion Hd; reflexivity.
    + apply (Hdone (Raise (ValueError "sleep length must be non-negative")) []);
        [intros h0; erewrite bind_raise_eq by reflexivity; reflexivity
        |reflexivity|reflexivity|].
      discriminate.
  - apply (Hdone (Ok df_dict2) []); [reflexivity|reflexivity|reflexivity|].
    intros df_dict' Hd. inversion Hd; reflexivity.
  - apply (Hdone (Ok df_dict2) []); [reflexivity|reflexivity|reflexivity|].
    intros df_dict' Hd. inversion Hd; reflexivity.
Qed.

Lemma classify_ok_inv (json_dict : dict json) r j :
  classify json_dict r = Ok j ->
  status_code r = 200 /\
  exists body flag,
    j = JDict body /\ body_json r = Some (JDict body) /\
    dict_get body "success" = Some flag /\ truthy flag = true.
Proof.
  unfold classify.
  destruct (Z.eqb_spec (status_code r) 200) as [H200|Hne]; cbn [negb].
  - destruct (body_json r) as [[| | | | |body]|]; try discriminate.
    destruct (dict_get body "success") as [flag|] eqn:Hs; [|discriminate].
    destruct (truthy flag) eqn:Ht; [|discriminate].
    intros H; inversion H; subst. split; [exact H200|].
    exists body, flag. auto.
  - destruct (status_code r =? 520); discriminate.
Qed.

(** The chunk that starts at [i * chunksize]. *)
Let chunk_at (i : nat) : list string :=
  py_slice (keys queries) (Z.of_nat i * chunksize) (Z.of_nat i * chunksize + chunksize).

(** The chunk loop from chunk number [a] on, whatever the service does.  The
    chunks it starts are the first ones, in order; each started chunk has
    fetched one token and been posted between 1 and [MAX_RETRIES + 1] times;
    when the loop completes it has started them all. *)
Lemma chunk_loop (m : nat) : forall (a : nat) (df_dict : dict (T_DF E)) (s : S) h,
  exists attempts v t,
    for_acc (map (fun i => Z.of_nat i * chunksize) (seq a m)) df_dict
      (submit_chunk E queries timeout chunksize time_between_chunks headers
         (keys queries)) s h = Run v s t /\
    (List.length attempts <= m)%nat /\
    Forall (fun n => (1 <= n <= MAX_RETRIES E + 1)%nat) attempts /\
    map posted_chunk (posts t) =
      flat_map (fun cn => repeat (Some (fst cn)) (snd cn))
        (combine (map chunk_at (seq a m)) attempts) /\
    token_fetches t = List.length attempts /\
    (forall dfs, v = Ok dfs -> List.length attempts = m) /\
    (honours_batch_protocol E ->
     forall dfs, v = Ok dfs ->
       forall key, In key (keys dfs) <->
                   In key (keys df_dict) \/
                   exists i, In i (seq a m) /\ In key (chunk_at i)).
Proof.
  induction m as [|m IH]; intros a df_dict s h.
  - exists [], (Ok df_dict), []. split; [reflexivity|]. split; [cbn; lia|].
    split; [constructor|]. split; [reflexivity|]. split; [reflexivity|].
    split; [reflexivity|].
    intros _ dfs Hd key. inversion Hd; subst.
    split; [auto|intros [Hk|[i [[] _]]]; exact Hk].
  - destruct (submit_chunk_run (Z.of_nat a * chunksize) df_dict s h)
      as [d [k [v1 [t1 [Hkeys [Hk [Hrun [Hposts [Htok Hmerge]]]]]]]]].
    fold (chunk_at a) in Hposts, Hkeys.
    destruct v1 as [df1|e].
    + destruct (IH (Datatypes.S a) df1 s (h ++ t1))
        as [attempts [v [t [Hloop [Hlen [Hall [Hps [Hts [Hfull Hdict]]]]]]]]].
      exists (Datatypes.S k :: attempts), v, (t1 ++ t).
      split; [|split; [|split; [|split; [|split; [|split]]]]].
      * simpl seq. simpl map. simpl for_acc.
        erewrite bind_ok_eq by exact Hrun. rewrite Hloop. reflexivity.
      * cbn. lia.
      * constructor; [lia|exact Hall].
      * rewrite posts_app, map_app, Hposts, Hps. reflexivity.
      * rewrite token_fetches_app, Htok, Hts. reflexivity.
      * intros dfs Hd. cbn. rewrite (Hfull dfs Hd). reflexivity.
      * intros Hproto dfs Hd key.
        rewrite (Hdict Hproto dfs Hd key).
        destruct (Hmerge df1 eq_refl) as [h' [rq [body [data [Hreq [Hout [Hdata Hk1]]]]]]].
        destruct (network E h' rq) as [r|e] eqn:Hnet;
          [|cbn in Hout; destruct (is_transient e); discriminate].
        cbn [final_outcome] in Hout. apply classify_ok_inv in Hout.
        destruct Hout as [H200 [body' [flag [Hb [Hjson [Hs Ht]]]]]].
        inversion Hb; subst body'.
        destruct (Hproto h' rq r (JStr (token_provider E h)) d body flag Hnet Hreq
                    H200 Hjson Hs Ht) as [data' [Hdata' Hsame]].
        rewrite Hdata in Hdata'. inversion Hdata'; subst data'.
        rewrite Hk1, Hsame, Hkeys. simpl seq. split.
        -- intros [[Hin|Hin]|[i [Hi Hin]]]; auto.
           ++ right. exists a. split; [left; reflexivity|exact Hin].
           ++ right. exists i. split; [right; exact Hi|exact Hin].
        -- intros [Hin|[i [[<-|Hi] Hin]]]; auto.
           right. exists i. split; assumption.
    + exists [Datatypes.S k], (Raise e), t1.
      split; [|split; [|split; [|split; [|split; [|split]]]]].
      * simpl seq. simpl map. simpl for_acc.
        erewrite bind_raise_eq by exact Hrun. reflexivity.
      * cbn. lia.
      * constructor; [lia|constructor].
      * rewrite Hposts. simpl seq. simpl map. cbn [combine flat_map fst snd].
        rewrite combine_nil. cbn [flat_map]. rewrite app_nil_r. reflexivity.
      * rewrite Htok. reflexivity.
      * discriminate.
      * intros _ dfs Hd. discriminate.
Qed.

End Batch.

Lemma query_api_multiple_run (E : Env) (S : Type) (queries : dict (APIQueryParams E))
    (timeout : option Q) (chunksize : Z) (time_between_chunks : option Q)
    (headers : option (dict string)) (s : S) (h : list event) :
  0 < chunksize ->
  query_api_multiple E queries timeout chunksize time_between_chunks headers s h =
  for_acc (py_range (len (keys queries)) chunksize) []
    (submit_chunk E queries timeout chunksize time_between_chunks headers (keys queries))
    s h.
Proof.
  intros Hc. unfold query_api_multiple, py_assert, bind.
  destruct (Z.ltb_spec 0 chunksize) as [_|Hn]; [|lia].
  cbn [ret value final trace]. rewrite app_nil_r. cbn [app]. apply run_eta.
Qed.

Lemma in_chunk_plan (keys_list : list string) (chunksize : Z) k :
  (exists idx_chunk,
      In idx_chunk (py_range (len keys_list) chunksize) /\
      In k (py_slice keys_list idx_chunk (idx_chunk + chunksize)))
  <-> In k (List.concat (chunk_plan keys_list chunksize)).
Proof.
  rewrite in_concat. unfold chunk_plan. split.
  - intros [i [Hi Hk]]. eexists. split; [apply in_map_iff; eauto|exact Hk].
  - intros [chunk [Hc Hk]]. apply in_map_iff in Hc. destruct Hc as [i [<- Hi]]. eauto.
Qed.

(** A run of [query_api_multiple] for [chunksize >= 1], whatever the service
    does, against the chunks the loop takes from the key list. *)
Lemma query_api_multiple_cases (E : Env) (S : Type) (queries : dict (APIQueryParams E))
    (timeout : option Q) (chunksize : Z) (time_between_chunks : option Q)
    (headers : option (dict string)) (s : S) (h : list event) :
  0 < chunksize ->
  NoDup (keys queries) ->
  let plan := chunk_plan (keys queries) chunksize in
  exists attempts v t,
    query_api_multiple E queries timeout chunksize time_between_chunks headers s h =
      Run v s t /\
    (List.length attempts <= List.length plan)%nat /\
    Forall (fun n => (1 <= n <= MAX_RETRIES E + 1)%nat) attempts /\
    map posted_chunk (posts t) =
      flat_map (fun cn => repeat (Some (fst cn)) (snd cn)) (combine plan attempts) /\
    token_fetches t = List.length attempts /\
    (forall dfs, v = Ok dfs -> List.length attempts = List.length plan) /\
    (honours_batch_protocol E ->
     forall dfs, v = Ok dfs -> forall k, In k (keys dfs) <-> In k (keys queries)).
Proof.
  intros Hc Hnd plan.
  rewrite (query_api_multiple_run _ _ _ _ _ _ _ Hc).
  destruct (@chunk_loop E S queries timeout chunksize time_between_chunks headers Hnd
              (Z.to_nat ((len (keys queries) + chunksize - 1) / chunksize)) 0 [] s h)
    as [attempts [v [t [Hloop [Hlen [Hall [Hposts [Htok [Hfull Hdict]]]]]]]]].
  assert (Hplan : plan =
            map (fun i => py_slice (keys queries) (Z.of_nat i * chunksize)
                            (Z.of_nat i * chunksize + chunksize))
              (seq 0 (Z.to_nat ((len (keys queries) + chunksize - 1) / chunksize)))).
  { unfold plan, chunk_plan, py_range. rewrite map_map. reflexivity. }
  assert (Hcount : List.length plan =
                   Z.to_nat ((len (keys queries) + chunksize - 1) / chunksize)).
  { rewrite Hplan, length_map, length_seq. reflexivity. }
  exists attempts, v, t. unfold py_range.
  split; [exact Hloop|]. split; [lia|]. split; [exact Hall|].
  split; [rewrite Hplan; exact Hposts|]. split; [exact Htok|].
  split; [intros dfs Hd; rewrite Hcount; exact (Hfull dfs Hd)|].
  intros Hproto dfs Hd k. rewrite (Hdict Hproto dfs Hd k).
  transitivity (In k (List.concat (chunk_plan (keys queries) chunksize)));
    [|rewrite (chunk_plan_concat (keys queries) Hc); reflexivity].
  rewrite <- in_chunk_plan. unfold py_range. cbn [keys map In]. split.
  - intros [[]|[i [Hi Hk]]]. exists (Z.of_nat i * chunksize).
    split; [apply in_map_iff; eauto|exact Hk].
  - intros [idx [Hidx Hk]]. apply in_map_iff in Hidx. destruct Hidx as [i [<- Hi]].
    right. eauto.
Qed.

(** When the batch completes against a service that honours the protocol,
    the result has the keys of the input. *)
Lemma query_api_multiple_keys (E : Env) (S : Type) (queries : dict (APIQueryParams E))
    (timeout : option Q) (chunksize : Z) (time_between_chunks : option Q)
    (headers : option (dict string)) (s : S) (h : list event) dfs :
  0 < chunksize ->
  NoDup (keys queries) ->
  honours_batch_protocol E ->
  value (query_api_multiple E queries timeout chunksize time_between_chunks headers s h)
    = Ok dfs ->
  forall k, In k (keys dfs) <-> In k (keys queries).
Proof.
  intros Hc Hnd Hproto Hv.
  destruct (@query_api_multiple_cases E S queries timeout chunksize time_between_chunks
              headers s h Hc Hnd) as [attempts [v [t [Hrun [_ [_ [_ [_ [_ Hkeys]]]]]]]]].
  rewrite Hrun in Hv. cbn [value] in Hv. exact (Hkeys Hproto dfs Hv).
Qed.

(** ** Chunked batches *)

(** C1: chunking in [query_api_multiple].  For every [chunksize >= 1] and
    every mapping of queries, the chunks the loop takes from the key list, in
    iteration order, are contiguous (end to end they are the key list), have
    between 1 and [chunksize] keys each, and cover every key exactly once.  The
    POSTs of a run follow this partition: chunk by chunk, in order, the
    queries of a chunk are posted between 1 and [MAX_RETRIES + 1] times
    (retried attempts at the same chunk), a run that fails stops within the
    partition, and a run that returns has posted every chunk.  When every
    chunk request succeeds (the call returns), against a service that answers
    a batch with one entry per request key, the keys of the returned mapping
    are the keys of the input mapping. *)
Theorem batch_partition (E : Env) (S : Type) (queries : dict (APIQueryParams E))
    (timeout : option Q) (chunksize : Z) (time_between_chunks : option Q)
    (headers : option (dict string)) (s : S) (h : list event) :
  1 <= chunksize ->
  NoDup (keys queries) ->
  let plan := chunk_plan (keys queries) chunksize in
  let r := query_api_multiple E queries timeout chunksize time_between_chunks
             headers s h in
  List.concat plan = keys queries /\
  Forall (fun chunk => 1 <= len chunk <= chunksize) plan /\
  NoDup (List.concat plan) /\
  (exists attempts,
     (List.length attempts <= List.length plan)%nat /\
     Forall (fun n => (1 <= n <= MAX_RETRIES E + 1)%nat) attempts /\
     map posted_chunk (posts (trace r)) =
       flat_map (fun cn => repeat (Some (fst cn)) (snd cn)) (combine plan attempts) /\
     (forall dfs, value r = Ok dfs -> List.length attempts = List.length plan)) /\
  (honours_batch_protocol E ->
   forall dfs, value r = Ok dfs -> forall k, In k (keys dfs) <-> In k (keys queries)).
Proof.
  intros Hc Hnd plan r.
  assert (Hpos : 0 < chunksize) by lia.
  assert (Hcat : List.concat plan = keys queries) by (apply chunk_plan_concat; exact Hpos).
  split; [exact Hcat|]. split; [apply chunk_plan_sizes; exact Hpos|].
  split; [rewrite Hcat; exact Hnd|].
  destruct (@query_api_multiple_cases E S queries timeout chunksize time_between_chunks
              headers s h Hpos Hnd)
    as [attempts [v [t [Hrun [Hlen [Hall [Hposts [_ [Hfull Hkeys]]]]]]]]].
  subst r. rewrite Hrun. cbn [value trace]. split.
  - exists attempts. split; [exact Hlen|]. split; [exact Hall|].
    split; [exact Hposts|exact Hfull].
  - exact Hkeys.
Qed.

Lemma echo_honours_protocol : honours_batch_protocol (sample_env echo_service).
Proof.
  intros h rq r token chunk body flag Hnet Hreq _ Hbody _ _.
  cbn [network sample_env] in Hnet. unfold echo_service, request_queries in Hnet.
  rewrite Hreq in Hnet. cbn in Hnet. inversion Hnet; subst r. cbn in Hbody.
  inversion Hbody; subst body.
  exists (map (fun kv => (fst kv, sample_rows)) chunk). split; [reflexivity|].
  intros k. unfold keys. rewrite map_map. cbn. reflexivity.
Qed.

Lemma three_queries_NoDup : NoDup (keys three_queries).
Proof.
  cbn. repeat constructor; cbn; intuition discriminate.
Qed.

(** Three queries in chunks of two: chunks [a; b] and [c], posted in this
    order, and a result keyed [a], [b], [c]. *)
Lemma batch_partition_witness :
  chunk_plan (keys three_queries) 2 = [["a"; "b"]; ["c"]] /\
  map posted_chunk
    (posts (trace (query_api_multiple (sample_env echo_service) three_queries None 2
                     (Some (1 # 1)) None tt []))) = [Some ["a"; "b"]; Some ["c"]] /\
  exists dfs,
    value (query_api_multiple (sample_env echo_service) three_queries None 2
             (Some (1 # 1)) None tt []) = Ok dfs /\
    In "c" (keys dfs).
Proof.
  split; [reflexivity|]. split; [reflexivity|].
  eexists. split; [reflexivity|].
  destruct (@batch_partition (sample_env echo_service) unit three_queries None 2
              (Some (1 # 1)) None tt []) as [_ [_ [_ [_ Hkeys]]]].
  - lia.
  - exact three_queries_NoDup.
  - apply (Hkeys echo_honours_protocol _ eq_refl). cbn. auto.
Defined.

(** C10: the empty mapping.  For every [chunksize >= 1],
    [query_api_multiple] on the empty mapping returns the empty mapping and
    emits no event at all: no POST, no token request, no sleep. *)
Theorem empty_batch (E : Env) (S : Type) (timeout : option Q) (chunksize : Z)
    (time_between_chunks : option Q) (headers : option (dict string)) (s : S)
    (h : list event) :
  1 <= chunksize ->
  query_api_multiple E [] timeout chunksize time_between_chunks headers s h =
  Run (Ok []) s [].
Proof.
  intros Hc. rewrite query_api_multiple_run by lia.
  unfold py_range. cbn [keys map len List.length Z.of_nat].
  replace ((0 + chunksize - 1) / chunksize) with 0
    by (symmetry; apply Z.div_small; lia).
  reflexivity.
Qed.

Lemma empty_batch_witness :
  query_api_multiple (sample_env dead_service) [] None 500 None None tt [] =
  Run (Ok []) tt [].
Proof.
  apply (@empty_batch (sample_env dead_service) unit None 500 None None tt []). lia.
Defined.

(** ** Dispatch *)

(** C5: [submit_query].  With both [query_params] and [queries_params], or
    with neither, the call fails with an [AssertionError] and emits no event,
    so no POST is issued.  With [query_params] alone it is
    [query_api_df]; with [queries_params] alone it is [query_api_multiple]
    with the default chunk size 500 and no pause, and a mapping it returns,
    against a service that answers a batch with one entry per request key, has
    the keys of the input. *)
Theorem submit_query_dispatch (E : Env) (S : Type) (timeout : option Q)
    (headers : option (dict string)) (s : S) (h : list event) :
  (forall q qs,
      submit_query E (Some q) (Some qs) timeout headers s h =
      Run (Raise (AssertionError None)) s []) /\
  submit_query E None None timeout headers s h = Run (Raise (AssertionError None)) s [] /\
  (forall q,
      let r := query_api_df E q timeout headers s h in
      submit_query E (Some q) None timeout headers s h =
      Run (match value r with
           | Ok df => Ok (Some (OneTable df))
           | Raise e => Raise e
           end) (final r) (trace r)) /\
  (forall qs,
      let r := query_api_multiple E qs timeout 500 None headers s h in
      submit_query E None (Some qs) timeout headers s h =
      Run (match value r with
           | Ok dfs => Ok (Some (Tables dfs))
           | Raise e => Raise e
           end) (final r) (trace r)) /\
  (forall qs dfs,
      NoDup (keys qs) ->
      honours_batch_protocol E ->
      value (submit_query E None (Some qs) timeout headers s h) = Ok (Some (Tables dfs)) ->
      forall k, In k (keys dfs) <-> In k (keys qs)).
Proof.
  assert (Hdf : forall q,
      let r := query_api_df E q timeout headers s h in
      submit_query E (Some q) None timeout headers s h =
      Run (match value r with
           | Ok df => Ok (Some (OneTable df))
           | Raise e => Raise e
           end) (final r) (trace r)).
  { intros q r. subst r. unfold submit_query, py_assert, bind.
    cbn [negb ret value final trace app]. rewrite !app_nil_r.
    destruct (query_api_df E q timeout headers s h) as [[df|e] s1 t1];
      cbn; rewrite ?app_nil_r; reflexivity. }
  assert (Hmulti : forall qs,
      let r := query_api_multiple E qs timeout 500 None headers s h in
      submit_query E None (Some qs) timeout headers s h =
      Run (match value r with
           | Ok dfs => Ok (Some (Tables dfs))
           | Raise e => Raise e
           end) (final r) (trace r)).
  { intros qs r. subst r. unfold submit_query, py_assert, bind.
    cbn [negb ret value final trace app]. rewrite !app_nil_r.
    destruct (query_api_multiple E qs timeout 500 None headers s h) as [[dfs|e] s1 t1];
      cbn; rewrite ?app_nil_r; reflexivity. }
  split; [reflexivity|]. split; [reflexivity|]. split; [exact Hdf|]. split; [exact Hmulti|].
  intros qs dfs Hnd Hproto Hv. cbn zeta in Hmulti. rewrite Hmulti in Hv. cbn [value] in Hv.
  destruct (value (query_api_multiple E qs timeout 500 None headers s h)) as [dfs'|e] eqn:Hq;
    [|discriminate].
  inversion Hv; subst dfs'.
  exact (@query_api_multiple_keys E S qs timeout 500 None headers s h dfs
           ltac:(lia) Hnd Hproto Hq).
Qed.

Lemma submit_query_dispatch_witness :
  exists dfs,
    value (submit_query (sample_env echo_service) None (Some three_queries) None None tt [])
      = Ok (Some (Tables dfs)) /\
    In "b" (keys dfs).
Proof.
  eexists. split; [reflexivity|].
  destruct (@submit_query_dispatch (sample_env echo_service) unit None None tt [])
    as [_ [_ [_ [_ Hkeys]]]].
  apply (Hkeys three_queries _ three_queries_NoDup echo_honours_protocol eq_refl).
  cbn. auto.
Defined.

(** ** Single-query decoders *)

Section Single.

Variable E : Env.
Context {S : Type}.
Variables (query_params : APIQueryParams E) (timeout : option Q)
  (headers : option (dict string)).

(** Both decoders fetch a token and submit the same envelope. *)
Lemma query_api_df_run (s : S) h :
  let r0 := _submit_post_request E (single_envelope E (token_provider E h) query_params)
              timeout headers s (h ++ [EToken]) in
  query_api_df E query_params timeout headers s h =
  Run (match value r0 with
       | Ok (JDict body) =>
           match dict_get body "data" with
           | Some data => dataframe_upper E data
           | None => Raise (KeyError "data")
           end
       | Ok _ => Raise TypeError
       | Raise e => Raise e
       end) (final r0) (EToken :: trace r0).
Proof.
  intros r0. unfold query_api_df, bind, of_result.
  cbn [get_api_token value final trace app].
  fold r0. destruct r0 as [[j|e] s1 t1]; cbn [value final trace]; [|reflexivity].
  destruct j as [| | | | |body]; cbn; rewrite ?app_nil_r; try reflexivity.
  destruct (dict_get body "data"); cbn; rewrite ?app_nil_r; reflexivity.
Qed.

Lemma query_api_json_run (s : S) h :
  let r0 := _submit_post_request E (single_envelope E (token_provider E h) query_params)
              timeout headers s (h ++ [EToken]) in
  query_api_json E query_params timeout headers s h =
  Run (match value r0 with
       | Ok (JDict body) =>
           match dict_get body "data" with
           | Some data => value (getitem0 data (final r0) [])
           | None => Raise (KeyError "data")
           end
       | Ok _ => Raise TypeError
       | Raise e => Raise e
       end) (final r0) (EToken :: trace r0).
Proof.
  intros r0. unfold query_api_json, bind. cbn [get_api_token value final trace app].
  fold r0. destruct r0 as [[j|e] s1 t1]; cbn [value final trace]; [|reflexivity].
  destruct j as [| | | | |body]; cbn; rewrite ?app_nil_r; try reflexivity.
  destruct (dict_get body "data") as [data|]; cbn; rewrite ?app_nil_r; [|reflexivity].
  destruct data as [| | |[|c str]|[|x l]|d]; cbn; rewrite ?app_nil_r; reflexivity.
Qed.

End Single.

(** C8, as the code has it: for every successful single-query response, with
    [data] the [data] field of its body, [query_api_json] returns the first
    element of [data], and [query_api_df] hands [data] itself, the whole
    field and not its first element, to [pandas.DataFrame] and upper-cases the
    column labels of the result: its outcome is the table or the exception of
    these two statements.  Both post the same envelope. *)
Theorem single_query_decoders (E : Env) (S : Type) (query_params : APIQueryParams E)
    (timeout : option Q) (headers : option (dict string)) (s : S) (h : list event)
    (k : nat) (bytes : string) (body : dict json) (flag data : json) :
  let json_dict := single_envelope E (token_provider E h) query_params in
  let rq := query_request E json_dict timeout headers in
  (k <= MAX_RETRIES E)%nat ->
  fails_transiently E rq (h ++ [EToken]) 0 k ->
  network E ((h ++ [EToken]) ++ failed_attempts rq 0 k) rq =
    Responded (Response 200 bytes (Some (JDict body))) ->
  dict_get body "success" = Some flag ->
  truthy flag = true ->
  dict_get body "data" = Some data ->
  value (query_api_df E query_params timeout headers s h) = dataframe_upper E data /\
  (forall rows rest,
      data = JList (rows :: rest) ->
      value (query_api_json E query_params timeout headers s h) = Ok rows) /\
  trace (query_api_json E query_params timeout headers s h) =
    trace (query_api_df E query_params timeout headers s h).
Proof.
  intros json_dict rq Hk Hf Hr Hs Ht Hd.
  pose proof (submit_responded s Hk Hf Hr) as Hrun.
  unfold classify in Hrun. cbn [status_code body_json] in Hrun. simpl negb in Hrun.
  cbv iota in Hrun. rewrite Hs, Ht in Hrun.
  rewrite query_api_df_run, query_api_json_run. cbn zeta. fold json_dict.
  rewrite Hrun. cbn [value final trace]. rewrite Hd.
  split; [reflexivity|]. split; [|reflexivity].
  intros rows rest ->. reflexivity.
Qed.

(** Against a service whose [data] is the list of the rows: [query_api_df]
    returns the table of all the rows, with upper-cased labels, and
    [query_api_json] returns the first row. *)
Lemma single_query_decoders_witness :
  value (query_api_df (sample_env echo_service) (JStr "q") None None tt [])
    = Ok (JList [JDict [("YEAR", JNum 2019); ("UNITS", JNum 7)]]) /\
  value (query_api_json (sample_env echo_service) (JStr "q") None None tt [])
    = Ok (JDict [("year", JNum 2019); ("units", JNum 7)]).
Proof.
  destruct (@single_query_decoders (sample_env echo_service) unit (JStr "q") None None
              tt [] 0%nat "" [("success", JBool true); ("data", sample_rows)]
              (JBool true) sample_rows) as [Hdf [Hjson _]].
  - cbn. lia.
  - intros i Hi. lia.
  - reflexivity.
  - reflexivity.
  - reflexivity.
  - reflexivity.
  - split; [exact Hdf|]. exact (Hjson _ [] eq_refl).
Defined.

(** Against a service whose [data] is a one-element list that contains the
    row list: [query_api_json] returns the contained row list, but
    [query_api_df] does not build its table from it.  It hands the
    one-element list to [pandas.DataFrame], which makes a table of one row
    whose column labels are integers, and upper-casing the labels raises
    [AttributeError]; the table of the contained row list is another
    outcome. *)
Lemma single_query_decoders_counterexample :
  value (query_api_json (sample_env nested_service) (JStr "q") None None tt [])
    = Ok sample_rows /\
  value (query_api_df (sample_env nested_service) (JStr "q") None None tt [])
    = Raise AttributeError /\
  dataframe_upper (sample_env nested_service) sample_rows
    = Ok (JList [JDict [("YEAR", JNum 2019); ("UNITS", JNum 7)]]) /\
  value (query_api_df (sample_env nested_service) (JStr "q") None None tt [])
    <> dataframe_upper (sample_env nested_service) sample_rows.
Proof.
  split; [reflexivity|]. split; [reflexivity|]. split; [reflexivity|]. discriminate.
Qed.

(** ** The job runner *)

Section Jobs.

Variable E : Env.

Lemma create_job_checks_run geolevel response_format portfolio_id buffers
    (s : SDJobRunner) h :
  exists v,
    create_job_checks E geolevel response_format portfolio_id buffers s h = Run v s [] /\
    if create_job_valid E geolevel response_format portfolio_id buffers
    then v = Ok tt
    else exists e, v = Raise e /\ is_usage_error e = true.
Proof.
  unfold create_job_checks, create_job_valid, py_assert, truthy_opt.
  generalize (str_in response_format response_formats). intros okf.
  generalize (match buffers with
              | Some bs => forallb (fun buffer => str_in buffer (BUFFERS_TUPLE E)) bs
              | None => true
              end). intros okb.
  destruct geolevel as [g|];
    [generalize (str_in g geolevels); intros okg; destruct (String.eqb g ""), okg|];
    (destruct portfolio_id as [p|]; [destruct (String.eqb p "")|]);
    destruct okf, okb; cbn [negb andb orb];
    eexists; (split; [run_binds; reflexivity|cbn; eauto]).
Qed.

(** Invalid arguments: a usage error, and no event. *)
Lemma create_job_invalid model_id geolevel response_format portfolio_id geoid_list
    buffers (s : SDJobRunner) h :
  create_job_valid E geolevel response_format portfolio_id buffers = false ->
  exists e,
    create_job E model_id geolevel response_format portfolio_id geoid_list buffers s h =
      Run (Raise e) s [] /\
    is_usage_error e = true.
Proof.
  intros Hvalid.
  destruct (create_job_checks_run geolevel response_format portfolio_id buffers s h)
    as [v [Hrun Hv]].
  rewrite Hvalid in Hv. destruct Hv as [e [-> Hue]].
  exists e. split; [|exact Hue].
  unfold create_job. erewrite bind_raise_eq by exact Hrun. reflexivity.
Qed.

Lemma log_events_quiet (s : SDJobRunner) line :
  posts (log_events s line) = [] /\ sleeps (log_events s line) = [] /\
  polls (log_events s line) = 0%nat.
Proof. unfold log_events. destruct (_logging s); repeat split. Qed.

Lemma log_line_run line (s : SDJobRunner) h :
  log_line line s h = Run (Ok tt) s (log_events s line).
Proof.
  unfold log_line, log_events.
  erewrite bind_ok_eq by reflexivity. destruct (_logging s); reflexivity.
Qed.

(** Valid arguments: one POST, after the optional log line and the token. *)
Lemma create_job_run model_id geolevel response_format portfolio_id geoid_list
    buffers (s : SDJobRunner) h :
  create_job_valid E geolevel response_format portfolio_id buffers = true ->
  let pre := log_events s "Sending create job request to API service" in
  let rq := create_request E (h ++ pre) model_id geolevel response_format portfolio_id
              geoid_list buffers in
  exists v s' post,
    create_job E model_id geolevel response_format portfolio_id geoid_list buffers s h =
      Run v s' (pre ++ [EToken; EPost rq] ++ post) /\
    posts post = [] /\ sleeps post = [] /\
    (forall e, network E (h ++ pre ++ [EToken]) rq = PostRaises e ->
               v = Raise e /\ s' = s /\ post = []).
Proof.
  intros Hvalid pre rq.
  destruct (create_job_checks_run geolevel response_format portfolio_id buffers s h)
    as [v0 [Hrun Hv]].
  rewrite Hvalid in Hv. subst v0.
  unfold create_job.
  erewrite bind_ok_eq by exact Hrun. rewrite app_nil_r.
  erewrite bind_ok_eq by apply log_line_run. fold pre.
  erewrite bind_ok_eq by reflexivity.
  rewrite <- app_assoc. fold url_create.
  change (Request url_create _ (bearer (token_provider E (h ++ pre))) None) with rq.
  destruct (network E (h ++ pre ++ [EToken]) rq) as [r|e] eqn:Hnet.
  - assert (Hpost : requests_post E rq s (h ++ pre ++ [EToken]) =
                    Run (Ok r) s [EPost rq])
      by (unfold requests_post; rewrite Hnet; reflexivity).
    erewrite bind_ok_eq by exact Hpost.
    assert (Hquiet : forall (v : result unit) (s' : SDJobRunner) post,
              posts post = [] -> sleeps post = [] ->
              posts post = [] /\ sleeps post = [] /\
              (forall e : exn, Responded r = PostRaises e ->
                               v = Raise e /\ s' = s /\ post = [])).
    { intros v s' post Hp Hs. repeat split; try assumption; discriminate. }
    unfold response_json.
    destruct (body_json r) as [res|];
      [|run_binds; do 3 eexists; split; [reflexivity|apply Hquiet; reflexivity]].
    erewrite bind_ok_eq by reflexivity. unfold getitem at 1.
    destruct res as [| | | | |body];
      try (run_binds; do 3 eexists; split; [reflexivity|apply Hquiet; reflexivity]).
    destruct (dict_get body "success") as [flag|];
      [|run_binds; do 3 eexists; split; [reflexivity|apply Hquiet; reflexivity]].
    erewrite bind_ok_eq by reflexivity.
    unfold getitem at 1 3.
    destruct (dict_get body "message") as [message|];
      [|destruct (truthy flag); run_binds; do 3 eexists;
        (split; [reflexivity|apply Hquiet; reflexivity])].
    destruct (truthy flag);
      [|run_binds; do 3 eexists; split; [reflexivity|apply Hquiet; reflexivity]].
    erewrite bind_ok_eq by reflexivity. unfold getitem.
    destruct message as [| | | | |m];
      try (run_binds; do 3 eexists; split; [reflexivity|apply Hquiet; reflexivity]).
    destruct (dict_get m "job_id") as [job_id|];
      [|run_binds; do 3 eexists; split; [reflexivity|apply Hquiet; reflexivity]].
    run_binds. rewrite log_line_run, ?prepend_Run.
    do 3 eexists. split; [reflexivity|].
    apply Hquiet; apply log_events_quiet.
  - assert (Hpost : requests_post E rq s (h ++ pre ++ [EToken]) =
                    Run (Raise e) s [EPost rq])
      by (unfold requests_post; rewrite Hnet; reflexivity).
    erewrite bind_raise_eq by exact Hpost. rewrite ?prepend_Run.
    exists (Raise e), s, []. split; [reflexivity|].
    repeat split. inversion H; reflexivity.
Qed.

Lemma assert_job_created_run (s : SDJobRunner) h :
  _assert_job_created s h =
  Run (match _job_id s with
       | JStr _ => Ok tt
       | _ => Raise (AssertionError
                       (Some "Must run create_job successfully first -- no job id found"))
       end) s [].
Proof.
  unfold _assert_job_created. erewrite bind_ok_eq by reflexivity.
  unfold py_assert. destruct (_job_id s); reflexivity.
Qed.

(** The status check with a job id: one POST after the token; an exception
    of the transport is the exception of the check. *)
Lemma check_status_run (s : SDJobRunner) h id :
  _job_id s = JStr id ->
  let rq := job_request E url_status s h in
  exists v,
    _check_job_status E s h = Run v s [EToken; EPost rq] /\
    (forall e, network E (h ++ [EToken]) rq = PostRaises e -> v = Raise e) /\
    (forall status, reads_status E (h ++ [EToken]) rq status -> v = Ok status).
Proof.
  intros Hid rq. unfold _check_job_status, reads_status.
  erewrite bind_ok_eq by (rewrite assert_job_created_run, Hid; reflexivity).
  rewrite app_nil_r.
  erewrite bind_ok_eq by reflexivity. erewrite bind_ok_eq by reflexivity.
  rewrite app_nil_r. fold url_status.
  change (Request url_status _ (bearer (token_provider E h)) None) with rq.
  destruct (network E (h ++ [EToken]) rq) as [r|e] eqn:Hnet.
  - assert (Hpost : requests_post E rq s (h ++ [EToken]) = Run (Ok r) s [EPost rq])
      by (unfold requests_post; rewrite Hnet; reflexivity).
    erewrite bind_ok_eq by exact Hpost.
    destruct r as [code bytes body]. cbn [status_code body_json].
    destruct (Z.eqb_spec code 200) as [->|Hcode]; cbn [negb].
    + erewrite bind_ok_eq by reflexivity. unfold response_json. cbn [body_json].
      destruct body as [res|].
      * erewrite bind_ok_eq by reflexivity. unfold getitem.
        destruct res as [| | | | |d];
          try (run_binds; eexists; split; [reflexivity|];
               split; [discriminate|];
               intros status [? [? [? [Hr _]]]]; discriminate).
        destruct (dict_get d "success") as [flag|] eqn:Hs.
        -- erewrite bind_ok_eq by reflexivity.
           destruct (truthy flag) eqn:Ht; cbn [negb].
           ++ destruct (dict_get d "message") as [message|] eqn:Hm;
                rewrite ?prepend_Run;
                (eexists; split; [reflexivity|]; split; [discriminate|]);
                intros status [? [? [? [Hr [Hs' [Ht' Hm']]]]]];
                inversion Hr; subst; cbn; congruence.
           ++ rewrite ?prepend_Run.
              eexists; split; [reflexivity|]; split; [discriminate|].
              intros status [? [? [? [Hr [Hs' [Ht' Hm']]]]]].
              inversion Hr; subst; cbn; congruence.
        -- run_binds. eexists; split; [reflexivity|]; split; [discriminate|].
           intros status [? [? [? [Hr [Hs' [Ht' Hm']]]]]].
           inversion Hr; subst; cbn; congruence.
      * run_binds. eexists; split; [reflexivity|]; split; [discriminate|].
        intros status [? [? [? [Hr _]]]]. discriminate.
    + run_binds. eexists; split; [reflexivity|]; split; [discriminate|].
      intros status [? [? [? [Hr _]]]]. inversion Hr; subst. contradiction.
  - assert (Hpost : requests_post E rq s (h ++ [EToken]) = Run (Raise e) s [EPost rq])
      by (unfold requests_post; rewrite Hnet; reflexivity).
    erewrite bind_raise_eq by exact Hpost. rewrite ?prepend_Run.
    eexists; split; [reflexivity|]. split.
    + intros e' He'. inversion He'; reflexivity.
    + intros status [? [? [? [Hr _]]]]. discriminate.
Qed.

(** Without a job id, the calls that need one fail before any event. *)
Lemma needs_job_id (s : SDJobRunner) h :
  (forall id, _job_id s <> JStr id) ->
  (exists e, _check_job_status E s h = Run (Raise e) s [] /\ is_usage_error e = true) /\
  (exists e, download_job_to_dataframe E s h = Run (Raise e) s [] /\
             is_usage_error e = true).
Proof.
  intros Hno.
  unfold _check_job_status, download_job_to_dataframe.
  destruct (_job_id s) as [| | |id| |] eqn:Hid;
    try (split; eexists;
         (split; [erewrite bind_raise_eq
                    by (rewrite assert_job_created_run, Hid; reflexivity);
                  reflexivity
                 |reflexivity])).
  exfalso. exact (Hno id eq_refl).
Qed.

(** The download with a job id: one POST after the token. *)
Lemma download_run (s : SDJobRunner) h id :
  _job_id s = JStr id ->
  let rq := job_request E url_download s h in
  exists v,
    download_job_to_dataframe E s h = Run v s [EToken; EPost rq] /\
    (forall e, network E (h ++ [EToken]) rq = PostRaises e -> v = Raise e).
Proof.
  intros Hid rq. unfold download_job_to_dataframe.
  erewrite bind_ok_eq by (rewrite assert_job_created_run, Hid; reflexivity).
  rewrite app_nil_r.
  erewrite bind_ok_eq by reflexivity. erewrite bind_ok_eq by reflexivity.
  rewrite app_nil_r. fold url_download.
  change (Request url_download _ (bearer (token_provider E h)) None) with rq.
  destruct (network E (h ++ [EToken]) rq) as [r|e] eqn:Hnet.
  - assert (Hpost : requests_post E rq s (h ++ [EToken]) = Run (Ok r) s [EPost rq])
      by (unfold requests_post; rewrite Hnet; reflexivity).
    erewrite bind_ok_eq by exact Hpost.
    destruct (negb (status_code r =? 200));
      [run_binds; eexists; split; [reflexivity|discriminate]|].
    erewrite bind_ok_eq by reflexivity. erewrite bind_ok_eq by reflexivity.
    destruct (String.eqb (_response_format s) "csv");
      [rewrite ?prepend_Run; eexists; split; [reflexivity|discriminate]|].
    destruct (String.eqb (_response_format s) "json");
      rewrite ?prepend_Run; eexists; (split; [reflexivity|discriminate]).
  - assert (Hpost : requests_post E rq s (h ++ [EToken]) = Run (Raise e) s [EPost rq])
      by (unfold requests_post; rewrite Hnet; reflexivity).
    erewrite bind_raise_eq by exact Hpost. rewrite ?prepend_Run.
    eexists; split; [reflexivity|]. intros e' He'. inversion He'; reflexivity.
Qed.

End Jobs.

Lemma str_in_spec x l : str_in x l = true <-> In x l.
Proof.
  unfold str_in. rewrite existsb_exists. split.
  - intros [y [Hy He]]. apply String.eqb_eq in He. subst. exact Hy.
  - intros Hin. exists x. split; [exact Hin|apply String.eqb_refl].
Qed.

(** ** Validation in [create_job] *)

(** C6, as the code has it: [create_job] checks its arguments before its
    POST, and a rejected call raises a usage error ([AssertionError] or
    [ValueError]) without any event.  Rejected are: a non-empty [geolevel]
    together with a [portfolio_id]; neither a non-empty [geolevel] nor a
    non-empty [portfolio_id]; a non-empty [geolevel] outside
    [US, METRO, GEOID2, GEOID5, ZIP, GEOID11]; a [response_format] outside
    [csv, json]; a buffer outside [BUFFERS_TUPLE].  An empty [geolevel] counts
    as absent.  Accepted arguments lead to exactly one POST. *)
Theorem create_job_validation (E : Env) (model_id : string) (geolevel : option string)
    (response_format : string) (portfolio_id : option string)
    (geoid_list : option (list Z)) (buffers : option (list string))
    (s : SDJobRunner) (h : list event) :
  let r := create_job E model_id geolevel response_format portfolio_id geoid_list
             buffers s h in
  let valid := create_job_valid E geolevel response_format portfolio_id buffers in
  (valid = false -> exists e, r = Run (Raise e) s [] /\ is_usage_error e = true) /\
  (valid = true -> List.length (posts (trace r)) = 1%nat) /\
  (truthy_opt geolevel = true -> portfolio_id <> None -> valid = false) /\
  (truthy_opt geolevel = false -> truthy_opt portfolio_id = false -> valid = false) /\
  (forall g, geolevel = Some g -> g <> "" -> ~ In g geolevels -> valid = false) /\
  (~ In response_format response_formats -> valid = false) /\
  (forall bs buffer,
      buffers = Some bs -> In buffer bs -> ~ In buffer (BUFFERS_TUPLE E) ->
      valid = false).
Proof.
  intros r valid. subst r valid. repeat split.
  - apply create_job_invalid.
  - intros Hvalid.
    destruct (@create_job_run E model_id geolevel response_format portfolio_id
                geoid_list buffers s h Hvalid) as [v [s' [post [Hrun [Hposts _]]]]].
    rewrite Hrun. cbn [trace]. rewrite !posts_app, Hposts.
    destruct (log_events_quiet s "Sending create job request to API service") as [-> _].
    reflexivity.
  - intros Hg Hp. unfold create_job_valid. rewrite Hg.
    destruct geolevel as [g|]; [|discriminate].
    destruct portfolio_id as [p|]; [|congruence].
    rewrite andb_false_r. apply andb_false_r.
  - intros Hg Hp. unfold create_job_valid. rewrite Hg, Hp.
    cbn [orb]. rewrite andb_false_r. reflexivity.
  - intros g -> Hne Hnin. unfold create_job_valid. cbn [truthy_opt].
    destruct (String.eqb_spec g "") as [->|_]; [contradiction|]. cbn [negb].
    destruct (str_in g geolevels) eqn:Hin; [apply str_in_spec in Hin; contradiction|].
    apply andb_false_r.
  - intros Hnin. unfold create_job_valid.
    destruct (str_in response_format response_formats) eqn:Hin;
      [apply str_in_spec in Hin; contradiction|reflexivity].
  - intros bs buffer -> Hin Hnin. unfold create_job_valid.
    assert (Hall : forallb (fun buffer => str_in buffer (BUFFERS_TUPLE E)) bs = false).
    { destruct (forallb (fun buffer => str_in buffer (BUFFERS_TUPLE E)) bs) eqn:Hall;
        [|reflexivity].
      rewrite forallb_forall in Hall. apply Hall in Hin. apply str_in_spec in Hin.
      contradiction. }
    rewrite Hall, andb_false_r. reflexivity.
Qed.

Lemma create_job_validation_witness :
  exists e,
    create_job (sample_env (job_service [])) "m" (Some "US") "csv" (Some "p") None None
      (SDJobRunner_init true) [] = Run (Raise e) (SDJobRunner_init true) [] /\
    is_usage_error e = true.
Proof.
  destruct (@create_job_validation (sample_env (job_service [])) "m" (Some "US") "csv"
              (Some "p") None None (SDJobRunner_init true) [])
    as [Hinvalid [_ [Hboth _]]].
  apply Hinvalid. apply Hboth.
  - reflexivity.
  - discriminate.
Defined.

(** With the empty string as [geolevel] and a [portfolio_id], both arguments
    are supplied and the [geolevel] is not one of the six levels, yet the call
    passes the checks, posts the creation request and succeeds. *)
Lemma create_job_validation_counterexample :
  ~ In "" geolevels /\
  value (create_job (sample_env (job_service [])) "m" (Some "") "csv" (Some "p") None None
           (SDJobRunner_init false) []) = Ok tt /\
  posts (trace (create_job (sample_env (job_service [])) "m" (Some "") "csv" (Some "p")
                  None None (SDJobRunner_init false) [])) =
    [create_request (sample_env (job_service [])) [] "m" (Some "") "csv" (Some "p")
       None None] /\
  ~ (exists e,
        create_job (sample_env (job_service [])) "m" (Some "") "csv" (Some "p") None None
          (SDJobRunner_init false) [] = Run (Raise e) (SDJobRunner_init false) []).
Proof.
  split; [cbn; intuition discriminate|].
  split; [reflexivity|]. split; [reflexivity|].
  intros [e He]. discriminate He.
Qed.

(** ** One POST per job call *)

(** C9: the job calls do not retry.  [create_job], the status check and
    [download_job_to_dataframe] never issue more than one POST and never
    sleep; each issues exactly one POST once its preconditions hold (accepted
    arguments, a job id); and when that POST raises, a connection error or a
    timeout included, the call ends there with that same exception, the POST
    being its last event. *)
Theorem job_calls_post_once (E : Env) (s : SDJobRunner) (h : list event) :
  (forall model_id geolevel response_format portfolio_id geoid_list buffers,
      let r := create_job E model_id geolevel response_format portfolio_id geoid_list
                 buffers s h in
      let pre := log_events s "Sending create job request to API service" in
      let rq := create_request E (h ++ pre) model_id geolevel response_format
                  portfolio_id geoid_list buffers in
      (List.length (posts (trace r)) <= 1)%nat /\
      sleeps (trace r) = [] /\
      (create_job_valid E geolevel response_format portfolio_id buffers = true ->
       posts (trace r) = [rq] /\
       forall e, network E (h ++ pre ++ [EToken]) rq = PostRaises e ->
                 r = Run (Raise e) s (pre ++ [EToken; EPost rq]))) /\
  (let r := _check_job_status E s h in
   let rq := job_request E url_status s h in
   (List.length (posts (trace r)) <= 1)%nat /\
   sleeps (trace r) = [] /\
   forall id, _job_id s = JStr id ->
     posts (trace r) = [rq] /\
     forall e, network E (h ++ [EToken]) rq = PostRaises e ->
               r = Run (Raise e) s [EToken; EPost rq]) /\
  (let r := download_job_to_dataframe E s h in
   let rq := job_request E url_download s h in
   (List.length (posts (trace r)) <= 1)%nat /\
   sleeps (trace r) = [] /\
   forall id, _job_id s = JStr id ->
     posts (trace r) = [rq] /\
     forall e, network E (h ++ [EToken]) rq = PostRaises e ->
               r = Run (Raise e) s [EToken; EPost rq]).
Proof.
  assert (Hid : (exists id, _job_id s = JStr id) \/ (forall id, _job_id s <> JStr id)).
  { destruct (_job_id s) as [| | |id| |]; try (right; discriminate). left. eauto. }
  split; [|split].
  - intros model_id geolevel response_format portfolio_id geoid_list buffers r pre rq.
    destruct (log_events_quiet s "Sending create job request to API service")
      as [Hlp [Hls _]].
    fold pre in Hlp, Hls.
    destruct (create_job_valid E geolevel response_format portfolio_id buffers) eqn:Hvalid.
    + destruct (@create_job_run E model_id geolevel response_format portfolio_id
                  geoid_list buffers s h Hvalid)
        as [v [s' [post [Hrun [Hposts [Hsleeps Herr]]]]]].
      fold pre in Hrun, Herr. fold rq in Hrun, Herr. subst r. rewrite Hrun.
      cbn [trace]. rewrite !posts_app, !sleeps_app, Hposts, Hsleeps, Hlp, Hls.
      cbn [posts sleeps app List.length].
      split; [lia|]. split; [reflexivity|]. intros _. split; [reflexivity|].
      intros e He. destruct (Herr e He) as [-> [-> ->]]. reflexivity.
    + destruct (@create_job_invalid E model_id geolevel response_format portfolio_id
                  geoid_list buffers s h Hvalid) as [e [Hrun _]].
      subst r. rewrite Hrun. cbn [trace posts sleeps List.length].
      split; [lia|]. split; [reflexivity|]. discriminate.
  - cbn zeta. destruct Hid as [[id Hid]|Hno].
    + destruct (@check_status_run E s h id Hid) as [v [Hrun [Herr _]]].
      rewrite Hrun. cbn [trace posts sleeps List.length].
      split; [lia|]. split; [reflexivity|]. intros _ _. split; [reflexivity|].
      intros e He. rewrite (Herr e He). reflexivity.
    + destruct (@needs_job_id E s h Hno) as [[e [Hrun _]] _].
      rewrite Hrun. cbn [trace posts sleeps List.length].
      split; [lia|]. split; [reflexivity|].
      intros id Hid. exfalso. exact (Hno id Hid).
  - cbn zeta. destruct Hid as [[id Hid]|Hno].
    + destruct (@download_run E s h id Hid) as [v [Hrun Herr]].
      rewrite Hrun. cbn [trace posts sleeps List.length].
      split; [lia|]. split; [reflexivity|]. intros _ _. split; [reflexivity|].
      intros e He. rewrite (Herr e He). reflexivity.
    + destruct (@needs_job_id E s h Hno) as [_ [e [Hrun _]]].
      rewrite Hrun. cbn [trace posts sleeps List.length].
      split; [lia|]. split; [reflexivity|].
      intros id Hid. exfalso. exact (Hno id Hid).
Qed.

(** A dead connection at creation: the [ConnectionError] comes out after one
    POST. *)
Lemma job_calls_post_once_witness :
  create_job (sample_env dead_service) "m" (Some "US") "csv" None None None
    (SDJobRunner_init false) [] =
  Run (Raise ConnectionError) (SDJobRunner_init false)
    [EToken;
     EPost (create_request (sample_env dead_service) [] "m" (Some "US") "csv" None
              None None)].
Proof.
  destruct (@job_calls_post_once (sample_env dead_service) (SDJobRunner_init false) [])
    as [Hcreate _].
  destruct (Hcreate "m" (Some "US") "csv" None None None) as [_ [_ Hvalid]].
  destruct (Hvalid eq_refl) as [_ Herr].
  exact (Herr ConnectionError eq_refl).
Defined.

(** ** Polling *)

Lemma polls_app t1 t2 : polls (t1 ++ t2) = (polls t1 + polls t2)%nat.
Proof. unfold polls. rewrite posts_app, filter_app, length_app. reflexivity. Qed.

Lemma status_script_tail (E : Env) n status script :
  status_script E n (status :: script) -> status_script E (Datatypes.S n) script.
Proof.
  intros H h rq i st Hurl Hp Hnth.
  apply (H h rq (Datatypes.S i) st Hurl); [lia|exact Hnth].
Qed.

Lemma status_script_skip (E : Env) script1 : forall n script2,
  status_script E n (script1 ++ script2) ->
  status_script E (n + List.length script1) script2.
Proof.
  induction script1 as [|st script1 IH]; intros n script2 H.
  - cbn [List.length]. rewrite Nat.add_0_r. exact H.
  - cbn [List.length]. rewrite Nat.add_succ_r. apply (IH (Datatypes.S n)).
    apply status_script_tail with (status := st). exact H.
Qed.

Lemma status_script_prefix (E : Env) n script1 script2 :
  status_script E n (script1 ++ script2) -> status_script E n script1.
Proof.
  intros H h rq i st Hurl Hp Hnth. apply (H h rq i st Hurl Hp).
  rewrite nth_error_app1; [exact Hnth|].
  apply nth_error_Some. congruence.
Qed.

Section Polling.

Variable E : Env.

(** One poll, when the status check reads [status]. *)
Lemma poll_once_reads idx (s : SDJobRunner) h id status :
  _job_id s = JStr id ->
  let log := log_events s "Checking if job is complete..." in
  let rq := job_request E url_status s (h ++ log) in
  reads_status E ((h ++ log) ++ [EToken]) rq status ->
  poll_once E idx s h =
  if status_is status "Completed" then
    let d := download_job_to_dataframe E s ((h ++ log) ++ [EToken; EPost rq]) in
    Run (match value d with
         | Ok df => Ok (Some df)
         | Raise e => Raise e
         end) (final d) (log ++ [EToken; EPost rq] ++ trace d)
  else if status_is status "Processing" then
    Run (Ok None) s (log ++ [EToken; EPost rq; ESleep (inject_Z 10)])
  else
    Run (Raise (APIQueryFailedException [PStr "Job failed"; PJson status])) s
        (log ++ [EToken; EPost rq]).
Proof.
  intros Hid log rq Hreads.
  destruct (@check_status_run E s (h ++ log) id Hid) as [v [Hrun [_ Hok]]].
  fold rq in Hrun, Hok. rewrite (Hok status Hreads) in Hrun.
  unfold poll_once.
  erewrite bind_ok_eq by apply log_line_run. fold log.
  erewrite bind_ok_eq by exact Hrun.
  destruct (status_is status "Completed").
  - cbn zeta.
    destruct (download_job_to_dataframe E s ((h ++ log) ++ [EToken; EPost rq]))
      as [[df|e] s2 t2] eqn:Hd.
    + erewrite bind_ok_eq by exact Hd. unfold ret.
      rewrite !prepend_Run, app_nil_r. reflexivity.
    + erewrite bind_raise_eq by exact Hd. reflexivity.
  - destruct (status_is status "Processing").
    + erewrite bind_ok_eq by reflexivity. reflexivity.
    + reflexivity.
Qed.

Lemma processing_polls k : forall a (s : SDJobRunner) h id,
  _job_id s = JStr id ->
  status_script E (polls h) (repeat (JStr "Processing") k) ->
  exists t,
    for_in (seq a k) (poll_once E) s h = Run (Ok None) s t /\
    sleeps t = repeat (inject_Z 10) k /\
    map req_url (posts t) = repeat url_status k.
Proof.
  induction k as [|k IH]; intros a s h id Hid Hscript.
  - exists []. repeat split.
  - destruct (log_events_quiet s "Checking if job is complete...") as [Hlp [Hls Hlq]].
    set (log := log_events s "Checking if job is complete...") in *.
    set (rq := job_request E url_status s (h ++ log)).
    assert (Hreads : reads_status E ((h ++ log) ++ [EToken]) rq (JStr "Processing")).
    { apply (Hscript _ rq 0%nat); [reflexivity| |reflexivity].
      rewrite !polls_app, Hlq. cbn. lia. }
    pose proof (@poll_once_reads a s h id (JStr "Processing") Hid Hreads) as Hpoll.
    cbn [status_is String.eqb Ascii.eqb Bool.eqb] in Hpoll. cbn zeta in Hpoll.
    fold log in Hpoll. fold rq in Hpoll.
    destruct (IH (Datatypes.S a) s
                (h ++ log ++ [EToken; EPost rq; ESleep (inject_Z 10)]) id Hid)
      as [t [Hrun [Hsl Hurls]]].
    { replace (polls (h ++ log ++ [EToken; EPost rq; ESleep (inject_Z 10)]))
        with (Datatypes.S (polls h)).
      - apply status_script_tail with (status := JStr "Processing"). exact Hscript.
      - rewrite !polls_app, Hlq. cbn. lia. }
    exists ((log ++ [EToken; EPost rq; ESleep (inject_Z 10)]) ++ t). split; [|split].
    + simpl seq. simpl for_in. unfold bind. rewrite Hpoll. cbn [value final trace].
      rewrite Hrun. reflexivity.
    + rewrite !sleeps_app, Hls, Hsl. reflexivity.
    + rewrite !posts_app, Hlp, !map_app, Hurls. reflexivity.
Qed.

Lemma polls_of_status_posts t : forall k,
  map req_url (posts t) = repeat url_status k -> polls t = k.
Proof.
  unfold polls. induction (posts t) as [|rq0 l IH]; intros k Hurls.
  - destruct k; [reflexivity|discriminate].
  - destruct k as [|k]; [discriminate|]. cbn in Hurls. inversion Hurls as [[Hurl Hrest]].
    cbn [filter]. rewrite Hurl, String.eqb_refl. cbn [List.length].
    rewrite Hurl in Hrest. rewrite (IH k Hrest). reflexivity.
Qed.

(** [k] polls that read [Processing], then a poll that reads something
    else: the loop ends with that poll. *)
Lemma decisive_poll k (s : SDJobRunner) h id status :
  (k < 100)%nat ->
  _job_id s = JStr id ->
  status_script E (polls h) (repeat (JStr "Processing") k ++ [status]) ->
  status_is status "Processing" = false ->
  exists t,
    sleeps t = repeat (inject_Z 10) k /\
    map req_url (posts t) = repeat url_status k /\
    let log := log_events s "Checking if job is complete..." in
    let rq := job_request E url_status s ((h ++ t) ++ log) in
    let p := poll_once E k s (h ++ t) in
    for_in (seq 0 100) (poll_once E) s h = Run (value p) (final p) (t ++ trace p) /\
    p = if status_is status "Completed" then
          let d := download_job_to_dataframe E s
                     (((h ++ t) ++ log) ++ [EToken; EPost rq]) in
          Run (match value d with
               | Ok df => Ok (Some df)
               | Raise e => Raise e
               end) (final d) (log ++ [EToken; EPost rq] ++ trace d)
        else
          Run (Raise (APIQueryFailedException [PStr "Job failed"; PJson status])) s
              (log ++ [EToken; EPost rq]).
Proof.
  intros Hk Hid Hscript Hnp.
  destruct (@processing_polls k 0%nat s h id Hid (@status_script_prefix E _ _ _ Hscript))
    as [t [Hrun [Hsl Hurls]]].
  exists t. split; [exact Hsl|]. split; [exact Hurls|]. intros log rq p.
  destruct (log_events_quiet s "Checking if job is complete...") as [_ [_ Hlq]].
  fold log in Hlq.
  assert (Hreads : reads_status E (((h ++ t) ++ log) ++ [EToken]) rq status).
  { apply status_script_skip in Hscript. rewrite repeat_length in Hscript.
    apply (Hscript _ rq 0%nat); [reflexivity| |reflexivity].
    rewrite !polls_app, Hlq, (@polls_of_status_posts t k Hurls). cbn. lia. }
  pose proof (@poll_once_reads k s (h ++ t) id status Hid Hreads) as Hpoll.
  cbn zeta in Hpoll. fold log in Hpoll. fold rq in Hpoll. fold p in Hpoll.
  rewrite Hnp in Hpoll.
  split; [|exact Hpoll].
  replace (seq 0 100) with (seq 0 k ++ k :: seq (Datatypes.S k) (99 - k)).
  - rewrite for_in_app, Hrun. cbn [value final trace]. simpl for_in. unfold bind.
    fold p. rewrite Hpoll.
    destruct (status_is status "Completed"); cbn [value final trace].
    + destruct (download_job_to_dataframe E s (((h ++ t) ++ log) ++ [EToken; EPost rq]))
        as [[df|e] s2 t2]; cbn; rewrite ?app_nil_r; reflexivity.
    + reflexivity.
  - replace 100%nat with (k + Datatypes.S (99 - k))%nat by lia.
    rewrite seq_app. cbn [seq Nat.add]. repeat f_equal; lia.
Qed.

End Polling.

(** A successful creation posted once, to the creation endpoint, and did not
    sleep. *)
Lemma create_job_ok_trace (E : Env) model_id geolevel response_format portfolio_id
    geoid_list buffers (s : SDJobRunner) h :
  let c := create_job E model_id geolevel response_format portfolio_id geoid_list
             buffers s h in
  value c = Ok tt ->
  sleeps (trace c) = [] /\ map req_url (posts (trace c)) = [url_create].
Proof.
  intros c Hc. subst c.
  destruct (log_events_quiet s "Sending create job request to API service")
    as [Hlp [Hls _]].
  destruct (create_job_valid E geolevel response_format portfolio_id buffers) eqn:Hvalid.
  - destruct (@create_job_run E model_id geolevel response_format portfolio_id
                geoid_list buffers s h Hvalid) as [v [s' [post [Hrun [Hposts [Hsleeps _]]]]]].
    rewrite Hrun. cbn [trace].
    rewrite !posts_app, !sleeps_app, Hposts, Hsleeps, Hlp, Hls. split; reflexivity.
  - destruct (@create_job_invalid E model_id geolevel response_format portfolio_id
                geoid_list buffers s h Hvalid) as [e [Hrun _]].
    rewrite Hrun in Hc. discriminate.
Qed.

Lemma load_df_run (E : Env) model_id geolevel response_format portfolio_id buffers
    geoid_list (s : SDJobRunner) h :
  let c := create_job E model_id geolevel response_format portfolio_id geoid_list
             buffers s h in
  value c = Ok tt ->
  forall p t,
    for_in (seq 0 100) (poll_once E) (final c) (h ++ trace c) =
      Run (value p) (final p) (t ++ trace p) ->
    load_df_from_job_pipeline E model_id geolevel response_format portfolio_id buffers
      geoid_list s h =
    Run (match value p with
         | Ok (Some df) => Ok df
         | Ok None =>
             Raise (APIQueryFailedException [PStr "Job never completed successfully"])
         | Raise e => Raise e
         end) (final p) (trace c ++ t ++ trace p).
Proof.
  intros c Hc p t Hloop. subst c. unfold load_df_from_job_pipeline.
  rewrite (@bind_ok _ _ _ _ _ _ _ _ Hc). unfold bind. rewrite Hloop.
  cbn [value final trace].
  destruct (value p) as [[df|]|e]; cbn; rewrite ?app_nil_r; reflexivity.
Qed.

(** ** The job pipeline *)

(** C3: polling in [load_df_from_job_pipeline], once the job is created.
    Against the status sequence Processing, Processing, Completed, the call
    sleeps exactly twice, 10 seconds each, and right after the third status
    POST it runs the download and returns what the download returns.  Against
    100 times Processing it raises "Job never completed successfully" and no
    POST goes to the download endpoint.  A status that is neither "Completed"
    nor "Processing", at any poll, raises "Job failed" with that status, the
    status POST being the last event. *)
Theorem job_pipeline_polling (E : Env) (model_id : string) (geolevel : option string)
    (response_format : string) (portfolio_id : option string)
    (buffers : option (list string)) (geoid_list : option (list Z))
    (s : SDJobRunner) (h : list event) :
  let c := create_job E model_id geolevel response_format portfolio_id geoid_list
             buffers s h in
  let r := load_df_from_job_pipeline E model_id geolevel response_format portfolio_id
             buffers geoid_list s h in
  value c = Ok tt ->
  (exists id, _job_id (final c) = JStr id) ->
  (status_script E (polls h) [JStr "Processing"; JStr "Processing"; JStr "Completed"] ->
   exists t rq,
     let d := download_job_to_dataframe E (final c) ((h ++ trace c) ++ t ++ [EPost rq]) in
     r = Run (value d) (final d) (trace c ++ (t ++ [EPost rq]) ++ trace d) /\
     map req_url (posts (t ++ [EPost rq])) = [url_status; url_status; url_status] /\
     sleeps (trace r) = [inject_Z 10; inject_Z 10] /\
     map req_url (posts (trace r)) =
       [url_create; url_status; url_status; url_status; url_download]) /\
  (status_script E (polls h) (repeat (JStr "Processing") 100) ->
   value r = Raise (APIQueryFailedException [PStr "Job never completed successfully"]) /\
   sleeps (trace r) = repeat (inject_Z 10) 100 /\
   map req_url (posts (trace r)) = url_create :: repeat url_status 100 /\
   ~ In url_download (map req_url (posts (trace r)))) /\
  (forall k status,
      (k < 100)%nat ->
      status_is status "Completed" = false ->
      status_is status "Processing" = false ->
      status_script E (polls h) (repeat (JStr "Processing") k ++ [status]) ->
      exists t rq,
        r = Run (Raise (APIQueryFailedException [PStr "Job failed"; PJson status]))
              (final c) (trace c ++ t ++ [EPost rq]) /\
        req_url rq = url_status /\
        sleeps t = repeat (inject_Z 10) k /\
        map req_url (posts t) = repeat url_status k).
Proof.
  intros c r Hc [id Hid].
  destruct (@create_job_ok_trace E model_id geolevel response_format portfolio_id
              geoid_list buffers s h Hc) as [Hcs Hcp]. fold c in Hcs, Hcp.
  assert (Hpolls : polls (h ++ trace c) = polls h).
  { rewrite polls_app. unfold polls at 2.
    destruct (posts (trace c)) as [|rq0 [|rq1 l]]; try discriminate.
    cbn in Hcp. inversion Hcp as [Hurl]. cbn. rewrite Hurl. cbn. lia. }
  rewrite <- Hpolls.
  destruct (log_events_quiet (final c) "Checking if job is complete...")
    as [Hlp [Hls _]].
  split; [|split].
  - intros Hscript.
    destruct (@decisive_poll E 2 (final c) (h ++ trace c) id (JStr "Completed")
                ltac:(lia) Hid Hscript eq_refl) as [t [Hsl [Hurls Hrest]]].
    cbn zeta in Hrest. destruct Hrest as [Hloop Hp].
    cbn [status_is String.eqb Ascii.eqb Bool.eqb] in Hp. cbn zeta in Hp.
    set (log := log_events (final c) "Checking if job is complete...") in *.
    set (rq := job_request E url_status (final c) (((h ++ trace c) ++ t) ++ log)) in *.
    exists (t ++ log ++ [EToken]), rq. cbn zeta.
    assert (Hh : (h ++ trace c) ++ (t ++ log ++ [EToken]) ++ [EPost rq] =
                 (((h ++ trace c) ++ t) ++ log) ++ [EToken; EPost rq]).
    { rewrite <- !app_assoc. reflexivity. }
    rewrite Hh.
    destruct (@download_run E (final c)
                ((((h ++ trace c) ++ t) ++ log) ++ [EToken; EPost rq]) id Hid)
      as [v [Hd _]].
    assert (Hr : r = Run v (final c)
                   (trace c ++ ((t ++ log ++ [EToken]) ++ [EPost rq]) ++
                    [EToken;
                     EPost (job_request E url_download (final c)
                              ((((h ++ trace c) ++ t) ++ log) ++ [EToken; EPost rq]))])).
    { subst r. rewrite (@load_df_run E model_id geolevel response_format portfolio_id buffers
                         geoid_list s h Hc _ _ Hloop).
      rewrite Hp, Hd. cbn [value final trace].
      destruct v as [df|e]; rewrite <- !app_assoc; reflexivity. }
    rewrite Hd. cbn [value final trace]. split; [exact Hr|].
    split; [rewrite !posts_app, !map_app, Hurls, Hlp; reflexivity|].
    rewrite Hr. cbn [trace].
    rewrite !sleeps_app, !posts_app, !map_app, Hcs, Hcp, Hsl, Hurls, Hlp, Hls.
    split; reflexivity.
  - intros Hscript.
    destruct (@processing_polls E 100 0 (final c) (h ++ trace c) id Hid Hscript)
      as [t [Hloop [Hsl Hurls]]].
    assert (Hr : r = Run (Raise (APIQueryFailedException
                                   [PStr "Job never completed successfully"]))
                       (final c) (trace c ++ t ++ [])).
    { subst r.
      apply (@load_df_run E model_id geolevel response_format portfolio_id buffers
               geoid_list s h Hc (Run (Ok None) (final c) []) t).
      cbn [value final trace]. rewrite app_nil_r. exact Hloop. }
    rewrite Hr. cbn [value trace]. rewrite app_nil_r.
    rewrite !sleeps_app, !posts_app, !map_app, Hcs, Hcp, Hsl, Hurls.
    repeat split.
    intros [Hin|Hin]; [discriminate|].
    apply repeat_spec in Hin. discriminate.
  - intros k status Hk Hnc Hnp Hscript.
    destruct (@decisive_poll E k (final c) (h ++ trace c) id status Hk Hid Hscript Hnp)
      as [t [Hsl [Hurls Hrest]]].
    cbn zeta in Hrest. destruct Hrest as [Hloop Hp]. rewrite Hnc in Hp.
    set (log := log_events (final c) "Checking if job is complete...") in *.
    set (rq := job_request E url_status (final c) (((h ++ trace c) ++ t) ++ log)) in *.
    exists (t ++ log ++ [EToken]), rq. split; [|split; [reflexivity|split]].
    + subst r. rewrite (@load_df_run E model_id geolevel response_format portfolio_id buffers
                         geoid_list s h Hc _ _ Hloop).
      rewrite Hp. cbn [value final trace]. rewrite <- !app_assoc. reflexivity.
    + rewrite !sleeps_app, Hsl, Hls. cbn. rewrite app_nil_r. reflexivity.
    + rewrite !posts_app, !map_app, Hurls, Hlp. cbn. rewrite app_nil_r. reflexivity.
Qed.

Lemma job_service_follows_script (script : list string) :
  status_script (sample_env (job_service script)) 0 (map JStr script).
Proof.
  intros h rq i status Hurl Hp Hnth.
  rewrite nth_error_map in Hnth.
  destruct (nth_error script i) as [st|] eqn:Hst; [|discriminate].
  inversion Hnth; subst status.
  unfold reads_status. cbn [network sample_env]. unfold job_service.
  rewrite Hurl, Hp. cbn [Nat.add].
  change (String.eqb url_status url_create) with false.
  change (String.eqb url_status url_status) with true. cbv iota.
  rewrite (nth_error_nth script i "Processing" Hst).
  exists "", [("success", JBool true); ("message", JStr st)], (JBool true).
  repeat split.
Qed.

(** Processing, Processing, Completed: two sleeps of 10 seconds, then the
    downloaded table. *)
Lemma job_pipeline_polling_witness :
  sleeps (trace (load_df_from_job_pipeline
                   (sample_env (job_service ["Processing"; "Processing"; "Completed"]))
                   "m" (Some "US") "csv" None None None (SDJobRunner_init false) []))
    = [inject_Z 10; inject_Z 10] /\
  value (load_df_from_job_pipeline
           (sample_env (job_service ["Processing"; "Processing"; "Completed"]))
           "m" (Some "US") "csv" None None None (SDJobRunner_init false) [])
    = Ok (JStr "GEOID,UNITS").
Proof.
  destruct (@job_pipeline_polling
              (sample_env (job_service ["Processing"; "Processing"; "Completed"]))
              "m" (Some "US") "csv" None None None (SDJobRunner_init false) [])
    as [Hthree _].
  - reflexivity.
  - exists "job-1". reflexivity.
  - destruct Hthree as [t [rq [_ [_ [Hsleeps _]]]]].
    + exact (job_service_follows_script ["Processing"; "Processing"; "Completed"]).
    + split; [exact Hsleeps|reflexivity].
Defined.

(** * Further properties of the module *)

(** ** More on the retry loop *)

(** X1: the shape of every run of [_submit_post_request], whatever the
    service does.  A run is [k <= MAX_RETRIES] rounds of one POST and one
    backoff, followed by one last POST: it sleeps [0.5 * 1], [0.5 * 2], ...,
    [0.5 * k] and never after its last attempt, all [k + 1] POSTs carry the
    same request, and [self] is left as it was. *)
Theorem submit_trace_shape (E : Env) (S : Type) (json_dict : dict json)
    (timeout : option Q) (headers : option (dict string)) (s : S) (h : list event) :
  let rq := query_request E json_dict timeout headers in
  let r := _submit_post_request E json_dict timeout headers s h in
  exists k,
    (k <= MAX_RETRIES E)%nat /\
    trace r = failed_attempts rq 0 k ++ [EPost rq] /\
    sleeps (trace r) = map backoff (seq 0 k) /\
    posts (trace r) = repeat rq (k + 1) /\
    final r = s.
Proof.
  intros rq r.
  destruct (@submit_run_cases E S json_dict timeout headers s h) as [k [Hk [_ [Hrun _]]]].
  fold rq in Hrun. fold r in Hrun. exists k. rewrite Hrun. cbn [trace final].
  split; [exact Hk|]. split; [reflexivity|].
  rewrite sleeps_app, posts_app, sleeps_failed_attempts, posts_failed_attempts.
  cbn [sleeps posts]. rewrite app_nil_r. split; [reflexivity|]. split; [|reflexivity].
  rewrite repeat_app. reflexivity.
Qed.

(** X2: what [_submit_post_request] returns.  A returned payload is never
    [None]: it is the decoded body of an answer the service gave to this
    request with status 200, a JSON object whose [success] field is truthy. *)
Theorem submit_returns_success_body (E : Env) (S : Type) (json_dict : dict json)
    (timeout : option Q) (headers : option (dict string)) (s : S) (h : list event)
    (j : json) :
  value (_submit_post_request E json_dict timeout headers s h) = Ok j ->
  j <> JNull /\
  exists body flag h' bytes,
    j = JDict body /\
    dict_get body "success" = Some flag /\ truthy flag = true /\
    network E h' (query_request E json_dict timeout headers) =
      Responded (Response 200 bytes (Some (JDict body))).
Proof.
  intros Hv.
  destruct (@submit_run_cases E S json_dict timeout headers s h) as [k [_ [_ [Hrun _]]]].
  rewrite Hrun in Hv. cbn [value] in Hv. unfold final_outcome in Hv.
  destruct (network E _ _) as [r|e] eqn:Hnet;
    [|destruct (is_transient e); discriminate].
  apply classify_ok_inv in Hv.
  destruct Hv as [H200 [body [flag [-> [Hjson [Hs Ht]]]]]].
  split; [discriminate|].
  exists body, flag, (h ++ failed_attempts (query_request E json_dict timeout headers) 0 k),
    (content r).
  repeat split; try assumption.
  rewrite Hnet. destruct r as [code bytes bj]. cbn in *. subst. reflexivity.
Qed.

Lemma submit_returns_success_body_witness :
  exists body flag,
    success_body "data" sample_rows = JDict body /\
    dict_get body "success" = Some flag /\ truthy flag = true.
Proof.
  destruct (@submit_returns_success_body (sample_env (flaky_service 2)) unit
              sample_envelope None None tt [] (success_body "data" sample_rows) eq_refl)
    as [_ [body [flag [h' [bytes [Hj [Hs [Ht _]]]]]]]].
  exists body, flag. repeat split; assumption.
Defined.

(** X3: a refused query.  A 200 answer whose [success] field is falsy, at the
    first attempt or after retried transient failures, raises an
    [APIQueryFailedException] whose only argument is the decoded body (no
    request context, so no token); the POST it answers is the last event. *)
Theorem refused_query_terminal (E : Env) (S : Type) (json_dict : dict json)
    (timeout : option Q) (headers : option (dict string)) (s : S) (h : list event)
    (k : nat) (bytes : string) (body : dict json) (flag : json) :
  let rq := query_request E json_dict timeout headers in
  (k <= MAX_RETRIES E)%nat ->
  fails_transiently E rq h 0 k ->
  network E (h ++ failed_attempts rq 0 k) rq =
    Responded (Response 200 bytes (Some (JDict body))) ->
  dict_get body "success" = Some flag ->
  truthy flag = false ->
  _submit_post_request E json_dict timeout headers s h =
  Run (Raise (APIQueryFailedException [PJson (JDict body)])) s
      (failed_attempts rq 0 k ++ [EPost rq]).
Proof.
  intros rq Hk Hf Hr Hs Ht. subst rq.
  rewrite (submit_responded s Hk Hf Hr).
  unfold classify. cbn [status_code body_json]. simpl negb. cbv iota.
  rewrite Hs, Ht. reflexivity.
Qed.

Lemma refused_query_terminal_witness :
  _submit_post_request (sample_env refusing_service) sample_envelope None None tt [] =
  Run (Raise (APIQueryFailedException
                [PJson (JDict [("success", JBool false);
                               ("message", JStr "unknown table")])]))
      tt [EPost (query_request (sample_env refusing_service) sample_envelope None None)].
Proof.
  apply (@refused_query_terminal (sample_env refusing_service) unit sample_envelope
           None None tt [] 0%nat ""
           [("success", JBool false); ("message", JStr "unknown table")] (JBool false)).
  - cbn. lia.
  - intros i Hi. lia.
  - reflexivity.
  - reflexivity.
  - reflexivity.
Defined.

(** X4: a malformed 200 answer is not retried either.  A body that is not
    JSON raises the decoding error, a JSON value that is not an object raises
    [TypeError], an object without [success] raises [KeyError]; each time the
    POST is the last event. *)
Theorem malformed_answer_terminal (E : Env) (S : Type) (json_dict : dict json)
    (timeout : option Q) (headers : option (dict string)) (s : S) (h : list event)
    (k : nat) (bytes : string) (decoded : option json) :
  let rq := query_request E json_dict timeout headers in
  (k <= MAX_RETRIES E)%nat ->
  fails_transiently E rq h 0 k ->
  network E (h ++ failed_attempts rq 0 k) rq = Responded (Response 200 bytes decoded) ->
  (forall body, decoded = Some (JDict body) -> dict_get body "success" = None) ->
  _submit_post_request E json_dict timeout headers s h =
  Run (Raise match decoded with
             | None => JSONDecodeError
             | Some (JDict _) => KeyError "success"
             | Some _ => TypeError
             end) s (failed_attempts rq 0 k ++ [EPost rq]).
Proof.
  intros rq Hk Hf Hr Hmissing. subst rq.
  rewrite (submit_responded s Hk Hf Hr).
  unfold classify. cbn [status_code body_json]. simpl negb. cbv iota.
  destruct decoded as [[| | | | |body]|]; try reflexivity.
  rewrite (Hmissing body eq_refl). reflexivity.
Qed.

Lemma malformed_answer_terminal_witness :
  _submit_post_request (sample_env (status_service 200 "<html>")) sample_envelope
    None None tt [] =
  Run (Raise JSONDecodeError) tt
      [EPost (query_request (sample_env (status_service 200 "<html>")) sample_envelope
                None None)].
Proof.
  apply (@malformed_answer_terminal (sample_env (status_service 200 "<html>")) unit
           sample_envelope None None tt [] 0%nat "<html>" None).
  - cbn. lia.
  - intros i Hi. lia.
  - reflexivity.
  - discriminate.
Defined.

(** X5: exceptions of the transport other than connection errors and
    timeouts are not caught: raised by a POST, at the first attempt or after
    retried transient failures, such an exception leaves
    [_submit_post_request] unchanged, without backoff and without a further
    attempt. *)
Theorem transport_error_propagates (E : Env) (S : Type) (json_dict : dict json)
    (timeout : option Q) (headers : option (dict string)) (s : S) (h : list event)
    (k : nat) (e : exn) :
  let rq := query_request E json_dict timeout headers in
  (k <= MAX_RETRIES E)%nat ->
  fails_transiently E rq h 0 k ->
  network E (h ++ failed_attempts rq 0 k) rq = PostRaises e ->
  is_transient e = false ->
  _submit_post_request E json_dict timeout headers s h =
  Run (Raise e) s (failed_attempts rq 0 k ++ [EPost rq]).
Proof.
  intros rq Hk Hf Hr Ht. subst rq.
  rewrite (submit_after_failures s Hk Hf); rewrite step_run, Hr, Ht; cbn [value].
  - reflexivity.
  - discriminate.
Qed.

Lemma transport_error_propagates_witness :
  _submit_post_request (sample_env broken_service) sample_envelope None None tt [] =
  Run (Raise (ValueError "Invalid URL")) tt
      [EPost (query_request (sample_env broken_service) sample_envelope None None)].
Proof.
  apply (@transport_error_propagates (sample_env broken_service) unit sample_envelope
           None None tt [] 0%nat (ValueError "Invalid URL")).
  - cbn. lia.
  - intros i Hi. lia.
  - reflexivity.
  - reflexivity.
Defined.

(** ** More on batches *)

(** X6: the guard on [chunksize].  With [chunksize <= 0], [query_api_multiple]
    fails its assertion before anything else happens: no token is fetched and
    nothing is posted, whatever the queries are. *)
Theorem nonpositive_chunksize_rejected (E : Env) (S : Type)
    (queries : dict (APIQueryParams E)) (timeout : option Q) (chunksize : Z)
    (time_between_chunks : option Q) (headers : option (dict string)) (s : S)
    (h : list event) :
  chunksize <= 0 ->
  exists msg,
    query_api_multiple E queries timeout chunksize time_between_chunks headers s h =
    Run (Raise (AssertionError (Some msg))) s [].
Proof.
  intros Hc. eexists. unfold query_api_multiple, py_assert.
  destruct (Z.ltb_spec 0 chunksize) as [Hlt|_]; [lia|].
  erewrite bind_raise_eq by reflexivity. reflexivity.
Qed.

Lemma nonpositive_chunksize_rejected_witness :
  exists msg,
    query_api_multiple (sample_env echo_service) three_queries None 0 None None tt [] =
    Run (Raise (AssertionError (Some msg))) tt [].
Proof.
  apply (@nonpositive_chunksize_rejected (sample_env echo_service) unit three_queries
           None 0 None None tt []). lia.
Defined.

(** X7: how many chunks.  The loop of [query_api_multiple] fetches one
    token per iteration.  For [chunksize >= 1] a run fetches at most
    [ceil(len(keys) / chunksize)] tokens, whatever the service does, and a run
    that returns has fetched exactly that many: the loop ran once per chunk.
    No POST of a run carries more than [chunksize] queries. *)
Theorem chunk_count (E : Env) (S : Type) (queries : dict (APIQueryParams E))
    (timeout : option Q) (chunksize : Z) (time_between_chunks : option Q)
    (headers : option (dict string)) (s : S) (h : list event) :
  1 <= chunksize ->
  NoDup (keys queries) ->
  let r := query_api_multiple E queries timeout chunksize time_between_chunks
             headers s h in
  let n := (len (keys queries) + chunksize - 1) / chunksize in
  Z.of_nat (token_fetches (trace r)) <= n /\
  (forall dfs, value r = Ok dfs -> Z.of_nat (token_fetches (trace r)) = n) /\
  (forall rq, In rq (posts (trace r)) ->
     exists chunk, posted_chunk rq = Some chunk /\ 1 <= len chunk <= chunksize).
Proof.
  intros Hc Hnd r n. subst r n.
  destruct (@query_api_multiple_cases E S queries timeout chunksize time_between_chunks
              headers s h ltac:(lia) Hnd)
    as [attempts [v [t [Hrun [Hlen [_ [Hposts [Htok [Hfull _]]]]]]]]].
  rewrite Hrun. cbn [value trace].
  destruct (range_count (n := len (keys queries)) (chunksize := chunksize))
    as [Hq _]; [unfold len; lia|lia|].
  assert (Hcount : List.length (chunk_plan (keys queries) chunksize) =
                   Z.to_nat ((len (keys queries) + chunksize - 1) / chunksize)).
  { unfold chunk_plan, py_range. rewrite !length_map, length_seq. reflexivity. }
  rewrite Htok. split; [lia|]. split.
  - intros dfs Hd. rewrite (Hfull dfs Hd). lia.
  - intros rq Hin.
    apply (in_map posted_chunk) in Hin. rewrite Hposts in Hin.
    apply in_flat_map in Hin. destruct Hin as [[chunk i] [Hcn Hrep]].
    cbn [fst snd] in Hrep. apply repeat_spec in Hrep.
    apply in_combine_l in Hcn.
    exists chunk. split; [exact Hrep|].
    pose proof (@chunk_plan_sizes (keys queries) chunksize ltac:(lia)) as Hsizes.
    rewrite Forall_forall in Hsizes. exact (Hsizes chunk Hcn).
Qed.

(** Three queries in chunks of two, against a service that answers: two
    tokens. *)
Lemma chunk_count_witness :
  Z.of_nat (token_fetches
              (trace (query_api_multiple (sample_env echo_service) three_queries None 2
                        None None tt []))) = 2.
Proof.
  destruct (@chunk_count (sample_env echo_service) unit three_queries None 2 None None
              tt []) as [_ [Hfull _]].
  - lia.
  - exact three_queries_NoDup.
  - exact (Hfull _ eq_refl).
Defined.

Section BatchRuns.

Variable E : Env.
Context {S : Type}.
Variables (queries : dict (APIQueryParams E)) (timeout : option Q) (chunksize : Z)
  (time_between_chunks : option Q) (headers : option (dict string)).

Hypothesis queries_is_dict : NoDup (keys queries).
Hypothesis pause_ok : pause_accepted time_between_chunks.

(** The pause after the chunk that starts at [idx_chunk], if any. *)
Let pause_after (idx_chunk : Z) : list event :=
  match time_between_chunks with
  | Some pause =>
      if idx_chunk + chunksize <? len (keys queries) then [ESleep pause] else []
  | None => []
  end.

(** A chunk against a service that answers: a token, one POST with the
    queries of the chunk, then the pause. *)
Lemma submit_chunk_answered (idx_chunk : Z) (df_dict : dict (T_DF E)) (s : S) h :
  answers_every_batch E ->
  exists rq df_dict',
    posted_chunk rq = Some (py_slice (keys queries) idx_chunk (idx_chunk + chunksize)) /\
    submit_chunk E queries timeout chunksize time_between_chunks headers (keys queries)
      idx_chunk df_dict s h =
    Run (Ok df_dict') s ([EToken; EPost rq] ++ pause_after idx_chunk).
Proof.
  intros Hanswers.
  destruct (@chunk_queries_run E S queries chunksize queries_is_dict idx_chunk s
              (h ++ [EToken])) as [d [Hrun Hkeys]].
  set (json_dict := [("token", JStr (token_provider E h)); ("queries", JDict d)]).
  set (rq := query_request E json_dict timeout headers).
  destruct (Hanswers ((h ++ [EToken]) ++ failed_attempts rq 0 0) rq)
    as [bytes [body [flag [data [Hnet [Hs [Ht [Hdata Hbuild]]]]]]]].
  assert (Hsub : _submit_post_request E json_dict timeout headers s (h ++ [EToken]) =
                 Run (Ok (JDict body)) s [EPost rq]).
  { rewrite (@submit_responded E S json_dict timeout headers 0 s (h ++ [EToken]) _
               ltac:(lia) ltac:(intros i Hi; lia) Hnet).
    unfold classify. cbn [status_code body_json]. simpl negb. cbv iota.
    rewrite Hs, Ht. reflexivity. }
  destruct (@build_tables_run E S data df_dict s) as [v2 [Htab [_ Hall]]].
  destruct (Hall Hbuild) as [df_dict2 ->].
  exists rq, df_dict2. split.
  - unfold posted_chunk, request_queries, rq, query_request, json_dict. cbn.
    rewrite Hkeys. reflexivity.
  - unfold submit_chunk.
    erewrite bind_ok_eq by reflexivity.
    erewrite bind_ok_eq by exact Hrun. rewrite app_nil_r.
    erewrite bind_ok_eq by exact Hsub.
    unfold getitem. rewrite Hdata.
    erewrite bind_ok_eq by reflexivity. erewrite bind_ok_eq by reflexivity.
    erewrite bind_ok_eq by apply Htab.
    unfold pause_after. unfold pause_accepted in pause_ok.
    destruct time_between_chunks as [pause|];
      [destruct (idx_chunk + chunksize <? len (keys queries))|].
    + erewrite bind_ok_eq by (apply time_sleep_run; exact pause_ok). reflexivity.
    + reflexivity.
    + reflexivity.
Qed.

(** The chunks from chunk number [a] on, against a service that answers. *)
Lemma chunk_loop_answered (m : nat) : forall (a : nat) (df_dict : dict (T_DF E)) (s : S) h,
  0 < chunksize ->
  answers_every_batch E ->
  (a + m = Z.to_nat ((len (keys queries) + chunksize - 1) / chunksize))%nat ->
  exists dfs t,
    for_acc (map (fun k => Z.of_nat k * chunksize) (seq a m)) df_dict
      (submit_chunk E queries timeout chunksize time_between_chunks headers
         (keys queries)) s h = Run (Ok dfs) s t /\
    map posted_chunk (posts t) =
      map (fun k => Some (py_slice (keys queries) (Z.of_nat k * chunksize)
                            (Z.of_nat k * chunksize + chunksize))) (seq a m) /\
    token_fetches t = m /\
    sleeps t = match time_between_chunks with
               | Some pause => repeat pause (m - 1)
               | None => []
               end.
Proof.
  induction m as [|m IH]; intros a df_dict s h Hc Hanswers Ham.
  - exists df_dict, []. repeat split. destruct time_between_chunks; reflexivity.
  - destruct (submit_chunk_answered (Z.of_nat a * chunksize) df_dict s h Hanswers)
      as [rq [df1 [Hchunk Hrun]]].
    destruct (IH (Datatypes.S a) df1 s
                (h ++ [EToken; EPost rq] ++ pause_after (Z.of_nat a * chunksize))
                Hc Hanswers ltac:(lia)) as [dfs [t [Hloop [Hposts [Htok Hsl]]]]].
    exists dfs, (([EToken; EPost rq] ++ pause_after (Z.of_nat a * chunksize)) ++ t).
    assert (Hpause : pause_after (Z.of_nat a * chunksize) =
                     match time_between_chunks with
                     | Some pause => if (1 <=? m)%nat then [ESleep pause] else []
                     | None => []
                     end).
    { unfold pause_after. destruct time_between_chunks as [pause|]; [|reflexivity].
      rewrite (more_chunks_test _ a Hc), <- Ham.
      destruct (Nat.ltb_spec (Datatypes.S a) (a + Datatypes.S m));
        destruct (Nat.leb_spec 1 m); try reflexivity; lia. }
    split; [|split; [|split]].
    + simpl seq. simpl map. simpl for_acc.
      erewrite bind_ok_eq by exact Hrun. rewrite Hloop. reflexivity.
    + rewrite !posts_app, map_app, Hposts. simpl seq. simpl map.
      rewrite Hchunk, Hpause.
      destruct time_between_chunks; [destruct (1 <=? m)%nat|]; reflexivity.
    + rewrite !token_fetches_app, Htok, Hpause.
      destruct time_between_chunks; [destruct (1 <=? m)%nat|]; reflexivity.
    + rewrite !sleeps_app, Hsl, Hpause.
      destruct time_between_chunks as [pause|]; [|reflexivity].
      destruct m as [|m]; [reflexivity|].
      cbn. rewrite Nat.sub_0_r. reflexivity.
Qed.

End BatchRuns.


Lemma batch_service_answers : answers_every_batch (sample_env batch_service).
Proof.
  intros h rq. cbn [network sample_env]. unfold batch_service.
  do 4 eexists. split; [reflexivity|]. split; [reflexivity|]. split; [reflexivity|].
  split; [reflexivity|].
  apply Forall_forall. intros kv Hin. apply in_map_iff in Hin.
  destruct Hin as [kv0 [<- _]]. eexists. reflexivity.
Qed.


(** X9: a failing chunk aborts the batch.  Against a service that answers
    with a status other than 200, [query_api_multiple] on a non-empty mapping
    raises the [APIQueryFailedException] of the first chunk, whose context is
    redacted; it has fetched one token and posted once, the first
    [chunksize] keys, and no later chunk is sent and nothing is returned. *)
Theorem batch_aborts_on_failure (E : Env) (S : Type) (queries : dict (APIQueryParams E))
    (timeout : option Q) (chunksize : Z) (time_between_chunks : option Q)
    (headers : option (dict string)) (s : S) (h : list event) :
  1 <= chunksize ->
  NoDup (keys queries) ->
  queries <> [] ->
  rejects_everything E ->
  exists detail chunk rq,
    query_api_multiple E queries timeout chunksize time_between_chunks headers s h =
      Run (Raise (APIQueryFailedException
                    (detail ++
                     [PJson (JDict [("token", JStr token_mask);
                                    ("queries", JDict chunk)])])))
          s [EToken; EPost rq] /\
    posted_chunk rq = Some (firstn (Z.to_nat chunksize) (keys queries)) /\
    keys chunk = firstn (Z.to_nat chunksize) (keys queries).
Proof.
  intros Hc Hnd Hne Hrej.
  rewrite query_api_multiple_run by lia.
  destruct (range_count (n := len (keys queries)) (chunksize := chunksize))
    as [Hq [Hhi Hlo]]; [unfold len; lia|lia|].
  assert (Hlen : 1 <= len (keys queries)).
  { destruct queries as [|kv qs]; [contradiction|]. unfold len. cbn. lia. }
  unfold py_range.
  destruct (Z.to_nat ((len (keys queries) + chunksize - 1) / chunksize)) as [|n] eqn:Hn;
    [exfalso; nia|].
  simpl seq. simpl map. simpl for_acc.
  destruct (@chunk_queries_run E S queries chunksize Hnd 0 s (h ++ [EToken]))
    as [d [Hrun Hkeys]].
  set (json_dict := [("token", JStr (token_provider E h)); ("queries", JDict d)]).
  set (rq := query_request E json_dict timeout headers).
  destruct (Hrej ((h ++ [EToken]) ++ failed_attempts rq 0 0) rq) as [r [Hnet Hstatus]].
  pose proof (@submit_responded E S json_dict timeout headers 0 s (h ++ [EToken]) r
                ltac:(lia) ltac:(intros i Hi; lia) Hnet) as Hsub.
  fold rq in Hsub. unfold classify in Hsub.
  destruct (Z.eqb_spec (status_code r) 200) as [H200|_]; [contradiction|].
  cbn [negb] in Hsub.
  assert (Hslice : py_slice (keys queries) 0 (0 + chunksize) =
                   firstn (Z.to_nat chunksize) (keys queries)).
  { unfold py_slice. cbn [Z.to_nat skipn]. f_equal. f_equal. lia. }
  exists (if status_code r =? 520 then [PStr msg_status_520]
          else [PInt (status_code r); PBytes (content r)]), d, rq.
  split; [|split].
  - erewrite bind_raise_eq; [reflexivity|].
    unfold submit_chunk.
    erewrite bind_ok_eq by reflexivity.
    erewrite bind_ok_eq by exact Hrun. rewrite app_nil_r.
    fold json_dict.
    destruct (status_code r =? 520);
      erewrite bind_raise_eq by exact Hsub; reflexivity.
  - unfold posted_chunk, request_queries, rq, query_request, json_dict. cbn.
    rewrite Hkeys, Hslice. reflexivity.
  - rewrite Hkeys, Hslice. reflexivity.
Qed.

Lemma status_service_rejects code body :
  code <> 200 -> rejects_everything (sample_env (status_service code body)).
Proof.
  intros Hcode h rq. eexists. split; [reflexivity|exact Hcode].
Qed.

Lemma batch_aborts_on_failure_witness :
  exists detail chunk rq,
    query_api_multiple (sample_env (status_service 503 "busy")) three_queries None 2
      (Some (1 # 1)) None tt [] =
      Run (Raise (APIQueryFailedException
                    (detail ++
                     [PJson (JDict [("token", JStr token_mask);
                                    ("queries", JDict chunk)])])))
          tt [EToken; EPost rq] /\
    posted_chunk rq = Some ["a"; "b"] /\
    keys chunk = ["a"; "b"].
Proof.
  apply (@batch_aborts_on_failure (sample_env (status_service 503 "busy")) unit
           three_queries None 2 (Some (1 # 1)) None tt []).
  - lia.
  - exact three_queries_NoDup.
  - discriminate.
  - apply status_service_rejects. lia.
Defined.

(** ** More on single queries *)

(** X10: [submit_query] has no [else] branch, yet it never returns [None]:
    whatever the arguments and the service, a call that returns gives a table
    or a mapping of tables. *)
Theorem submit_query_never_none (E : Env) (S : Type)
    (query_params : option (APIQueryParams E))
    (queries_params : option (dict (APIQueryParams E))) (timeout : option Q)
    (headers : option (dict string)) (s : S) (h : list event) :
  value (submit_query E query_params queries_params timeout headers s h) <> Ok None.
Proof.
  unfold submit_query, py_assert.
  destruct query_params as [q|]; destruct queries_params as [qs|]; cbn [negb].
  - erewrite bind_ok_eq by reflexivity. erewrite bind_raise_eq by reflexivity.
    discriminate.
  - erewrite bind_ok_eq by reflexivity. erewrite bind_ok_eq by reflexivity.
    match goal with
    | |- context [bind ?m ?f ?s0 ?h0] => destruct (m s0 h0) as [[df|e] s1 t1] eqn:Hm
    end.
    + erewrite bind_ok_eq by exact Hm. discriminate.
    + erewrite bind_raise_eq by exact Hm. discriminate.
  - erewrite bind_ok_eq by reflexivity. erewrite bind_ok_eq by reflexivity.
    match goal with
    | |- context [bind ?m ?f ?s0 ?h0] => destruct (m s0 h0) as [[df|e] s1 t1] eqn:Hm
    end.
    + erewrite bind_ok_eq by exact Hm. discriminate.
    + erewrite bind_raise_eq by exact Hm. discriminate.
  - erewrite bind_raise_eq by reflexivity. discriminate.
Qed.

(** X11: the single-query decoders on a successful answer without rows.
    When the body has no [data] field both decoders raise [KeyError]; when
    [data] is the empty list, [query_api_json] raises [IndexError] while
    [query_api_df] returns the table built from the empty list: its outcome
    is that of [pandas.DataFrame([])] with its labels upper-cased, the empty
    table for the [pandas] stand-in. *)
Theorem single_query_without_rows (E : Env) (S : Type) (query_params : APIQueryParams E)
    (timeout : option Q) (headers : option (dict string)) (s : S) (h : list event)
    (k : nat) (bytes : string) (body : dict json) (flag : json) :
  let json_dict := single_envelope E (token_provider E h) query_params in
  let rq := query_request E json_dict timeout headers in
  (k <= MAX_RETRIES E)%nat ->
  fails_transiently E rq (h ++ [EToken]) 0 k ->
  network E ((h ++ [EToken]) ++ failed_attempts rq 0 k) rq =
    Responded (Response 200 bytes (Some (JDict body))) ->
  dict_get body "success" = Some flag ->
  truthy flag = true ->
  (dict_get body "data" = None ->
   value (query_api_df E query_params timeout headers s h) = Raise (KeyError "data") /\
   value (query_api_json E query_params timeout headers s h) = Raise (KeyError "data")) /\
  (dict_get body "data" = Some (JList []) ->
   value (query_api_df E query_params timeout headers s h) =
     dataframe_upper E (JList []) /\
   value (query_api_json E query_params timeout headers s h) = Raise IndexError).
Proof.
  intros json_dict rq Hk Hf Hr Hs Ht.
  pose proof (submit_responded s Hk Hf Hr) as Hrun.
  unfold classify in Hrun. cbn [status_code body_json] in Hrun. simpl negb in Hrun.
  cbv iota in Hrun. rewrite Hs, Ht in Hrun.
  rewrite query_api_df_run, query_api_json_run. cbn zeta. fold json_dict.
  rewrite Hrun. cbn [value final trace].
  split; intros Hd; rewrite Hd; split; reflexivity.
Qed.

Lemma single_query_without_rows_witness :
  value (query_api_df (sample_env empty_service) (JStr "q") None None tt [])
    = Ok (JList []) /\
  value (query_api_json (sample_env empty_service) (JStr "q") None None tt [])
    = Raise IndexError.
Proof.
  destruct (@single_query_without_rows (sample_env empty_service)
              unit (JStr "q") None None tt [] 0%nat ""
              [("success", JBool true); ("data", JList [])] (JBool true))
    as [_ Hempty].
  - cbn. lia.
  - intros i Hi. lia.
  - reflexivity.
  - reflexivity.
  - reflexivity.
  - exact (Hempty eq_refl).
Defined.

(** X12: what a single query sends.  Whatever the service does,
    [query_api_df] and [query_api_json] fetch the token once, before the
    first attempt, and every attempt posts the same request: to [API_URL],
    with the caller's headers and timeout, and with the token in the [token]
    field of the JSON body next to the query. *)
Theorem single_query_requests (E : Env) (S : Type) (query_params : APIQueryParams E)
    (timeout : option Q) (headers : option (dict string)) (s : S) (h : list event) :
  let rq := Request (API_URL E)
              (JDict [("token", JStr (token_provider E h));
                      ("query", to_api_struct E query_params)])
              headers timeout in
  exists k,
    (k <= MAX_RETRIES E)%nat /\
    trace (query_api_df E query_params timeout headers s h) =
      EToken :: failed_attempts rq 0 k ++ [EPost rq] /\
    trace (query_api_json E query_params timeout headers s h) =
      EToken :: failed_attempts rq 0 k ++ [EPost rq] /\
    token_fetches (trace (query_api_df E query_params timeout headers s h)) = 1%nat.
Proof.
  intros rq.
  destruct (@submit_run_cases E S (single_envelope E (token_provider E h) query_params)
              timeout headers s (h ++ [EToken])) as [k [Hk [_ [Hrun _]]]].
  exists k. rewrite query_api_df_run, query_api_json_run. cbn zeta.
  rewrite Hrun. cbn [trace].
  change (query_request E (single_envelope E (token_provider E h) query_params)
            timeout headers) with rq.
  split; [exact Hk|]. split; [reflexivity|]. split; [reflexivity|].
  cbn [token_fetches]. rewrite token_fetches_app. f_equal.
  assert (Hnone : forall n a, token_fetches (failed_attempts rq a n) = 0%nat).
  { unfold failed_attempts. induction n as [|n IH]; intros a; [reflexivity|].
    cbn. apply IH. }
  rewrite Hnone. reflexivity.
Qed.

(** ** More on the job runner *)

Section JobOutcomes.

Variable E : Env.
Variables (model_id : string) (geolevel : option string) (response_format : string)
  (portfolio_id : option string) (geoid_list : option (list Z))
  (buffers : option (list string)).

(** [create_job] up to the answer to its POST. *)
Lemma create_job_answered (s : SDJobRunner) h r :
  create_job_valid E geolevel response_format portfolio_id buffers = true ->
  let pre := log_events s "Sending create job request to API service" in
  let rq := create_request E (h ++ pre) model_id geolevel response_format portfolio_id
              geoid_list buffers in
  network E (h ++ pre ++ [EToken]) rq = Responded r ->
  create_job E model_id geolevel response_format portfolio_id geoid_list buffers s h =
  prepend (pre ++ [EToken; EPost rq])
    ((res <- response_json r ;;
      success <- getitem res "success" ;;
      if truthy success then
        message <- getitem res "message" ;;
        job_id <- getitem message "job_id" ;;
        self <- get_state ;;
        put_state (mkRunner (_logging self) job_id response_format) ;;;
        log_line "Successfully created job request"
      else
        message <- getitem res "message" ;;
        raise (APIQueryFailedException [PJson message]))
       s (h ++ pre ++ [EToken; EPost rq])).
Proof.
  intros Hvalid pre rq Hnet.
  destruct (create_job_checks_run E geolevel response_format portfolio_id buffers s h)
    as [v0 [Hrun Hv]].
  rewrite Hvalid in Hv. subst v0.
  unfold create_job.
  erewrite bind_ok_eq by exact Hrun. rewrite app_nil_r.
  erewrite bind_ok_eq by apply log_line_run. fold pre.
  erewrite bind_ok_eq by reflexivity.
  rewrite <- app_assoc. fold url_create.
  change (Request url_create _ (bearer (token_provider E (h ++ pre))) None) with rq.
  assert (Hpost : requests_post E rq s (h ++ pre ++ [EToken]) = Run (Ok r) s [EPost rq])
    by (unfold requests_post; rewrite Hnet; reflexivity).
  erewrite bind_ok_eq by exact Hpost.
  unfold prepend. cbn [value final trace app].
  rewrite <- !app_assoc. cbn [app]. reflexivity.
Qed.

(** Where [create_job] leaves [self]: untouched, or with the new job id and
    the requested, accepted, response format. *)
Lemma create_job_final_run (s : SDJobRunner) h :
  exists v s' t,
    create_job E model_id geolevel response_format portfolio_id geoid_list buffers s h =
      Run v s' t /\
    ((s' = s /\ v <> Ok tt) \/
     (create_job_valid E geolevel response_format portfolio_id buffers = true /\
      v = Ok tt /\
      exists job_id, s' = mkRunner (_logging s) job_id response_format)).
Proof.
  destruct (create_job_valid E geolevel response_format portfolio_id buffers) eqn:Hvalid.
  - set (pre := log_events s "Sending create job request to API service").
    set (rq := create_request E (h ++ pre) model_id geolevel response_format
                 portfolio_id geoid_list buffers).
    destruct (network E (h ++ pre ++ [EToken]) rq) as [r|e] eqn:Hnet.
    + rewrite (create_job_answered s h Hvalid Hnet). fold pre. fold rq.
      unfold response_json.
      destruct (body_json r) as [res|];
        [|run_binds; do 3 eexists; split; [reflexivity|left; split; [reflexivity|discriminate]]].
      erewrite bind_ok_eq by reflexivity. unfold getitem at 1.
      destruct res as [| | | | |body];
        try (run_binds; do 3 eexists; split;
             [reflexivity|left; split; [reflexivity|discriminate]]).
      destruct (dict_get body "success") as [flag|];
        [|run_binds; do 3 eexists; split;
          [reflexivity|left; split; [reflexivity|discriminate]]].
      erewrite bind_ok_eq by reflexivity.
      unfold getitem at 1 3.
      destruct (dict_get body "message") as [message|];
        [|destruct (truthy flag); run_binds; do 3 eexists;
          (split; [reflexivity|left; split; [reflexivity|discriminate]])].
      destruct (truthy flag);
        [|run_binds; do 3 eexists; split;
          [reflexivity|left; split; [reflexivity|discriminate]]].
      erewrite bind_ok_eq by reflexivity. unfold getitem.
      destruct message as [| | | | |m];
        try (run_binds; do 3 eexists; split;
             [reflexivity|left; split; [reflexivity|discriminate]]).
      destruct (dict_get m "job_id") as [job_id|];
        [|run_binds; do 3 eexists; split;
          [reflexivity|left; split; [reflexivity|discriminate]]].
      run_binds. rewrite log_line_run, ?prepend_Run.
      do 3 eexists. split; [reflexivity|].
      right. split; [reflexivity|]. split; [reflexivity|]. exists job_id. reflexivity.
    + destruct (@create_job_run E model_id geolevel response_format portfolio_id
                  geoid_list buffers s h Hvalid) as [v [s' [post [Hrun [_ [_ Herr]]]]]].
      fold pre in Hrun, Herr. fold rq in Hrun, Herr.
      destruct (Herr e Hnet) as [-> [-> ->]].
      do 3 eexists. split; [exact Hrun|]. left. split; [reflexivity|discriminate].
  - destruct (@create_job_invalid E model_id geolevel response_format portfolio_id
                geoid_list buffers s h Hvalid) as [e [Hrun _]].
    do 3 eexists. split; [exact Hrun|]. left. split; [reflexivity|discriminate].
Qed.

End JobOutcomes.

(** X13: the job calls need a created job.  On a runner without a job id, a
    fresh one for instance, the status check and the download fail with the
    "no job id found" assertion before any event: no token is fetched,
    nothing is posted, and the runner is unchanged. *)
Theorem job_calls_need_created_job (E : Env) (s : SDJobRunner) (h : list event) :
  (forall id, _job_id s <> JStr id) ->
  _check_job_status E s h =
    Run (Raise (AssertionError
                  (Some "Must run create_job successfully first -- no job id found")))
        s [] /\
  download_job_to_dataframe E s h =
    Run (Raise (AssertionError
                  (Some "Must run create_job successfully first -- no job id found")))
        s [].
Proof.
  intros Hno. unfold _check_job_status, download_job_to_dataframe.
  assert (Hassert : _assert_job_created s h =
            Run (Raise (AssertionError
                   (Some "Must run create_job successfully first -- no job id found")))
                s []).
  { rewrite assert_job_created_run.
    destruct (_job_id s) as [| | |id| |]; try reflexivity.
    exfalso. exact (Hno id eq_refl). }
  split; erewrite bind_raise_eq by exact Hassert; reflexivity.
Qed.

Lemma job_calls_need_created_job_witness :
  _check_job_status (sample_env (job_service [])) (SDJobRunner_init true) [] =
  Run (Raise (AssertionError
                (Some "Must run create_job successfully first -- no job id found")))
      (SDJobRunner_init true) [].
Proof.
  apply (@job_calls_need_created_job (sample_env (job_service []))
           (SDJobRunner_init true) []).
  intros id. discriminate.
Defined.

(** X14: the two outcomes of an answered [create_job].  With accepted
    arguments and an answer whose body is a JSON object, whatever its status
    code: a truthy [success] with a [job_id] in [message] stores that job id
    and the requested response format in the runner and keeps its logging
    flag; a falsy [success] raises [APIQueryFailedException] with the
    [message] and leaves the runner as it was. *)
Theorem create_job_outcomes (E : Env) (model_id : string) (geolevel : option string)
    (response_format : string) (portfolio_id : option string)
    (geoid_list : option (list Z)) (buffers : option (list string))
    (s : SDJobRunner) (h : list event) (code : Z) (bytes : string) (body : dict json)
    (flag message : json) :
  let pre := log_events s "Sending create job request to API service" in
  let rq := create_request E (h ++ pre) model_id geolevel response_format portfolio_id
              geoid_list buffers in
  let c := create_job E model_id geolevel response_format portfolio_id geoid_list
             buffers s h in
  create_job_valid E geolevel response_format portfolio_id buffers = true ->
  network E (h ++ pre ++ [EToken]) rq =
    Responded (Response code bytes (Some (JDict body))) ->
  dict_get body "success" = Some flag ->
  dict_get body "message" = Some message ->
  (truthy flag = true ->
   forall m job_id,
     message = JDict m -> dict_get m "job_id" = Some job_id ->
     c = Run (Ok tt) (mkRunner (_logging s) job_id response_format)
           (pre ++ [EToken; EPost rq] ++
            log_events s "Successfully created job request")) /\
  (truthy flag = false ->
   c = Run (Raise (APIQueryFailedException [PJson message])) s
         (pre ++ [EToken; EPost rq])).
Proof.
  intros pre rq c Hvalid Hnet Hs Hm. subst c.
  split; intros Ht; [intros m job_id Hmsg Hjid; subst message|];
    rewrite (@create_job_answered E model_id geolevel response_format portfolio_id
               geoid_list buffers s h _ Hvalid Hnet);
    fold pre; fold rq; unfold response_json; cbn [body_json];
    erewrite bind_ok_eq by reflexivity; unfold getitem at 1; rewrite Hs;
    erewrite bind_ok_eq by reflexivity; rewrite Ht;
    unfold getitem at 1; rewrite Hm.
  - erewrite bind_ok_eq by reflexivity. unfold getitem. rewrite Hjid.
    run_binds. rewrite log_line_run, ?prepend_Run.
    unfold log_events. cbn [_logging app]. rewrite ?app_nil_r.
    rewrite <- app_assoc. reflexivity.
  - run_binds. unfold raise. rewrite !prepend_Run. cbn [app].
    rewrite app_nil_r. reflexivity.
Qed.

Lemma create_job_outcomes_witness :
  create_job (sample_env closed_job_service) "m" (Some "US") "csv" None None None
    (SDJobRunner_init false) [] =
  Run (Raise (APIQueryFailedException [PJson (JStr "quota exceeded")]))
      (SDJobRunner_init false)
      [EToken;
       EPost (create_request (sample_env closed_job_service) [] "m" (Some "US") "csv"
                None None None)].
Proof.
  destruct (@create_job_outcomes (sample_env closed_job_service) "m" (Some "US") "csv"
              None None None (SDJobRunner_init false) [] 403 ""
              [("success", JBool false); ("message", JStr "quota exceeded")]
              (JBool false) (JStr "quota exceeded")) as [_ Hrefused].
  - reflexivity.
  - reflexivity.
  - reflexivity.
  - reflexivity.
  - exact (Hrefused eq_refl).
Defined.

Section PollCases.

Variable E : Env.

Lemma status_without_job_id (s : SDJobRunner) h :
  (forall id, _job_id s <> JStr id) ->
  _check_job_status E s h = Run (Raise no_job_id_error) s [].
Proof.
  intros Hno. unfold _check_job_status.
  erewrite bind_raise_eq; [reflexivity|].
  rewrite assert_job_created_run.
  destruct (_job_id s) as [| | |id| |]; try reflexivity.
  exfalso. exact (Hno id eq_refl).
Qed.

Lemma job_id_cases (s : SDJobRunner) :
  (exists id, _job_id s = JStr id) \/ (forall id, _job_id s <> JStr id).
Proof.
  destruct (_job_id s) as [| | |id| |]; try (right; discriminate). left. eauto.
Qed.

(** Every status check: at most one POST, no sleep, [self] untouched. *)
Lemma status_cases (s : SDJobRunner) h :
  exists v t,
    _check_job_status E s h = Run v s t /\
    sleeps t = [] /\ (List.length (posts t) <= 1)%nat /\
    (forall status, v = Ok status -> List.length (posts t) = 1%nat).
Proof.
  destruct (job_id_cases s) as [[id Hid]|Hno].
  - destruct (@check_status_run E s h id Hid) as [v [Hrun _]].
    exists v, [EToken; EPost (job_request E url_status s h)].
    split; [exact Hrun|]. cbn. repeat split; lia.
  - exists (Raise no_job_id_error), [].
    split; [exact (@status_without_job_id s h Hno)|]. cbn.
    repeat split; try lia. discriminate.
Qed.

(** Every download: at most one POST, no sleep, [self] untouched. *)
Lemma download_cases (s : SDJobRunner) h :
  exists v t,
    download_job_to_dataframe E s h = Run v s t /\
    sleeps t = [] /\ (List.length (posts t) <= 1)%nat.
Proof.
  destruct (job_id_cases s) as [[id Hid]|Hno].
  - destruct (@download_run E s h id Hid) as [v [Hrun _]].
    exists v, [EToken; EPost (job_request E url_download s h)].
    split; [exact Hrun|]. cbn. split; [reflexivity|lia].
  - destruct (@needs_job_id E s h Hno) as [_ [e [Hrun _]]].
    exists (Raise e), []. split; [exact Hrun|]. cbn. split; [reflexivity|lia].
Qed.

(** Every poll: either it reads [Processing], posts once and sleeps 10
    seconds, or it ends the loop, after at most two POSTs and no sleep. *)
Lemma poll_once_cases idx (s : SDJobRunner) h :
  exists v t,
    poll_once E idx s h = Run v s t /\
    ((v = Ok None /\ List.length (posts t) = 1%nat /\ sleeps t = [inject_Z 10]) \/
     (v <> Ok None /\ (List.length (posts t) <= 2)%nat /\ sleeps t = [])).
Proof.
  destruct (log_events_quiet s "Checking if job is complete...") as [Hlp [Hls _]].
  set (log := log_events s "Checking if job is complete...") in *.
  destruct (status_cases s (h ++ log)) as [v [t [Hrun [Hsl [Hp Hp1]]]]].
  unfold poll_once.
  erewrite bind_ok_eq by apply log_line_run. fold log.
  destruct v as [status|e].
  - erewrite bind_ok_eq by exact Hrun.
    specialize (Hp1 status eq_refl).
    destruct (status_is status "Completed").
    + destruct (download_cases s ((h ++ log) ++ t)) as [v2 [t2 [Hd [Hsl2 Hp2]]]].
      destruct v2 as [df|e].
      * erewrite bind_ok_eq by exact Hd. unfold ret. rewrite !prepend_Run.
        do 2 eexists. split; [reflexivity|]. right.
        rewrite !posts_app, !sleeps_app, !length_app, Hlp, Hls, Hsl, Hsl2.
        cbn. repeat split; try lia. discriminate.
      * erewrite bind_raise_eq by exact Hd. rewrite !prepend_Run.
        do 2 eexists. split; [reflexivity|]. right.
        rewrite !posts_app, !sleeps_app, !length_app, Hlp, Hls, Hsl, Hsl2.
        cbn. repeat split; try lia. discriminate.
    + destruct (status_is status "Processing").
      * erewrite bind_ok_eq by reflexivity. unfold ret. rewrite !prepend_Run.
        do 2 eexists. split; [reflexivity|]. left.
        rewrite !posts_app, !sleeps_app, !length_app, Hlp, Hls, Hsl.
        cbn. repeat split; lia.
      * unfold raise. rewrite !prepend_Run.
        do 2 eexists. split; [reflexivity|]. right.
        rewrite !posts_app, !sleeps_app, !length_app, Hlp, Hls, Hsl.
        cbn. repeat split; try lia. discriminate.
  - erewrite bind_raise_eq by exact Hrun. rewrite !prepend_Run.
    do 2 eexists. split; [reflexivity|]. right.
    rewrite !posts_app, !sleeps_app, !length_app, Hlp, Hls, Hsl.
    cbn. repeat split; try lia. discriminate.
Qed.

(** Every polling loop of [n] rounds. *)
Lemma poll_loop_cases n : forall a (s : SDJobRunner) h,
  exists v t k,
    for_in (seq a n) (poll_once E) s h = Run v s t /\
    sleeps t = repeat (inject_Z 10) k /\
    ((v = Ok None /\ k = n /\ List.length (posts t) = n) \/
     (v <> Ok None /\ (k < n)%nat /\ (List.length (posts t) <= k + 2)%nat)).
Proof.
  induction n as [|n IH]; intros a s h.
  - exists (Ok None), [], 0%nat. split; [reflexivity|]. split; [reflexivity|].
    left. repeat split.
  - destruct (poll_once_cases a s h) as [v [t [Hpoll Hcases]]].
    simpl seq. simpl for_in.
    destruct Hcases as [[-> [Hp Hs]]|[Hv [Hp Hs]]].
    + destruct (IH (Datatypes.S a) s (h ++ t)) as [v2 [t2 [k [Hloop [Hsl Hcases]]]]].
      exists v2, (t ++ t2), (Datatypes.S k).
      split; [erewrite bind_ok_eq by exact Hpoll; cbv beta iota;
              rewrite Hloop; reflexivity|].
      rewrite sleeps_app, posts_app, length_app, Hs, Hsl, Hp.
      split; [reflexivity|].
      destruct Hcases as [[-> [-> Hp2]]|[Hv2 [Hk Hp2]]].
      * left. repeat split. lia.
      * right. repeat split; try lia. exact Hv2.
    + exists v, (t ++ []), 0%nat.
      destruct v as [[df|]|e]; try (exfalso; apply Hv; reflexivity).
      * split; [erewrite bind_ok_eq by exact Hpoll; reflexivity|].
        rewrite app_nil_r, Hs. split; [reflexivity|]. right.
        repeat split; try lia. discriminate.
      * split; [erewrite bind_raise_eq by exact Hpoll; rewrite app_nil_r;
                reflexivity|].
        rewrite app_nil_r, Hs. split; [reflexivity|]. right.
        repeat split; try lia. discriminate.
Qed.

End PollCases.

(** Every run of the pipeline. *)
Lemma load_df_cases (E : Env) model_id geolevel response_format portfolio_id buffers
    geoid_list (s : SDJobRunner) h :
  exists v t k,
    load_df_from_job_pipeline E model_id geolevel response_format portfolio_id buffers
      geoid_list s h =
    Run v (final (create_job E model_id geolevel response_format portfolio_id geoid_list
                    buffers s h)) t /\
    (k <= 100)%nat /\
    sleeps t = repeat (inject_Z 10) k /\
    (List.length (posts t) <= 102)%nat.
Proof.
  destruct (@create_job_final_run E model_id geolevel response_format portfolio_id
              geoid_list buffers s h) as [vc [s' [tc [Hc _]]]].
  assert (Hquiet : sleeps tc = [] /\ (List.length (posts tc) <= 1)%nat).
  { destruct (log_events_quiet s "Sending create job request to API service")
      as [Hlp [Hls _]].
    destruct (create_job_valid E geolevel response_format portfolio_id buffers) eqn:Hvalid.
    - destruct (@create_job_run E model_id geolevel response_format portfolio_id
                  geoid_list buffers s h Hvalid) as [v [s'' [post [Hrun [Hp [Hs _]]]]]].
      rewrite Hc in Hrun. inversion Hrun; subst.
      rewrite sleeps_app, posts_app, length_app, Hlp, Hls.
      cbn [sleeps posts app List.length]. rewrite Hp, Hs.
      split; [reflexivity|cbn; lia].
    - destruct (@create_job_invalid E model_id geolevel response_format portfolio_id
                  geoid_list buffers s h Hvalid) as [e [Hrun _]].
      rewrite Hc in Hrun. inversion Hrun; subst. cbn. split; [reflexivity|lia]. }
  destruct Hquiet as [Hcs Hcp].
  rewrite Hc. cbn [final]. unfold load_df_from_job_pipeline.
  destruct vc as [[]|e].
  - erewrite bind_ok_eq by exact Hc.
    destruct (@poll_loop_cases E 100 0 s' (h ++ tc)) as [v2 [t2 [k [Hloop [Hsl Hcases]]]]].
    assert (Hk : (k <= 100)%nat /\ (List.length (posts t2) <= 101)%nat).
    { destruct Hcases as [[_ [-> Hp]]|[_ [Hk Hp]]]; lia. }
    destruct Hk as [Hk Hp2].
    destruct v2 as [[df|]|e].
    + erewrite bind_ok_eq by exact Hloop. unfold ret. rewrite !prepend_Run.
      exists (Ok df), (tc ++ t2 ++ []), k. split; [reflexivity|].
      rewrite app_nil_r, sleeps_app, posts_app, length_app, Hcs, Hsl.
      repeat split; try lia.
    + erewrite bind_ok_eq by exact Hloop. unfold raise. rewrite !prepend_Run.
      eexists. exists (tc ++ t2 ++ []), k. split; [reflexivity|].
      rewrite app_nil_r, sleeps_app, posts_app, length_app, Hcs, Hsl.
      repeat split; try lia.
    + erewrite bind_raise_eq by exact Hloop. rewrite !prepend_Run.
      exists (Raise e), (tc ++ t2), k. split; [reflexivity|].
      rewrite sleeps_app, posts_app, length_app, Hcs, Hsl.
      repeat split; try lia.
  - erewrite bind_raise_eq by exact Hc.
    exists (Raise e), tc, 0%nat. split; [reflexivity|].
    rewrite Hcs. cbn [repeat]. repeat split; lia.
Qed.

(** X15: what the job calls do to the runner.  Whatever the service
    answers, a runner whose response format is [csv] or [json], as that of a
    fresh runner is, still has such a format after [create_job] and after
    [load_df_from_job_pipeline]; these never change its logging flag, and the
    status check and the download do not change the runner at all. *)
Theorem runner_invariant (E : Env) (model_id : string) (geolevel : option string)
    (response_format : string) (portfolio_id : option string)
    (buffers : option (list string)) (geoid_list : option (list Z))
    (s : SDJobRunner) (h : list event) :
  format_ok s = true ->
  let c := create_job E model_id geolevel response_format portfolio_id geoid_list
             buffers s h in
  let r := load_df_from_job_pipeline E model_id geolevel response_format portfolio_id
             buffers geoid_list s h in
  format_ok (final c) = true /\ _logging (final c) = _logging s /\
  final r = final c /\
  final (_check_job_status E s h) = s /\
  final (download_job_to_dataframe E s h) = s /\
  (forall logging, format_ok (SDJobRunner_init logging) = true).
Proof.
  intros Hok c r. subst c r.
  destruct (@create_job_final_run E model_id geolevel response_format portfolio_id
              geoid_list buffers s h) as [vc [s' [tc [Hc Hcases]]]].
  destruct (load_df_cases E model_id geolevel response_format portfolio_id buffers
              geoid_list s h) as [v [t [k [Hr _]]]].
  destruct (status_cases E s h) as [v1 [t1 [Hs _]]].
  destruct (download_cases E s h) as [v2 [t2 [Hd _]]].
  rewrite Hr, Hs, Hd, Hc. cbn [final].
  assert (Hfinal : format_ok s' = true /\ _logging s' = _logging s).
  { destruct Hcases as [[-> _]|[Hvalid [_ [job_id ->]]]].
    - split; [exact Hok|reflexivity].
    - split; [|reflexivity]. unfold format_ok. cbn [_response_format].
      unfold create_job_valid in Hvalid.
      destruct (str_in response_format response_formats); [reflexivity|discriminate]. }
  destruct Hfinal as [Hf Hl].
  repeat split; try assumption.
Qed.

Lemma runner_invariant_witness :
  format_ok (final (create_job (sample_env (job_service [])) "m" (Some "US") "json" None
                      None None (SDJobRunner_init true) [])) = true.
Proof.
  destruct (@runner_invariant (sample_env (job_service [])) "m" (Some "US") "json" None
              None None (SDJobRunner_init true) [] eq_refl) as [Hformat _].
  exact Hformat.
Defined.

(** X18: the ceiling of the pipeline.  Whatever the service does,
    [load_df_from_job_pipeline] sleeps at most 100 times, 10 seconds each
    time, and issues at most 102 POSTs (one creation, 100 status checks, one
    download). *)
Theorem pipeline_ceiling (E : Env) (model_id : string) (geolevel : option string)
    (response_format : string) (portfolio_id : option string)
    (buffers : option (list string)) (geoid_list : option (list Z))
    (s : SDJobRunner) (h : list event) :
  let r := load_df_from_job_pipeline E model_id geolevel response_format portfolio_id
             buffers geoid_list s h in
  (exists k, (k <= 100)%nat /\ sleeps (trace r) = repeat (inject_Z 10) k) /\
  (List.length (posts (trace r)) <= 102)%nat.
Proof.
  intros r. subst r.
  destruct (load_df_cases E model_id geolevel response_format portfolio_id buffers
              geoid_list s h) as [v [t [k [Hr [Hk [Hsl Hp]]]]]].
  rewrite Hr. cbn [trace]. split; [exists k; split; assumption|exact Hp].
Qed.

(** X16: what an answered download returns.  With a job id and an answer to
    the download POST, [download_job_to_dataframe] posts once and leaves the
    runner as it was; a status other than 200 raises "Failed to download
    file"; with status 200 the outcome is that of [pandas.read_csv] on the
    content for the format [csv] and that of [pandas.read_json] on it for
    [json], a table or the exception of the reader, and the decoded JSON body
    of the answer plays no part; with a format [create_job] accepts, the
    outcome is that of one of the two readers, so the [NotImplementedError] of
    the last branch is out of reach. *)
Theorem download_by_format (E : Env) (s : SDJobRunner) (h : list event) (id : string)
    (r : response) :
  let rq := job_request E url_download s h in
  let d := download_job_to_dataframe E s h in
  _job_id s = JStr id ->
  network E (h ++ [EToken]) rq = Responded r ->
  trace d = [EToken; EPost rq] /\ final d = s /\
  (status_code r <> 200 ->
   value d = Raise (APIQueryFailedException [PStr "Failed to download file"])) /\
  (status_code r = 200 -> _response_format s = "csv" ->
   value d = pandas_read_csv E (content r)) /\
  (status_code r = 200 -> _response_format s = "json" ->
   value d = pandas_read_json E (content r)) /\
  (status_code r = 200 -> format_ok s = true ->
   value d = pandas_read_csv E (content r) \/
   value d = pandas_read_json E (content r)).
Proof.
  intros rq d Hid Hnet. subst d. unfold download_job_to_dataframe.
  erewrite bind_ok_eq by (rewrite assert_job_created_run, Hid; reflexivity).
  rewrite app_nil_r.
  erewrite bind_ok_eq by reflexivity. erewrite bind_ok_eq by reflexivity.
  rewrite app_nil_r. fold url_download.
  change (Request url_download _ (bearer (token_provider E h)) None) with rq.
  assert (Hpost : requests_post E rq s (h ++ [EToken]) = Run (Ok r) s [EPost rq])
    by (unfold requests_post; rewrite Hnet; reflexivity).
  erewrite bind_ok_eq by exact Hpost.
  destruct (Z.eqb_spec (status_code r) 200) as [Hcode|Hcode]; cbn [negb].
  - erewrite bind_ok_eq by reflexivity. erewrite bind_ok_eq by reflexivity.
    unfold format_ok, response_formats, str_in. cbn [existsb].
    destruct (String.eqb_spec (_response_format s) "csv") as [Hcsv|Hcsv].
    + unfold of_result. rewrite !prepend_Run. cbn [value final trace app].
      split; [reflexivity|]. split; [reflexivity|]. split; [intros; contradiction|].
      split; [reflexivity|]. split; [|intros; left; reflexivity].
      intros _ Hjson. rewrite Hcsv in Hjson. discriminate.
    + destruct (String.eqb_spec (_response_format s) "json") as [Hjson|Hjson].
      * unfold of_result. rewrite !prepend_Run. cbn [value final trace app].
        split; [reflexivity|]. split; [reflexivity|]. split; [intros; contradiction|].
        split; [intros; contradiction|]. split; [reflexivity|].
        intros; right; reflexivity.
      * unfold raise. rewrite !prepend_Run. cbn [value final trace app].
        split; [reflexivity|]. split; [reflexivity|]. split; [intros; contradiction|].
        split; [intros; contradiction|]. split; [intros; contradiction|].
        intros _ Hf. discriminate.
  - run_binds. unfold raise. rewrite ?prepend_Run. cbn [value final trace app].
    repeat split; try contradiction; try discriminate.
Qed.

(** A 200 answer with a CSV body for a [csv] runner is read by
    [pandas.read_csv]. *)
Lemma download_by_format_witness :
  value (download_job_to_dataframe (sample_env (job_service []))
           (mkRunner false (JStr "job-1") "csv") []) = Ok (JStr "GEOID,UNITS").
Proof.
  destruct (@download_by_format (sample_env (job_service []))
              (mkRunner false (JStr "job-1") "csv") [] "job-1"
              (Response 200 "GEOID,UNITS" None) eq_refl eq_refl)
    as [_ [_ [_ [Hcsv _]]]].
  exact (Hcsv eq_refl eq_refl).
Defined.

(** X17: how an answered status check fails.  With a job id and an answer
    to the status POST, [_check_job_status] posts once and leaves the runner
    as it was.  A status other than 200 raises "Failed to determine job
    status" whatever the body.  With status 200: a body that is not JSON raises
    the decoding error; a JSON object without [success] raises [KeyError]; a
    falsy [success] raises [APIQueryFailedException] with the whole decoded
    body, not only its message; a truthy [success] without [message] raises
    [KeyError]. *)
Theorem status_check_failures (E : Env) (s : SDJobRunner) (h : list event) (id : string)
    (r : response) :
  let rq := job_request E url_status s h in
  let c := _check_job_status E s h in
  _job_id s = JStr id ->
  network E (h ++ [EToken]) rq = Responded r ->
  trace c = [EToken; EPost rq] /\ final c = s /\
  (status_code r <> 200 ->
   value c = Raise (APIQueryFailedException [PStr "Failed to determine job status"])) /\
  (status_code r = 200 -> body_json r = None -> value c = Raise JSONDecodeError) /\
  (status_code r = 200 ->
   forall body, body_json r = Some (JDict body) ->
     (dict_get body "success" = None -> value c = Raise (KeyError "success")) /\
     (forall flag, dict_get body "success" = Some flag -> truthy flag = false ->
        value c = Raise (APIQueryFailedException [PJson (JDict body)])) /\
     (forall flag, dict_get body "success" = Some flag -> truthy flag = true ->
        dict_get body "message" = None -> value c = Raise (KeyError "message"))).
Proof.
  intros rq c Hid Hnet. subst c.
  destruct (_check_job_status E s h) as [v s' t] eqn:Hc. cbn [value final trace].
  revert Hc. unfold _check_job_status.
  erewrite bind_ok_eq by (rewrite assert_job_created_run, Hid; reflexivity).
  rewrite app_nil_r.
  erewrite bind_ok_eq by reflexivity. erewrite bind_ok_eq by reflexivity.
  rewrite app_nil_r. fold url_status.
  change (Request url_status _ (bearer (token_provider E h)) None) with rq.
  assert (Hpost : requests_post E rq s (h ++ [EToken]) = Run (Ok r) s [EPost rq])
    by (unfold requests_post; rewrite Hnet; reflexivity).
  erewrite bind_ok_eq by exact Hpost.
  destruct (Z.eqb_spec (status_code r) 200) as [Hcode|Hcode]; cbn [negb].
  - erewrite bind_ok_eq by reflexivity. unfold response_json.
    destruct (body_json r) as [res|] eqn:Hbody.
    + erewrite bind_ok_eq by reflexivity. unfold getitem at 1.
      destruct res as [| | | | |d];
        try (run_binds; unfold raise; rewrite ?prepend_Run; cbn [app];
             intros Hc; inversion Hc; subst v s' t;
             repeat split; try contradiction; discriminate).
      destruct (dict_get d "success") as [flag|] eqn:Hs.
      * erewrite bind_ok_eq by reflexivity.
        destruct (truthy flag) eqn:Ht; cbn [negb].
        -- unfold getitem.
           destruct (dict_get d "message") as [message|] eqn:Hm;
             unfold ret, raise; rewrite ?prepend_Run; cbn [app];
             intros Hc; inversion Hc; subst v s' t;
             (split; [reflexivity|]); (split; [reflexivity|]);
             (split; [intros; contradiction|]); (split; [discriminate|]);
             intros _ body Hb; inversion Hb; subst body;
             (split; [congruence|]); (split; intros; congruence).
        -- unfold raise. rewrite ?prepend_Run. cbn [app].
           intros Hc; inversion Hc; subst v s' t.
           split; [reflexivity|]. split; [reflexivity|].
           split; [intros; contradiction|]. split; [discriminate|].
           intros _ body Hb. inversion Hb; subst body.
           split; [congruence|]. split; intros; congruence.
      * run_binds. unfold raise. rewrite ?prepend_Run. cbn [app].
        intros Hc; inversion Hc; subst v s' t.
        split; [reflexivity|]. split; [reflexivity|].
        split; [intros; contradiction|]. split; [discriminate|].
        intros _ body Hb. inversion Hb; subst body.
        split; [reflexivity|]. split; intros; congruence.
    + run_binds. unfold raise. rewrite ?prepend_Run. cbn [app].
      intros Hc; inversion Hc; subst v s' t.
      repeat split; try contradiction; discriminate.
  - run_binds. unfold raise. rewrite ?prepend_Run. cbn [app].
    intros Hc; inversion Hc; subst v s' t.
    repeat split; try contradiction; try discriminate.
Qed.

Lemma status_check_failures_witness :
  value (_check_job_status (sample_env closed_job_service)
           (mkRunner false (JStr "job-1") "csv") []) =
  Raise (APIQueryFailedException [PStr "Failed to determine job status"]).
Proof.
  destruct (@status_check_failures (sample_env closed_job_service)
              (mkRunner false (JStr "job-1") "csv") [] "job-1"
              (Response 403 ""
                 (Some (JDict [("success", JBool false);
                               ("message", JStr "quota exceeded")])))
              eq_refl eq_refl)
    as [_ [_ [Hcode _]]].
  apply Hcode. discriminate.
Defined.

(** X19: the pipeline without a usable job.  If [create_job] raises,
    [load_df_from_job_pipeline] raises the same exception and does nothing
    more.  If [create_job] succeeds but the job id the service gave is not a
    string, a number say, the first status check fails with the "no job id
    found" assertion: after the creation there is at most the log line, and
    no status POST. *)
Theorem pipeline_without_job (E : Env) (model_id : string) (geolevel : option string)
    (response_format : string) (portfolio_id : option string)
    (buffers : option (list string)) (geoid_list : option (list Z))
    (s : SDJobRunner) (h : list event) :
  let c := create_job E model_id geolevel response_format portfolio_id geoid_list
             buffers s h in
  let r := load_df_from_job_pipeline E model_id geolevel response_format portfolio_id
             buffers geoid_list s h in
  (forall e, value c = Raise e -> r = Run (Raise e) (final c) (trace c)) /\
  (value c = Ok tt -> (forall id, _job_id (final c) <> JStr id) ->
   r = Run (Raise no_job_id_error) (final c)
         (trace c ++ log_events (final c) "Checking if job is complete...")).
Proof.
  intros c r. split.
  - intros e He.
    assert (Hrun : create_job E model_id geolevel response_format portfolio_id
                     geoid_list buffers s h = Run (Raise e) (final c) (trace c))
      by (rewrite <- He; symmetry; apply run_eta).
    unfold r, load_df_from_job_pipeline.
    erewrite bind_raise_eq by exact Hrun. reflexivity.
  - intros Hc Hno.
    assert (Hrun : create_job E model_id geolevel response_format portfolio_id
                     geoid_list buffers s h = Run (Ok tt) (final c) (trace c))
      by (rewrite <- Hc; symmetry; apply run_eta).
    set (log := log_events (final c) "Checking if job is complete...").
    assert (Hpoll : poll_once E 0 (final c) (h ++ trace c) =
                    Run (Raise no_job_id_error) (final c) log).
    { unfold poll_once. erewrite bind_ok_eq by apply log_line_run. fold log.
      erewrite bind_raise_eq by exact (@status_without_job_id E _ _ Hno).
      rewrite prepend_Run, app_nil_r. reflexivity. }
    unfold r, load_df_from_job_pipeline.
    erewrite bind_ok_eq by exact Hrun.
    change (seq 0 100) with (0%nat :: seq 1 99). cbn [for_in].
    erewrite bind_raise_eq;
      [|erewrite bind_raise_eq by exact Hpoll; reflexivity].
    rewrite prepend_Run. reflexivity.
Qed.

Lemma pipeline_without_job_witness :
  load_df_from_job_pipeline (sample_env numbering_job_service) "m" (Some "US") "csv"
    None None None (SDJobRunner_init false) [] =
  Run (Raise no_job_id_error) (mkRunner false (JNum 17) "csv")
      [EToken;
       EPost (create_request (sample_env numbering_job_service) [] "m" (Some "US") "csv"
                None None None)].
Proof.
  destruct (@pipeline_without_job (sample_env numbering_job_service) "m" (Some "US")
              "csv" None None None (SDJobRunner_init false) []) as [_ Hnumber].
  apply Hnumber.
  - reflexivity.
  - intros id. discriminate.
Defined.

(** A created job: the run of [create_job] on a truthy [success] with a
    [job_id]. *)
Lemma create_job_success_run (E : Env) model_id geolevel response_format portfolio_id
    geoid_list buffers (s : SDJobRunner) h code bytes body flag m job_id :
  let pre := log_events s "Sending create job request to API service" in
  let rq := create_request E (h ++ pre) model_id geolevel response_format portfolio_id
              geoid_list buffers in
  create_job_valid E geolevel response_format portfolio_id buffers = true ->
  network E (h ++ pre ++ [EToken]) rq =
    Responded (Response code bytes (Some (JDict body))) ->
  dict_get body "success" = Some flag -> truthy flag = true ->
  dict_get body "message" = Some (JDict m) ->
  dict_get m "job_id" = Some job_id ->
  exists t,
    create_job E model_id geolevel response_format portfolio_id geoid_list buffers s h =
    Run (Ok tt) (mkRunner (_logging s) job_id response_format) t.
Proof.
  intros pre rq Hvalid Hnet Hs Ht Hm Hjid.
  rewrite (@create_job_answered E model_id geolevel response_format portfolio_id
             geoid_list buffers s h _ Hvalid Hnet).
  fold pre; fold rq; unfold response_json; cbn [body_json].
  erewrite bind_ok_eq by reflexivity. unfold getitem at 1. rewrite Hs.
  erewrite bind_ok_eq by reflexivity. rewrite Ht.
  unfold getitem at 1. rewrite Hm.
  erewrite bind_ok_eq by reflexivity. unfold getitem. rewrite Hjid.
  run_binds. rewrite log_line_run, ?prepend_Run.
  eexists. reflexivity.
Qed.

(** X20: the job id goes round.  After a [create_job] that the service
    answered with a truthy [success] and a string [job_id], the status check
    and the download each send one POST, to their own endpoint, whose JSON is
    that job id alone and whose bearer token is fetched anew for the call. *)
Theorem job_id_round_trip (E : Env) (model_id : string) (geolevel : option string)
    (response_format : string) (portfolio_id : option string)
    (geoid_list : option (list Z)) (buffers : option (list string))
    (s : SDJobRunner) (h : list event) (code : Z) (bytes : string) (body : dict json)
    (flag : json) (m : dict json) (id : string) :
  let pre := log_events s "Sending create job request to API service" in
  let rq := create_request E (h ++ pre) model_id geolevel response_format portfolio_id
              geoid_list buffers in
  let c := create_job E model_id geolevel response_format portfolio_id geoid_list
             buffers s h in
  create_job_valid E geolevel response_format portfolio_id buffers = true ->
  network E (h ++ pre ++ [EToken]) rq =
    Responded (Response code bytes (Some (JDict body))) ->
  dict_get body "success" = Some flag -> truthy flag = true ->
  dict_get body "message" = Some (JDict m) ->
  dict_get m "job_id" = Some (JStr id) ->
  forall h',
    trace (_check_job_status E (final c) h') =
      [EToken;
       EPost (Request url_status (JDict [("job_id", JStr id)])
                (bearer (token_provider E h')) None)] /\
    trace (download_job_to_dataframe E (final c) h') =
      [EToken;
       EPost (Request url_download (JDict [("job_id", JStr id)])
                (bearer (token_provider E h')) None)].
Proof.
  intros pre rq c Hvalid Hnet Hs Ht Hm Hjid h'. subst c.
  destruct (@create_job_success_run E model_id geolevel response_format portfolio_id
              geoid_list buffers s h code bytes body flag m (JStr id)
              Hvalid Hnet Hs Ht Hm Hjid) as [t Hrun].
  rewrite Hrun. cbn [final].
  set (s' := mkRunner (_logging s) (JStr id) response_format).
  destruct (@check_status_run E s' h' id eq_refl) as [v1 [Hstatus _]].
  destruct (@download_run E s' h' id eq_refl) as [v2 [Hdownload _]].
  rewrite Hstatus, Hdownload. split; reflexivity.
Qed.

Lemma job_id_round_trip_witness :
  trace (_check_job_status (sample_env (job_service []))
           (final (create_job (sample_env (job_service [])) "m" (Some "US") "csv" None
                     None None (SDJobRunner_init false) []))
           []) =
  [EToken;
   EPost (Request url_status (JDict [("job_id", JStr "job-1")])
            (bearer "s3cr3t-t0k3n") None)].
Proof.
  destruct (@job_id_round_trip (sample_env (job_service [])) "m" (Some "US") "csv" None
              None None (SDJobRunner_init false) [] 200 ""
              [("success", JBool true); ("message", JDict [("job_id", JStr "job-1")])]
              (JBool true) [("job_id", JStr "job-1")] "job-1"
              eq_refl eq_refl eq_refl eq_refl eq_refl eq_refl []) as [Hstatus _].
  exact Hstatus.
Defined.
